(** * The assistant backend: chunker, tool registry, conversation loop, ingestion

    A shallow embedding of the Python sources
      backend/rag/document_processor.py   (_chunk_text, process_document)
      backend/ai/function_registry.py     (FunctionRegistry)
      backend/ai/task_router.py           (TaskRouter.process)
      backend/ai/llm_service.py           (LLMService.embed, chat_with_tools)
      backend/rag/embedding_service.py    (EmbeddingService.embed)
      backend/rag/retrieval_service.py    (RetrievalService.search, search_json)
      backend/tasks/document_handler.py   (_safe_doc_id, ingest_document)
      backend/tasks/image_handler.py      (analyze_image)
      backend/tasks/news_handler.py       (_format_digest, fetch_tech_news_digest)
      backend/services.py                 (get_registry)
      backend/main.py                     (chat)
    together with the statements of the specification that concern them. *)

From Stdlib Require Import ZArith NArith List Bool Lia String Ascii DecimalString.
From Stdlib Require DecimalPos DecimalZ.
From stdpp Require Import gmap.
Import ListNotations.

Set Default Proof Using "Type".
Set Warnings "-register-all".

(** ** Python strings

    A Python [str] is a sequence of Unicode code points; indices and lengths
    are Python ints, hence [Z]. *)

Definition codepoint := N.
Definition pystr := list codepoint.

Definition str (s : string) : pystr :=
  List.map N_of_ascii (list_ascii_of_string s).

Definition LF : codepoint := 10%N.
Definition CR : codepoint := 13%N.

Definition py_len (s : pystr) : Z := Z.of_nat (List.length s).

(** [bool(s)] for a string. *)
Definition nonempty (s : pystr) : bool :=
  match s with [] => false | _ :: _ => true end.

Definition pystr_eqb (a b : pystr) : bool :=
  if decide (a = b) then true else false.

(** How CPython clips a slice bound against the length of the sequence
    (negative bounds count from the end). *)
Definition adjust_index (len i : Z) : Z :=
  if (i <? 0)%Z then Z.max 0 (i + len) else Z.min i len.

(** [s[start:stop]] *)
Definition py_slice (s : pystr) (start stop : Z) : pystr :=
  let i := adjust_index (py_len s) start in
  let j := adjust_index (py_len s) stop in
  firstn (Z.to_nat (j - i)) (skipn (Z.to_nat i) s).

(** [s[start:]] *)
Definition py_slice_from (s : pystr) (start : Z) : pystr :=
  skipn (Z.to_nat (adjust_index (py_len s) start)) s.

Fixpoint starts_with (sub s : pystr) : bool :=
  match sub, s with
  | [], _ => true
  | _ :: _, [] => false
  | c :: sub', d :: s' => N.eqb c d && starts_with sub' s'
  end.

(** Scan of the suffix [s] that begins at absolute index [k]: the highest
    index not above [hi] where [sub] occurs, or [best] when there is none. *)
Fixpoint rfind_scan (sub s : pystr) (k hi best : Z) : Z :=
  match s with
  | [] => if (k <=? hi)%Z && starts_with sub [] then k else best
  | _ :: s' =>
      rfind_scan sub s' (k + 1) hi
        (if (k <=? hi)%Z && starts_with sub s then k else best)
  end.

(** [s.rfind(sub, start, stop)]: the highest index [k] with
    [start <= k], [k + len(sub) <= stop] and [s[k:k+len(sub)] == sub]
    after the bounds are adjusted (a negative bound counts from the end,
    [stop] is clipped to the length); -1 when there is none. *)
Definition py_rfind (s sub : pystr) (start stop : Z) : Z :=
  let i := if (start <? 0)%Z then Z.max 0 (start + py_len s) else start in
  let j := adjust_index (py_len s) stop in
  if (j - i <? py_len sub)%Z then (-1)%Z
  else rfind_scan sub (skipn (Z.to_nat i) s) i (j - py_len sub) (-1).

(** [str.isspace] for one code point (the White_Space / bidirectional
    WS, B, S table of CPython's unicodectype). *)
Definition py_isspace (c : codepoint) : bool :=
  ((9 <=? c) && (c <=? 13) || (28 <=? c) && (c <=? 32)
   || (c =? 133) || (c =? 160) || (c =? 5760)
   || (8192 <=? c) && (c <=? 8202)
   || (c =? 8232) || (c =? 8233) || (c =? 8239) || (c =? 8287)
   || (c =? 12288))%N.

Fixpoint py_lstrip (s : pystr) : pystr :=
  match s with
  | [] => []
  | c :: s' => if py_isspace c then py_lstrip s' else s
  end.

Definition py_rstrip (s : pystr) : pystr := rev (py_lstrip (rev s)).

(** [s.strip()] *)
Definition py_strip (s : pystr) : pystr := py_rstrip (py_lstrip s).

(** [s.replace(old, new)] for a non-empty [old]: leftmost, non-overlapping
    occurrences. [skip] counts the characters of a matched occurrence that
    are still to be dropped. *)
Fixpoint py_replace_aux (old new : pystr) (skip : nat) (s : pystr) : pystr :=
  match s with
  | [] => []
  | c :: s' =>
      match skip with
      | S k => py_replace_aux old new k s'
      | O =>
          if starts_with old s
          then new ++ py_replace_aux old new (List.length old - 1) s'
          else c :: py_replace_aux old new 0 s'
      end
  end.

Definition py_replace (s old new : pystr) : pystr := py_replace_aux old new 0 s.

(** ** backend/rag/document_processor.py *)

Definition CHUNK_SIZE : Z := 800.
Definition CHUNK_OVERLAP : Z := 200.

(** Lines 26-32 of [_chunk_text]: the end of the chunk of a window that does
    not reach the end of the text. *)
Definition chunk_end (text : pystr) (chunk_size start : Z) : Z :=
  let end_ := (start + chunk_size)%Z in
  let break_at := py_rfind text [LF; LF] start (end_ + 1) in
  let break_at :=
    if (break_at =? -1)%Z then py_rfind text [LF] start (end_ + 1) else break_at in
  let break_at :=
    if (break_at =? -1)%Z then py_rfind text (str ". ") start (end_ + 1) else break_at in
  if negb (break_at =? -1)%Z && (start <? break_at)%Z
  then (break_at + 1)%Z else end_.

(** One pass through the body of the [while] loop. *)
Inductive chunk_step_result :=
| Last (chunk : pystr)                (* [chunks.append(...); break] *)
| Next (chunk : pystr) (start' : Z).  (* [chunks.append(...)], new [start] *)

Definition chunk_step (text : pystr) (chunk_size overlap start : Z)
  : chunk_step_result :=
  let end_ := (start + chunk_size)%Z in
  if (py_len text <=? end_)%Z then Last (py_strip (py_slice_from text start))
  else
    let end_ := chunk_end text chunk_size start in
    Next (py_strip (py_slice text start end_))
         (if (overlap <? end_)%Z then end_ - overlap else end_)%Z.

(** The [while start < len(text)] loop. The loop need not terminate, so it is
    run on fuel: [None] means the fuel ran out before the loop was left. *)
Fixpoint chunk_loop (fuel : nat) (text : pystr) (chunk_size overlap start : Z)
    (chunks : list pystr) : option (list pystr) :=
  if (start <? py_len text)%Z then
    match fuel with
    | O => None
    | S fuel' =>
        match chunk_step text chunk_size overlap start with
        | Last c => Some (chunks ++ [c])
        | Next c start' =>
            chunk_loop fuel' text chunk_size overlap start' (chunks ++ [c])
        end
    end
  else Some chunks.

Definition normalize_newlines (text : pystr) : pystr :=
  py_replace (py_replace text [CR; LF] [LF]) [CR] [LF].

Definition _chunk_text (fuel : nat) (text : pystr) (chunk_size overlap : Z)
  : option (list pystr) :=
  if negb (nonempty text) || negb (nonempty (py_strip text)) then Some []
  else
    let text := normalize_newlines text in
    option_map (List.filter nonempty)
               (chunk_loop fuel text chunk_size overlap 0 []).


(** *** Vocabulary for statements about the chunker *)

(** [sub] occurs in [s] at index [k]. *)
Definition occurs_at (s sub : pystr) (k : Z) : bool :=
  (0 <=? k)%Z && (k <=? py_len s)%Z && starts_with sub (skipn (Z.to_nat k) s).

(** [b] is the last place where [sub] lies wholly inside the index range
    [lo .. hi], both ends included. *)
Definition last_break (s sub : pystr) (lo hi b : Z) : Prop :=
  (lo <= b)%Z /\ (b + py_len sub <= hi + 1)%Z /\ occurs_at s sub b = true /\
  forall k, (b < k)%Z -> (k + py_len sub <= hi + 1)%Z -> occurs_at s sub k = false.

(** [sub] lies nowhere wholly inside [lo .. hi]. *)
Definition no_break (s sub : pystr) (lo hi : Z) : Prop :=
  forall k, (lo <= k)%Z -> (k + py_len sub <= hi + 1)%Z -> occurs_at s sub k = false.

(** The slice end that [_chunk_text] uses for the chunk that starts at
    [start]: [len(text)] for [text[start:]], [chunk_end] otherwise. *)
Definition emitted_end (text : pystr) (chunk_size start : Z) : Z :=
  if (py_len text <=? start + chunk_size)%Z then py_len text
  else chunk_end text chunk_size start.

(** The chunk end as section 4.1 of the specification words it: within the
    window [start, start + chunk_size) the last paragraph break, else the last
    newline, else the last period-space, else the raw window boundary. The
    chunk is taken to end just behind the first character of the separator,
    which is where the code cuts. *)
Definition spec_chunk_end (text : pystr) (chunk_size start : Z) : Z :=
  let end_ := (start + chunk_size)%Z in
  let pick sub := py_rfind text sub start end_ in
  let b := pick [LF; LF] in
  let b := if (b =? -1)%Z then pick [LF] else b in
  let b := if (b =? -1)%Z then pick (str ". ") else b in
  if (b =? -1)%Z then end_ else (b + 1)%Z.

(** The text on which the default parameters loop: 700 letters, one newline,
    2000 letters without any separator. *)
Definition looping_text : pystr :=
  List.repeat 97%N 700 ++ [LF] ++ List.repeat 98%N 2000.

(** Two small texts used to compare the code with the wording of 4.1. *)
Definition short_two_paragraphs : pystr := str "a" ++ [LF; LF] ++ str "b".

Definition break_at_start_text : pystr :=
  [LF; LF] ++ str "abc" ++ [LF] ++ str "defghijklmnop".

Definition two_paragraph_text : pystr :=
  str "alpha beta" ++ [LF; LF] ++ str "gamma delta epsilon".

(** ** Python values, exceptions and effects *)

(** The values that cross the interfaces of the modelled code. *)
Inductive pyval :=
| PNone
| PBool (b : bool)
| PInt (n : Z)
| PFloat (repr : pystr)                  (* a float, as the text json.dumps writes for it *)
| PStr (s : pystr)
| PList (items : list pyval)
| PDict (entries : list (pystr * pyval)) (* a dict with str keys, in insertion order *)
| PObj (type_name : pystr).              (* an object of any other type: set, bytes, datetime, ... *)

(** An exception object: its class name, [str(e)], and whether its class
    derives from [Exception] (KeyboardInterrupt, SystemExit and GeneratorExit
    derive from BaseException only, and [except Exception] lets them pass). *)
Record exn := {
  exn_type : pystr;
  exn_str : pystr;
  exn_is_Exception : bool
}.

Inductive outcome (A : Type) :=
| Ret (a : A)
| Raise (e : exn).
Arguments Ret {A} a.
Arguments Raise {A} e.

(** [x or default] for an optional string. *)
Definition or_str (x : option pystr) (default : pystr) : pystr :=
  match x with
  | Some (c :: s) => c :: s
  | _ => default
  end.

(** [d.get(k, default)] *)
Fixpoint dict_get (d : list (pystr * pyval)) (k : pystr) (default : pyval) : pyval :=
  match d with
  | [] => default
  | (k', v) :: d' => if pystr_eqb k k' then v else dict_get d' k default
  end.

(** [bool(v)] *)
Definition py_truthy (v : pyval) : bool :=
  match v with
  | PNone => false
  | PBool b => b
  | PInt n => negb (n =? 0)%Z
  | PFloat r => negb (pystr_eqb r (str "0.0") || pystr_eqb r (str "-0.0"))
  | PStr s => nonempty s
  | PList l => match l with [] => false | _ => true end
  | PDict d => match d with [] => false | _ => true end
  | PObj _ => true
  end.

(** [str(n)] for an int. *)
Definition py_str_int (n : Z) : pystr := str (NilZero.string_of_int (Z.to_int n)).

(** *** json.dumps with its default options *)

Definition QUOTE : codepoint := 34%N.
Definition BACKSLASH : codepoint := 92%N.

Definition hex_digit (n : N) : codepoint :=
  (if n <? 10 then 48 + n else 87 + n)%N.

(** The escape [\uXXXX] of a 16-bit unit. *)
Definition u_escape (n : N) : pystr :=
  [BACKSLASH; 117%N;
   hex_digit (N.shiftr n 12 mod 16); hex_digit (N.shiftr n 8 mod 16);
   hex_digit (N.shiftr n 4 mod 16); hex_digit (n mod 16)].

(** The replacement of one character in [py_encode_basestring_ascii]. *)
Definition escape_char (c : codepoint) : pystr :=
  (if c =? QUOTE then [BACKSLASH; QUOTE]
   else if c =? BACKSLASH then [BACKSLASH; BACKSLASH]
   else if c =? 10 then [BACKSLASH; 110]
   else if c =? 13 then [BACKSLASH; 114]
   else if c =? 9 then [BACKSLASH; 116]
   else if c =? 8 then [BACKSLASH; 98]
   else if c =? 12 then [BACKSLASH; 102]
   else if (32 <=? c) && (c <=? 126) then [c]
   else if c <? 65536 then u_escape c
   else
     let n := c - 65536 in
     u_escape (N.lor 55296 (N.land (N.shiftr n 10) 1023))
       ++ u_escape (N.lor 56320 (N.land n 1023)))%N.

Definition json_string (s : pystr) : pystr :=
  [QUOTE] ++ flat_map escape_char s ++ [QUOTE].

Fixpoint join (sep : pystr) (parts : list pystr) : pystr :=
  match parts with
  | [] => []
  | [p] => p
  | p :: rest => p ++ sep ++ join sep rest
  end.

Definition not_serializable (type_name : pystr) : exn :=
  {| exn_type := str "TypeError";
     exn_str := str "Object of type " ++ type_name ++ str " is not JSON serializable";
     exn_is_Exception := true |}.

(** [json.dumps(v)]: the text, or the TypeError of the first value met that
    has no JSON form. *)
Fixpoint json_dumps (v : pyval) : outcome pystr :=
  let fix items_text (l : list pyval) : outcome (list pystr) :=
    match l with
    | [] => Ret []
    | x :: l' =>
        match json_dumps x with
        | Raise e => Raise e
        | Ret t =>
            match items_text l' with
            | Raise e => Raise e
            | Ret ts => Ret (t :: ts)
            end
        end
    end in
  let fix entries_text (l : list (pystr * pyval)) : outcome (list pystr) :=
    match l with
    | [] => Ret []
    | (k, x) :: l' =>
        match json_dumps x with
        | Raise e => Raise e
        | Ret t =>
            match entries_text l' with
            | Raise e => Raise e
            | Ret ts => Ret ((json_string k ++ str ": " ++ t) :: ts)
            end
        end
    end in
  match v with
  | PNone => Ret (str "null")
  | PBool true => Ret (str "true")
  | PBool false => Ret (str "false")
  | PInt n => Ret (py_str_int n)
  | PFloat r => Ret r
  | PStr s => Ret (json_string s)
  | PList items =>
      match items_text items with
      | Raise e => Raise e
      | Ret ts => Ret (str "[" ++ join (str ", ") ts ++ str "]")
      end
  | PDict entries =>
      match entries_text entries with
      | Raise e => Raise e
      | Ret ts => Ret (str "{" ++ join (str ", ") ts ++ str "}")
      end
  | PObj t => Raise (not_serializable t)
  end.

(** The payload [json.dumps({"error": msg})]. *)
Definition error_payload (msg : pystr) : pystr :=
  str "{" ++ json_string (str "error") ++ str ": " ++ json_string msg ++ str "}".

(** *** Calls to the outside world

    The collaborators (language model, embedding service, vector collection,
    file system, tool handlers) act on a world [W]. Every call to one of them
    is appended to a trace, so that statements can count them. *)

Inductive event :=
| EvChat (messages tools : list pyval)          (* llm.chat(messages, tools=...) *)
| EvTool (name : pystr) (arguments : pyval)     (* a registered handler is called *)
| EvEmbed (model : pystr) (texts : list pystr)  (* client.embeddings.create *)
| EvCount                                       (* collection.count() *)
| EvQuery (embeddings : list pyval) (n_results : Z)
| EvAdd (ids : list pystr) (embeddings : list pyval)
        (documents : list pystr) (metadatas : list pyval)
| EvExists (path : pystr)                       (* path.exists() *)
| EvExtract (path : pystr)                      (* extract_text_from_file(path) *)
| EvVectorStore                                 (* VectorStore() *)
| EvEmbeddingService.                           (* EmbeddingService() *)

Record state (W : Type) := { world : W; trace : list event }.
Arguments world {W} s.
Arguments trace {W} s.

Definition Py (W A : Type) : Type := state W -> outcome A * state W.

Definition ret {W A} (a : A) : Py W A := fun s => (Ret a, s).
Definition raise {W A} (e : exn) : Py W A := fun s => (Raise e, s).

Definition bind {W A B} (m : Py W A) (k : A -> Py W B) : Py W B :=
  fun s =>
    match m s with
    | (Ret a, s') => k a s'
    | (Raise e, s') => (Raise e, s')
    end.

Definition lift {W A} (r : outcome A) : Py W A := fun s => (r, s).

(** A call to a collaborator: it is recorded, and acts on the world. *)
Definition call {W A} (ev : event) (f : W -> outcome A * W) : Py W A :=
  fun s =>
    let (r, w) := f (world s) in
    (r, {| world := w; trace := trace s ++ [ev] |}).

(** [try: m  except Exception as e: h(e)] *)
Definition try_except {W A} (m : Py W A) (h : exn -> Py W A) : Py W A :=
  fun s =>
    match m s with
    | (Raise e, s') => if exn_is_Exception e then h e s' else (Raise e, s')
    | r => r
    end.

Declare Scope py_scope.
Delimit Scope py_scope with py.
Notation "x <- m ;; k" := (bind m (fun x => k))
  (at level 100, m at next level, right associativity) : py_scope.

Definition is_chat (ev : event) : bool :=
  match ev with EvChat _ _ => true | _ => false end.
Definition is_embed (ev : event) : bool :=
  match ev with EvEmbed _ _ => true | _ => false end.

(** How many calls of a kind a trace holds. *)
Definition calls (kind : event -> bool) (t : list event) : nat :=
  List.length (List.filter kind t).

(** *** Library functions and collaborators *)

(** Functions of the Python library that the code calls and that are taken
    as given: [json.loads], which returns a value or raises (JSONDecodeError
    for a text that is no JSON document, RecursionError or ValueError for
    documents it gives up on), pathlib's [Path(p).name] and [Path(p).stem],
    and [str.isalnum] of the Unicode database for the code points from 128
    on. *)
Record pylib := {
  json_loads : pystr -> outcome pyval;
  path_name : pystr -> pystr;
  path_stem : pystr -> pystr;
  unicode_isalnum : codepoint -> bool
}.

(** [isinstance(e, json.JSONDecodeError)], by the name of the class. *)
Definition is_JSONDecodeError (e : exn) : bool :=
  pystr_eqb (exn_type e) (str "JSONDecodeError").

(** [try: args = json.loads(args_str)  except json.JSONDecodeError: args = {}]:
    any other exception of [json.loads] passes the handler. *)
Definition loads_or_empty (lib : pylib) (args_str : pystr) : outcome pyval :=
  match json_loads lib args_str with
  | Ret v => Ret v
  | Raise e => if is_JSONDecodeError e then Ret (PDict []) else Raise e
  end.

(** The dict that [llm.chat] returns; [tool_calls] holds the client
    library's tool-call objects ([tc.id], [tc.function.name],
    [tc.function.arguments]). *)
Record tool_call := {
  tc_id : pystr;
  tc_name : pystr;
  tc_arguments : option pystr
}.

Record chat_response := {
  resp_content : option pystr;
  resp_role : pystr;
  resp_tool_calls : option (list tool_call)
}.

(** What [collection.query] returns: for each key the rows, one per query
    embedding, or [None] when the key is absent. *)
Record query_result := {
  qr_ids : option (list (list pyval));
  qr_documents : option (list (list pyval));
  qr_metadatas : option (list (list pyval))
}.

(** The collaborators that are consumed through their interfaces;
    [VectorStore] and [EmbeddingService] are the two constructors, which
    open the collection and build the client, and may fail doing so. *)
Record services (W : Type) := {
  llm_chat : list pyval -> list pyval -> W -> outcome chat_response * W;
  embeddings_create : pystr -> list pystr -> W -> outcome (list pyval) * W;
  collection_count : W -> outcome Z * W;
  collection_query : list pyval -> Z -> W -> outcome query_result * W;
  collection_add : list pystr -> list pyval -> list pystr -> list pyval ->
                   W -> outcome unit * W;
  path_exists : pystr -> W -> outcome bool * W;
  extract_text_from_file : pystr -> W -> outcome pystr * W;
  VectorStore : W -> outcome unit * W;
  EmbeddingService : W -> outcome unit * W
}.
Arguments llm_chat {W} s.
Arguments embeddings_create {W} s.
Arguments collection_count {W} s.
Arguments collection_query {W} s.
Arguments collection_add {W} s.
Arguments path_exists {W} s.
Arguments extract_text_from_file {W} s.
Arguments VectorStore {W} s.
Arguments EmbeddingService {W} s.

(** ** backend/ai/function_registry.py *)

(** A handler stands for the call of the registered callable with the
    argument mapping unpacked into keywords: what the call returns or raises,
    and what it does to the world. *)
Definition handler (W : Type) : Type := pyval -> W -> outcome pyval * W.

Record FunctionRegistry (W : Type) := {
  _handlers : gmap pystr (handler W);
  _tools : list pyval
}.
Arguments _handlers {W} f.
Arguments _tools {W} f.

Section registry.
Context {W : Type}.

(** [FunctionRegistry()], given the module constant OPENAI_TOOLS. *)
Definition new_registry (OPENAI_TOOLS : list pyval) : FunctionRegistry W :=
  {| _handlers := ∅; _tools := OPENAI_TOOLS |}.

Definition register (reg : FunctionRegistry W) (name : pystr) (h : handler W)
  : FunctionRegistry W :=
  {| _handlers := <[name := h]> (_handlers reg); _tools := _tools reg |}.

Definition get_tools (reg : FunctionRegistry W) : list pyval := _tools reg.

Definition get_handler (reg : FunctionRegistry W) (name : pystr)
  : option (handler W) := _handlers reg !! name.

(** The conversion of a handler's return value (lines 95-97). *)
Definition convert_result (result : pyval) : Py W pystr :=
  match result with
  | PStr s => ret s
  | PNone => ret (str "Done")
  | _ => lift (json_dumps result)
  end.

Definition execute (reg : FunctionRegistry W) (name : pystr) (arguments : pyval)
  : Py W pystr :=
  match _handlers reg !! name with
  | None =>
      lift (json_dumps (PDict [(str "error", PStr (str "Unknown tool: " ++ name))]))
  | Some h =>
      try_except
        (result <- call (EvTool name arguments) (h arguments) ;;
         convert_result result)%py
        (fun e => lift (json_dumps (PDict [(str "error", PStr (exn_str e))])))
  end.
End registry.

(** ** backend/ai/task_router.py *)

Definition SYSTEM_PROMPT : pystr :=
  str "You are a helpful AI assistant. You can:" ++ [LF] ++
  str "- Add meetings to Google Calendar" ++ [LF] ++
  str "- Create new Apple notes" ++ [LF] ++
  str "- Compose new Gmail emails" ++ [LF] ++
  str "- Search the user's documents for answers" ++ [LF] ++
  str "- Answer general questions" ++ [LF] ++ [LF] ++
  str "When the user asks you to do something that requires a tool (calendar, note, email, document search), use the appropriate function. Otherwise respond in natural language. Be concise and helpful.".

Definition system_message : pyval :=
  PDict [(str "role", PStr (str "system")); (str "content", PStr SYSTEM_PROMPT)].

(** [s.startswith("http")] *)
Definition startswith_http (s : pystr) : bool := starts_with (str "http") s.

(** The content of the new user message (lines 56-63). *)
Definition user_content (user_message : pystr) (image : option pystr) : pyval :=
  match image with
  | Some (c :: img) =>
      let image := c :: img in
      let url :=
        if startswith_http image then image
        else str "data:image/jpeg;base64," ++ image in
      PList [PDict [(str "type", PStr (str "text")); (str "text", PStr user_message)];
             PDict [(str "type", PStr (str "image_url"));
                    (str "image_url", PDict [(str "url", PStr url)])]]
  | _ => PStr user_message
  end.

Definition user_message_dict (user_message : pystr) (image : option pystr) : pyval :=
  PDict [(str "role", PStr (str "user")); (str "content", user_content user_message image)].

(** The initial message sequence (lines 50-64). *)
Definition initial_messages (user_message : pystr) (history : option (list pyval))
    (image : option pystr) : list pyval :=
  [system_message]
    ++ match history with Some h => h | None => [] end
    ++ [user_message_dict user_message image].

Definition tool_call_dict (tc : tool_call) : pyval :=
  PDict [(str "id", PStr (tc_id tc));
         (str "type", PStr (str "function"));
         (str "function",
          PDict [(str "name", PStr (tc_name tc));
                 (str "arguments", PStr (or_str (tc_arguments tc) (str "{}")))])].

Definition assistant_message (content : pystr) (tool_calls : option (list tool_call))
  : pyval :=
  PDict [(str "role", PStr (str "assistant"));
         (str "content", PStr content);
         (str "tool_calls",
          PList (List.map tool_call_dict
                   match tool_calls with Some l => l | None => [] end))].

Definition tool_message (tc : tool_call) (result : pystr) : pyval :=
  PDict [(str "role", PStr (str "tool"));
         (str "tool_call_id", PStr (tc_id tc));
         (str "content", PStr result)].

(** [type(v).__name__] *)
Definition type_name (v : pyval) : pystr :=
  match v with
  | PNone => str "NoneType"
  | PBool _ => str "bool"
  | PInt _ => str "int"
  | PFloat _ => str "float"
  | PStr _ => str "str"
  | PList _ => str "list"
  | PDict _ => str "dict"
  | PObj t => t
  end.

Definition no_attribute (v : pyval) (attr : pystr) : exn :=
  {| exn_type := str "AttributeError";
     exn_str := str "'" ++ type_name v ++ str "' object has no attribute '"
                  ++ attr ++ str "'";
     exn_is_Exception := true |}.

(** [current[-1].get("content", "") if current else ""] *)
Definition last_content (current : list pyval) : outcome pyval :=
  match List.last (List.map Some current) None with
  | Some (PDict d) => Ret (dict_get d (str "content") (PStr []))
  | Some other => Raise (no_attribute other (str "get"))
  | None => Ret (PStr [])
  end.

(** What [process] hands back, with the final value of [current] and the way
    the loop was left kept for the statements: [exhausted] is set when the
    [for] loop ran out of rounds. *)
Record process_result := {
  answer : pyval;
  messages : list pyval;
  exhausted : bool
}.

Section task_router.
Context {W : Type} (lib : pylib) (svc : services W) (registry : FunctionRegistry W).

(** The inner [for tc in tool_calls] loop (lines 88-97). *)
Fixpoint run_tool_calls (tool_calls : list tool_call) (current : list pyval)
  : Py W (list pyval) :=
  match tool_calls with
  | [] => ret current
  | tc :: rest =>
      let name := tc_name tc in
      (args <- lift (loads_or_empty lib (or_str (tc_arguments tc) (str "{}"))) ;;
       result <- execute registry name args ;;
       run_tool_calls rest (current ++ [tool_message tc result]))%py
  end.

(** The [for _ in range(max_rounds)] loop (lines 68-98). *)
Fixpoint rounds (max_rounds : nat) (current : list pyval) : Py W process_result :=
  match max_rounds with
  | O =>
      (a <- lift (last_content current) ;;
       ret {| answer := a; messages := current; exhausted := true |})%py
  | S n =>
      (response <- call (EvChat current (_tools registry))
                        (llm_chat svc current (_tools registry)) ;;
       let assistant_content := or_str (resp_content response) [] in
       let tool_calls := resp_tool_calls response in
       let current := current ++ [assistant_message assistant_content tool_calls] in
       match tool_calls with
       | None | Some [] =>
           ret {| answer := PStr assistant_content; messages := current;
                  exhausted := false |}
       | Some tcs =>
           current <- run_tool_calls tcs current ;;
           rounds n current
       end)%py
  end.

Definition max_rounds : nat := 5.

Definition process_full (user_message : pystr) (history : option (list pyval))
    (image_url_or_base64 : option pystr) : Py W process_result :=
  rounds max_rounds (initial_messages user_message history image_url_or_base64).

(** [TaskRouter.process] *)
Definition process (user_message : pystr) (history : option (list pyval))
    (image_url_or_base64 : option pystr) : Py W pyval :=
  (r <- process_full user_message history image_url_or_base64 ;; ret (answer r))%py.
End task_router.

(** ** backend/ai/llm_service.py and backend/rag/embedding_service.py *)

Definition DEFAULT_EMBEDDING_MODEL : pystr := str "text-embedding-3-small".

Section embedding.
Context {W : Type} (svc : services W).

(** [LLMService.embed]; the upstream reply is taken as the list of
    [item.embedding] for the items of [r.data]. *)
Definition LLMService_embed (embedding_model : pystr) (texts : list pystr)
  : Py W (list pyval) :=
  match texts with
  | [] => ret []
  | _ =>
      try_except
        (call (EvEmbed embedding_model texts)
              (embeddings_create svc embedding_model texts))
        (fun e => raise e)
  end.

(** [EmbeddingService.embed], on an [LLMService()] with the default model. *)
Definition embed (texts : list pystr) : Py W (list pyval) :=
  LLMService_embed DEFAULT_EMBEDDING_MODEL texts.
End embedding.

(** ** backend/rag/retrieval_service.py *)

Definition index_out_of_range : exn :=
  {| exn_type := str "IndexError";
     exn_str := str "list index out of range";
     exn_is_Exception := true |}.

(** [results.get(key, [[]])[0]] *)
Definition first_row (rows : option (list (list pyval))) : outcome (list pyval) :=
  match rows with
  | None => Ret []
  | Some [] => Raise index_out_of_range
  | Some (r :: _) => Ret r
  end.

(** [xs or [filler] * n] *)
Definition or_filled (xs : list pyval) (filler : pyval) (n : nat) : list pyval :=
  match xs with
  | [] => List.repeat filler n
  | _ => xs
  end.

(** [zip(docs, metas, ids)] mapped to the result dicts (lines 39-41). *)
Fixpoint hits (docs metas ids : list pyval) : list pyval :=
  match docs, metas, ids with
  | doc :: docs', meta :: metas', id_ :: ids' =>
      PDict [(str "id", id_);
             (str "content", doc);
             (str "metadata", if py_truthy meta then meta else PDict [])]
        :: hits docs' metas' ids'
  | _, _, _ => []
  end.

Section retrieval.
Context {W : Type} (svc : services W).

(** [RetrievalService.search] *)
Definition search (query : pystr) (top_k : Z) : Py W (list pyval) :=
  (n <- call EvCount (collection_count svc) ;;
   if (n =? 0)%Z then ret []
   else
     embeddings <- embed svc [query] ;;
     results <- call (EvQuery embeddings top_k)
                     (collection_query svc embeddings top_k) ;;
     docs <- lift (first_row (qr_documents results)) ;;
     metadatas <- lift (first_row (qr_metadatas results)) ;;
     ids <- lift (first_row (qr_ids results)) ;;
     ret (hits docs
               (or_filled metadatas (PDict []) (List.length docs))
               (or_filled ids (PStr []) (List.length docs))))%py.
End retrieval.

(** ** backend/tasks/document_handler.py *)

Definition ascii_alnum (c : codepoint) : bool :=
  ((48 <=? c) && (c <=? 57) || (65 <=? c) && (c <=? 90)
   || (97 <=? c) && (c <=? 122))%N.

Definition UNDERSCORE : codepoint := 95%N.
Definition HYPHEN : codepoint := 45%N.
Definition QUESTION_MARK : codepoint := 63%N.

Definition is_ascii (c : codepoint) : bool := (c <? 128)%N.

Section document_ids.
Variable lib : pylib.

(** The class [\w] of a [str] pattern: alphanumeric or underscore. *)
Definition is_word (c : codepoint) : bool :=
  if is_ascii c then ascii_alnum c || (c =? UNDERSCORE)%N
  else unicode_isalnum lib c.

(** [re.sub(r"[^\w\-]", "_", s)] *)
Definition sub_nonword (s : pystr) : pystr :=
  List.map (fun c => if is_word c || (c =? HYPHEN)%N then c else UNDERSCORE) s.

(** [s.encode("ascii", "replace").decode("ascii")] *)
Definition encode_ascii_replace (s : pystr) : pystr :=
  List.map (fun c => if is_ascii c then c else QUESTION_MARK) s.

Definition _safe_doc_id (name : pystr) : pystr :=
  let stem := path_stem lib name in
  let safe := or_str (Some (firstn 80 (sub_nonword stem))) (str "doc") in
  encode_ascii_replace safe.

(** [doc_id or _safe_doc_id(original_name or path.name)] *)
Definition base_id_of (path : pystr) (doc_id original_name : option pystr)
  : pystr :=
  or_str doc_id
    (_safe_doc_id (or_str original_name (path_name lib path))).
End document_ids.

(** [f"{base_id}_{i}"] *)
Definition chunk_id (base_id : pystr) (i : nat) : pystr :=
  base_id ++ [UNDERSCORE] ++ py_str_int (Z.of_nat i).

(** [[f"{base_id}_{i}" for i in range(n)]] *)
Definition chunk_ids (base_id : pystr) (n : nat) : list pystr :=
  List.map (chunk_id base_id) (seq 0 n).

Definition chunk_meta (source : pystr) (i : nat) : pyval :=
  PDict [(str "source", PStr source); (str "chunk_index", PInt (Z.of_nat i))].

Definition failure (reason : pystr) : pyval :=
  PDict [(str "success", PBool false); (str "error", PStr reason)].

Section ingestion.
Context {W : Type} (lib : pylib) (svc : services W).

(** [process_document(path)], drained: the chunks and their metadata, or
    [None] when the chunker does not come back within the fuel. *)
Definition process_document (fuel : nat) (path : pystr)
  : Py W (option (list (pystr * pyval))) :=
  (text <- call (EvExtract path) (extract_text_from_file svc path) ;;
   if negb (nonempty text) then ret (Some [])
   else
     match _chunk_text fuel text CHUNK_SIZE CHUNK_OVERLAP with
     | None => ret None
     | Some chunks =>
         ret (Some (List.map (fun ic => (snd ic, chunk_meta (path_name lib path) (fst ic)))
                             (List.combine (seq 0 (List.length chunks)) chunks)))
     end)%py.

(** [ingest_document(path, doc_id, original_name)] for a [path] given as
    the text [str(Path(path))]; [None] when the chunker does not come back
    within the fuel. The store and the embedding service are built before
    the file is read, outside every [try]. *)
Definition ingest_document (fuel : nat) (path : pystr)
    (doc_id original_name : option pystr) : Py W (option pyval) :=
  (present <- call (EvExists path) (path_exists svc path) ;;
   if negb present then ret (Some (failure (str "File not found: " ++ path)))
   else
     let base_id := base_id_of lib path doc_id original_name in
     _ <- call EvVectorStore (VectorStore svc) ;;
     _ <- call EvEmbeddingService (EmbeddingService svc) ;;
     produced <- process_document fuel path ;;
     match produced with
     | None => ret None
     | Some pairs =>
         let chunks := List.map fst pairs in
         let metas := List.map snd pairs in
         match chunks with
         | [] => ret (Some (failure (str "No text extracted from document")))
         | _ =>
             embedded <-
               try_except
                 (embeddings <- embed svc chunks ;; ret (inr embeddings))
                 (fun e =>
                    ret (inl (failure
                      (str "Embedding failed: " ++ exn_str e
                         ++ str ". Check OPENAI_API_KEY and quota.")))) ;;
             match embedded with
             | inl failed => ret (Some failed)
             | inr embeddings =>
                 added <-
                   try_except
                     (let ids := chunk_ids base_id (List.length chunks) in
                      _ <- call (EvAdd ids embeddings chunks metas)
                                (collection_add svc ids embeddings chunks metas) ;;
                      ret None)
                     (fun e => ret (Some (failure (exn_str e)))) ;;
                 match added with
                 | Some failed => ret (Some failed)
                 | None =>
                     ret (Some (PDict
                       [(str "success", PBool true);
                        (str "chunks", PInt (Z.of_nat (List.length chunks)));
                        (str "source",
                         PStr (or_str original_name (path_name lib path)))]))
                 end
             end
         end
     end)%py.
End ingestion.

(** ** Concrete library functions and collaborators for the examples *)

Fixpoint split_on (sep : codepoint) (s cur : pystr) : list pystr :=
  match s with
  | [] => [cur]
  | c :: s' =>
      if (c =? sep)%N then cur :: split_on sep s' [] else split_on sep s' (cur ++ [c])
  end.

(** [PurePosixPath(p).name]: the last component, empty and ["."] components
    being dropped. *)
Definition posix_name (p : pystr) : pystr :=
  List.last
    (List.filter (fun part => nonempty part && negb (pystr_eqb part (str ".")))
                 (split_on 47%N p []))
    [].

(** [PurePosixPath(p).stem] (CPython 3.12): the name up to its last dot,
    unless that dot is the first or the last character of the name. *)
Definition posix_stem (p : pystr) : pystr :=
  let name := posix_name p in
  let i := py_rfind name (str ".") 0 (py_len name) in
  if (0 <? i)%Z && (i <? py_len name - 1)%Z then py_slice name 0 i else name.

(** [str.isalnum] on the Latin-1 Supplement block (U+0080 .. U+00FF); the
    code points beyond are not needed by the examples. *)
Definition latin1_isalnum (c : codepoint) : bool :=
  ((c =? 170) || (c =? 178) || (c =? 179) || (c =? 181) || (c =? 185)
   || (c =? 186) || (188 <=? c) && (c <=? 190)
   || (192 <=? c) && (c <=? 214) || (216 <=? c) && (c <=? 246)
   || (248 <=? c) && (c <=? 255))%N.

Definition json_decode_error : exn :=
  {| exn_type := str "JSONDecodeError";
     exn_str := str "Expecting value: line 1 column 1 (char 0)";
     exn_is_Exception := true |}.

(** A [json.loads] that reads the empty object only. *)
Definition empty_object_loads (s : pystr) : outcome pyval :=
  if pystr_eqb s (str "{}") then Ret (PDict []) else Raise json_decode_error.

Definition posix_lib : pylib :=
  {| json_loads := empty_object_loads;
     path_name := posix_name;
     path_stem := posix_stem;
     unicode_isalnum := latin1_isalnum |}.

(** Collaborators without a state of their own: the model always gives
    [reply], the embedding service always answers [embedded], the collection
    holds [count] entries and accepts what is added, and every file exists
    and holds [text]. *)
Definition fixed_services (reply : chat_response) (embedded : outcome (list pyval))
    (count : Z) (text : pystr) : services unit :=
  {| llm_chat := fun _ _ w => (Ret reply, w);
     embeddings_create := fun _ _ w => (embedded, w);
     collection_count := fun w => (Ret count, w);
     collection_query := fun _ _ w =>
       (Ret {| qr_ids := Some [[]]; qr_documents := Some [[]];
               qr_metadatas := Some [[]] |}, w);
     collection_add := fun _ _ _ _ w => (Ret tt, w);
     path_exists := fun _ w => (Ret true, w);
     extract_text_from_file := fun _ w => (Ret text, w);
     VectorStore := fun w => (Ret tt, w);
     EmbeddingService := fun w => (Ret tt, w) |}.

Definition plain_reply (content : pystr) : chat_response :=
  {| resp_content := Some content; resp_role := str "assistant";
     resp_tool_calls := None |}.

Definition search_call : tool_call :=
  {| tc_id := str "call_1"; tc_name := str "search_documents";
     tc_arguments := Some (str "{}") |}.

Definition tool_reply : chat_response :=
  {| resp_content := None; resp_role := str "assistant";
     resp_tool_calls := Some [search_call] |}.

Definition rate_limited : exn :=
  {| exn_type := str "RateLimitError";
     exn_str := str "You exceeded your current quota";
     exn_is_Exception := true |}.

Definition system_exit : exn :=
  {| exn_type := str "SystemExit"; exn_str := []; exn_is_Exception := false |}.

Definition value_error : exn :=
  {| exn_type := str "ValueError"; exn_str := str "bad date";
     exn_is_Exception := true |}.

Definition start_state : state unit := {| world := tt; trace := [] |}.




(** A registry with five handlers: one returns text, one returns nothing,
    one returns a set, one raises ValueError, one leaves through
    [sys.exit()]. *)
Definition example_registry : FunctionRegistry unit :=
  register (register (register (register (register (new_registry [])
    (str "search_documents") (fun _ w => (Ret (PStr (str "no results")), w)))
    (str "create_apple_note") (fun _ w => (Ret PNone, w)))
    (str "list_tags") (fun _ w => (Ret (PObj (str "set")), w)))
    (str "add_calendar_event") (fun _ w => (Raise value_error, w)))
    (str "quit") (fun _ w => (Raise system_exit, w)).

(** The example registry with one more handler, which returns a dict. *)
Definition mail_registry : FunctionRegistry unit :=
  register example_registry (str "compose_gmail")
    (fun _ w => (Ret (PDict [(str "success", PBool true)]), w)).

(** [m[key]] of a message dict, [None] where there is none. *)
Definition message_field (m : pyval) (key : string) : pyval :=
  match m with
  | PDict d => dict_get d (str key) PNone
  | _ => PNone
  end.










(** *** Vocabulary for statements about document ids *)

Definition is_ascii_str (s : pystr) : bool := forallb is_ascii s.

(** The characters a derived document id is made of. *)
Definition safe_char (c : codepoint) : bool :=
  ascii_alnum c || (c =? UNDERSCORE)%N || (c =? HYPHEN)%N || (c =? QUESTION_MARK)%N.

(** The characters claim C10 allows: word characters, hyphens, underscores. *)
Definition word_or_hyphen (lib : pylib) (c : codepoint) : bool :=
  is_word lib c || (c =? HYPHEN)%N || (c =? UNDERSCORE)%N.

(** The characters that [_safe_doc_id] leaves as they are. *)
Definition plain_id_char (c : codepoint) : bool :=
  ascii_alnum c || (c =? UNDERSCORE)%N || (c =? HYPHEN)%N.

(** The file name ["é.txt"]. *)
Definition accented_name : pystr := [233%N] ++ str ".txt".

(** ** Further vocabulary for the chunker *)

(** [s] neither begins nor ends with a whitespace character. *)
Definition is_stripped (s : pystr) : bool :=
  match s with
  | [] => true
  | c :: _ => negb (py_isspace c) && negb (py_isspace (List.last s c))
  end.

(** [sub] occurs somewhere in [s]. *)
Definition contains (s sub : pystr) : Prop :=
  exists k, occurs_at s sub k = true.

(** ** Further vocabulary for the registry and the conversation loop *)

(** A printable ASCII character (space to tilde). *)
Definition is_printable (c : codepoint) : bool := ((32 <=? c) && (c <=? 126))%N.

(** [m["role"]] of a message dict. *)
Definition role_of (m : pyval) : pyval :=
  match m with
  | PDict d => dict_get d (str "role") PNone
  | _ => PNone
  end.

(** The message was appended by the loop: an assistant or a tool message. *)
Definition appended_by_loop (m : pyval) : Prop :=
  role_of m = PStr (str "assistant") \/ role_of m = PStr (str "tool").

(** ** backend/ai/llm_service.py: chat_with_tools *)

(** The client library's tool-call object as it is stored, unconverted, in
    the assistant message of [chat_with_tools]. *)
Definition raw_tool_calls (tool_calls : option (list tool_call)) : pyval :=
  match tool_calls with
  | None => PNone
  | Some l => PList (List.map (fun _ => PObj (str "ChatCompletionMessageToolCall")) l)
  end.

Definition raw_assistant_message (content : pystr)
    (tool_calls : option (list tool_call)) : pyval :=
  PDict [(str "role", PStr (str "assistant"));
         (str "content", PStr content);
         (str "tool_calls", raw_tool_calls tool_calls)].

(** The placeholder that stands for a tool result. *)
Definition placeholder (name : pystr) : pystr :=
  str "[Tool " ++ name ++ str " called with args; result to be injected by caller]".

Definition placeholder_message (tc : tool_call) : pyval :=
  PDict [(str "role", PStr (str "tool"));
         (str "tool_call_id", PStr (tc_id tc));
         (str "content", PStr (placeholder (tc_name tc)))].

(** [current[-1].get("content", "")], without the guard for an empty list. *)
Definition last_content_unguarded (current : list pyval) : outcome pyval :=
  match List.last (List.map Some current) None with
  | Some (PDict d) => Ret (dict_get d (str "content") (PStr []))
  | Some other => Raise (no_attribute other (str "get"))
  | None => Raise index_out_of_range
  end.

Section chat_with_tools.
Context {W : Type} (lib : pylib) (svc : services W).

(** The [for tc in tool_calls] loop (lines 88-106): the arguments of each
    call are parsed and dropped, and a placeholder is appended; no tool is
    run. *)
Fixpoint append_placeholders (tool_calls : list tool_call) (current : list pyval)
  : outcome (list pyval) :=
  match tool_calls with
  | [] => Ret current
  | tc :: rest =>
      match loads_or_empty lib (or_str (tc_arguments tc) (str "{}")) with
      | Raise e => Raise e
      | Ret _ => append_placeholders rest (current ++ [placeholder_message tc])
      end
  end.

(** [LLMService.chat_with_tools]; [self.chat] is the language model
    gateway. *)
Fixpoint chat_with_tools_rounds (max_rounds : nat) (tools current : list pyval)
  : Py W (pyval * list pyval) :=
  match max_rounds with
  | O => (a <- lift (last_content_unguarded current) ;; ret (a, current))%py
  | S n =>
      (response <- call (EvChat current tools) (llm_chat svc current tools) ;;
       let content := or_str (resp_content response) [] in
       let tool_calls := resp_tool_calls response in
       let current := current ++ [raw_assistant_message content tool_calls] in
       match tool_calls with
       | None | Some [] => ret (PStr content, current)
       | Some tcs =>
           current <- lift (append_placeholders tcs current) ;;
           chat_with_tools_rounds n tools current
       end)%py
  end.

Definition chat_with_tools (messages tools : list pyval) (max_rounds : nat)
  : Py W (pyval * list pyval) :=
  chat_with_tools_rounds max_rounds tools messages.
End chat_with_tools.

(** A call to a tool that nobody registered. *)
Definition unknown_call : tool_call :=
  {| tc_id := str "call_2"; tc_name := str "nope"; tc_arguments := None |}.

(** ** backend/rag/retrieval_service.py: search_json *)

Definition key_error (key : pystr) : exn :=
  {| exn_type := str "KeyError";
     exn_str := str "'" ++ key ++ str "'";
     exn_is_Exception := true |}.

Definition not_subscriptable (v : pyval) : exn :=
  {| exn_type := str "TypeError";
     exn_str := str "'" ++ type_name v ++ str "' object is not subscriptable";
     exn_is_Exception := true |}.

(** [d[k]] for a dict with str keys. *)
Fixpoint dict_item (d : list (pystr * pyval)) (k : pystr) : outcome pyval :=
  match d with
  | [] => Raise (key_error k)
  | (k', v) :: d' => if pystr_eqb k k' then Ret v else dict_item d' k
  end.

(** [{"content": h["content"], "source": h["metadata"].get("source", "")}] *)
Definition hit_summary (h : pyval) : outcome pyval :=
  match h with
  | PDict d =>
      match dict_item d (str "content") with
      | Raise e => Raise e
      | Ret content =>
          match dict_item d (str "metadata") with
          | Raise e => Raise e
          | Ret (PDict md) =>
              Ret (PDict [(str "content", content);
                          (str "source", dict_get md (str "source") (PStr []))])
          | Ret other => Raise (no_attribute other (str "get"))
          end
      end
  | other => Raise (not_subscriptable other)
  end.

Fixpoint hit_summaries (hs : list pyval) : outcome (list pyval) :=
  match hs with
  | [] => Ret []
  | h :: hs' =>
      match hit_summary h with
      | Raise e => Raise e
      | Ret x =>
          match hit_summaries hs' with
          | Raise e => Raise e
          | Ret xs => Ret (x :: xs)
          end
      end
  end.

Section retrieval_json.
Context {W : Type} (svc : services W).

(** [RetrievalService.search_json] *)
Definition search_json (query : pystr) (top_k : Z) : Py W pystr :=
  (found <- search svc query top_k ;;
   summaries <- lift (hit_summaries found) ;;
   lift (json_dumps (PDict [(str "results", PList summaries)])))%py.
End retrieval_json.

(** ** backend/ai/function_registry.py: OPENAI_TOOLS, and backend/services.py *)

Definition string_property (description : string) : pyval :=
  PDict [(str "type", PStr (str "string")); (str "description", PStr (str description))].

Definition function_tool (name description : string)
    (properties : list (pystr * pyval)) (required : list string) : pyval :=
  PDict [(str "type", PStr (str "function"));
         (str "function",
          PDict [(str "name", PStr (str name));
                 (str "description", PStr (str description));
                 (str "parameters",
                  PDict [(str "type", PStr (str "object"));
                         (str "properties", PDict properties);
                         (str "required",
                          PList (List.map (fun r => PStr (str r)) required))])])].

Definition OPENAI_TOOLS : list pyval :=
  [function_tool "add_calendar_event"
     "Add a meeting or event to Google Calendar. Use when the user wants to schedule a meeting, add an event, or create a calendar entry."
     [(str "title", string_property "Title of the event");
      (str "start_time", string_property "Start time in ISO 8601 or natural format");
      (str "end_time", string_property "End time in ISO 8601 or natural format");
      (str "description", string_property "Optional event description")]
     ["title"; "start_time"; "end_time"]%string;
   function_tool "create_apple_note"
     "Create a new note in Apple Notes. Use when the user wants to create a note, save something to Notes, or add an Apple note."
     [(str "title", string_property "Title of the note");
      (str "body", string_property "Body content of the note")]
     ["title"; "body"]%string;
   function_tool "compose_gmail"
     "Compose a new Gmail email. Use when the user wants to send an email, write an email, or compose a Gmail."
     [(str "to", string_property "Recipient email address");
      (str "subject", string_property "Email subject");
      (str "body", string_property "Email body (plain text or HTML)")]
     ["to"; "subject"; "body"]%string;
   function_tool "search_documents"
     "Search the user's learned documents for relevant information. Use when the user asks a question that might be answered by their uploaded documents."
     [(str "query", string_property "Search query");
      (str "top_k",
       PDict [(str "type", PStr (str "integer"));
              (str "description", PStr (str "Number of results to return"));
              (str "default", PInt 5)])]
     ["query"]%string].

(** [tool["function"]["name"]] for a tool descriptor. *)
Definition tool_name (tool : pyval) : pyval :=
  match tool with
  | PDict d =>
      match dict_get d (str "function") PNone with
      | PDict f => dict_get f (str "name") PNone
      | _ => PNone
      end
  | _ => PNone
  end.

(** [tool["function"]["parameters"]["properties"]] and [... ["required"]]. *)
Definition tool_parameters (tool : pyval) : list (pystr * pyval) * list pyval :=
  match tool with
  | PDict d =>
      match dict_get d (str "function") PNone with
      | PDict f =>
          match dict_get f (str "parameters") PNone with
          | PDict p =>
              (match dict_get p (str "properties") PNone with
               | PDict props => props
               | _ => []
               end,
               match dict_get p (str "required") PNone with
               | PList req => req
               | _ => []
               end)
          | _ => ([], [])
          end
      | _ => ([], [])
      end
  | _ => ([], [])
  end.

Section wiring.
Context {W : Type}.

(** [get_registry()], given the four handlers it registers. *)
Definition get_registry (add_calendar_event create_apple_note compose_gmail
    _search_documents : handler W) : FunctionRegistry W :=
  let reg := new_registry OPENAI_TOOLS in
  let reg := register reg (str "add_calendar_event") add_calendar_event in
  let reg := register reg (str "create_apple_note") create_apple_note in
  let reg := register reg (str "compose_gmail") compose_gmail in
  let reg := register reg (str "search_documents") _search_documents in
  reg.
End wiring.

(** The names under which [get_registry] registers a handler. *)
Definition declared_names : list pystr :=
  [str "add_calendar_event"; str "create_apple_note"; str "compose_gmail";
   str "search_documents"].

(** Two posts with the same title up to surrounding blanks, and one more. *)
Definition example_posts : list (list (pystr * pyval)) :=
  [[(str "title", PStr (str "Agents")); (str "url", PStr (str "https://r/1"));
    (str "source", PStr (str "r/artificial"))];
   [(str "title", PStr (str " Agents ")); (str "url", PStr (str "https://r/2"));
    (str "source", PStr (str "r/MachineLearning"))];
   [(str "title", PStr (str "Startups")); (str "url", PStr []);
    (str "source", PStr (str "Twitter"))]].

(** Collaborators whose collection holds one chunk [doc] with the id
    ["a_0"] and no metadata, and whose embedding service answers one empty
    vector. *)
Definition one_chunk_services (doc : pyval) : services unit :=
  {| llm_chat := fun _ _ w => (Ret tool_reply, w);
     embeddings_create := fun _ _ w => (Ret [PList []], w);
     collection_count := fun w => (Ret 1%Z, w);
     collection_query := fun _ _ w =>
       (Ret {| qr_ids := Some [[PStr (str "a_0")]];
               qr_documents := Some [[doc]];
               qr_metadatas := Some [[]] |}, w);
     collection_add := fun _ _ _ _ w => (Ret tt, w);
     path_exists := fun _ w => (Ret true, w);
     extract_text_from_file := fun _ w => (Ret [], w);
     VectorStore := fun w => (Ret tt, w);
     EmbeddingService := fun w => (Ret tt, w) |}.

(** Collaborators for which no file exists. *)
Definition absent_file_services : services unit :=
  {| llm_chat := fun _ _ w => (Ret tool_reply, w);
     embeddings_create := fun _ _ w => (Ret [], w);
     collection_count := fun w => (Ret 0%Z, w);
     collection_query := fun _ _ w =>
       (Ret {| qr_ids := None; qr_documents := None; qr_metadatas := None |}, w);
     collection_add := fun _ _ _ _ w => (Ret tt, w);
     path_exists := fun _ w => (Ret false, w);
     extract_text_from_file := fun _ w => (Ret [], w);
     VectorStore := fun w => (Ret tt, w);
     EmbeddingService := fun w => (Ret tt, w) |}.

(** Collaborators whose model call fails with [e]. *)
Definition failing_chat_services (e : exn) : services unit :=
  {| llm_chat := fun _ _ w => (Raise e, w);
     embeddings_create := fun _ _ w => (Ret [], w);
     collection_count := fun w => (Ret 0%Z, w);
     collection_query := fun _ _ w =>
       (Ret {| qr_ids := None; qr_documents := None; qr_metadatas := None |}, w);
     collection_add := fun _ _ _ _ w => (Ret tt, w);
     path_exists := fun _ w => (Ret false, w);
     extract_text_from_file := fun _ w => (Ret [], w);
     VectorStore := fun w => (Ret tt, w);
     EmbeddingService := fun w => (Ret tt, w) |}.

(** ** backend/main.py: the chat endpoint *)

(** What the endpoint answers: the response of a [ChatResponse], or the
    status and detail of an [HTTPException]. *)
Inductive http_result :=
| Http200 (response : pystr)
| HttpError (status : Z) (detail : pystr).

(** The settings the endpoint reads: the API key and [is_development()]. *)
Record Settings := {
  openai_api_key : pystr;
  is_development : bool
}.

Section chat_endpoint.
Context {W : Type} (lib : pylib) (svc : services W) (registry : FunctionRegistry W).

(** The text of the validation error that [ChatResponse(response=v)] raises
    for a value that is no str. *)
Variable validation_text : pyval -> pystr.

Definition validation_error (v : pyval) : exn :=
  {| exn_type := str "ValidationError";
     exn_str := validation_text v;
     exn_is_Exception := true |}.

(** [get_task_router()], which builds the router over [svc] and [registry]
    when it is first asked for, and may fail doing so. *)
Variable get_task_router : Py W unit.

Definition GENERIC_DETAIL : pystr := str "Assistant request failed. Please try again.".

(** [chat(request)] for the settings that [get_settings()] returned. *)
Definition chat (settings : Settings) (message : pystr)
    (history : option (list pyval)) (image_base64 : option pystr)
  : Py W http_result :=
  if negb (nonempty message || nonempty (py_strip message))
  then ret (HttpError 400 (str "Message cannot be empty"))
  else if negb (nonempty (openai_api_key settings)
                || nonempty (py_strip (openai_api_key settings)))
  then ret (HttpError 503
         (str "OPENAI_API_KEY is not set. Add it to your .env file and restart the backend."))
  else
    try_except
      (_ <- get_task_router ;;
       response <- process lib svc registry message history image_base64 ;;
       match response with
       | PStr text => ret (Http200 text)
       | other =>
           if py_truthy other then raise (validation_error other)
           else ret (Http200 [])
       end)%py
      (fun e =>
         ret (HttpError 500
                (if is_development settings then exn_str e
                 else GENERIC_DETAIL))).
End chat_endpoint.

(** ** backend/tasks/image_handler.py *)

Section image_handler.
Context {W : Type} (svc : services W).

Definition image_messages (image_base64 prompt : pystr) : list pyval :=
  let url :=
    if negb (starts_with (str "data:") image_base64)
    then str "data:image/jpeg;base64," ++ image_base64
    else image_base64 in
  [PDict [(str "role", PStr (str "user"));
          (str "content",
           PList [PDict [(str "type", PStr (str "text")); (str "text", PStr prompt)];
                  PDict [(str "type", PStr (str "image_url"));
                         (str "image_url", PDict [(str "url", PStr url)])]])]].

(** [LLMService()], which reads the settings and builds the client. *)
Variable LLMService : Py W unit.

(** [analyze_image(image_base64, prompt)]; [llm.chat(messages)] is called
    without tools. *)
Definition analyze_image (image_base64 prompt : pystr) : Py W pystr :=
  (_ <- LLMService ;;
   let messages := image_messages image_base64 prompt in
   try_except
     (out <- call (EvChat messages []) (llm_chat svc messages []) ;;
      ret (or_str (resp_content out) []))
     (fun e => ret (str "Image analysis failed: " ++ exn_str e)))%py.
End image_handler.

(** ** backend/tasks/news_handler.py *)

Definition news_item := list (pystr * pyval).

Definition DIGEST_HEADER : pystr :=
  str "Tech News: AI Agents, AI Transformation, AI Trends & Startups" ++ [LF; LF].

Definition digest_placeholder (number : nat) : pystr :=
  py_str_int (Z.of_nat number)
    ++ str ". [Placeholder: Add more sources or APIs for additional updates.]".

(** [l[:stop]] for a list. *)
Definition list_upto {A : Type} (l : list A) (stop : Z) : list A :=
  firstn (Z.to_nat (adjust_index (Z.of_nat (List.length l)) stop)) l.

Section news.
(** [str(v)] for the values that are not covered below. *)
Variable other_str : pyval -> pystr.

(** [f"{v}"] *)
Definition format_value (v : pyval) : pystr :=
  match v with
  | PStr s => s
  | PInt n => py_str_int n
  | PNone => str "None"
  | PBool true => str "True"
  | PBool false => str "False"
  | other => other_str other
  end.

(** The line of item number [i] (lines 78-85 of [_format_digest]). *)
Definition digest_line (i : nat) (item : news_item) : pystr :=
  let title := dict_get item (str "title") (PStr []) in
  let url := dict_get item (str "url") (PStr []) in
  let source := dict_get item (str "source") (PStr []) in
  let line := py_str_int (Z.of_nat i) ++ str ". " ++ format_value title in
  let line :=
    if py_truthy url then line ++ [LF] ++ str "   " ++ format_value url else line in
  if py_truthy source
  then line ++ str " (Source: " ++ format_value source ++ str ")"
  else line.

(** The [for] loop over [enumerate(items, first)]. *)
Fixpoint numbered_lines (first : nat) (items : list news_item) : list pystr :=
  match items with
  | [] => []
  | item :: rest => digest_line first item :: numbered_lines (S first) rest
  end.

(** The [while len(lines) < min_count] loop, which runs [missing] times. *)
Fixpoint pad_lines (missing : nat) (lines : list pystr) : list pystr :=
  match missing with
  | O => lines
  | S n => pad_lines n (lines ++ [digest_placeholder (List.length lines + 1)])
  end.

Definition digest_lines (items : list news_item) (min_count : Z) : list pystr :=
  let lines := numbered_lines 1 (list_upto items min_count) in
  pad_lines (Z.to_nat (min_count - Z.of_nat (List.length lines))) lines.

Definition _format_digest (items : list news_item) (min_count : Z) : pystr :=
  DIGEST_HEADER ++ join [LF; LF] (digest_lines items min_count).

(** [(x.get("title") or "").strip()] *)
Definition stripped_title (x : news_item) : outcome pystr :=
  let title := dict_get x (str "title") PNone in
  if py_truthy title then
    match title with
    | PStr s => Ret (py_strip s)
    | other => Raise (no_attribute other (str "strip"))
    end
  else Ret (py_strip []).

(** The loop that drops items whose title was seen before (lines 96-102). *)
Fixpoint dedupe (items : list news_item) (seen : gset pystr)
  : outcome (list news_item) :=
  match items with
  | [] => Ret []
  | x :: rest =>
      match stripped_title x with
      | Raise e => Raise e
      | Ret t =>
          if nonempty t && negb (bool_decide (t ∈ seen)) then
            match dedupe rest ({[t]} ∪ seen) with
            | Raise e => Raise e
            | Ret unique => Ret (x :: unique)
            end
          else dedupe rest seen
      end
  end.

(** [fetch_tech_news_digest(min_items)], given what the two fetchers
    returned. *)
Definition fetch_tech_news_digest (reddit twitter : list news_item) (min_items : Z)
  : outcome pystr :=
  match dedupe (reddit ++ twitter) ∅ with
  | Raise e => Raise e
  | Ret unique => Ret (_format_digest unique min_items)
  end.
End news.

(** * Facts about the chunker *)

Section rfind_facts.
Variable sub : pystr.

Lemma rfind_scan_spec (t : pystr) : forall (k hi best : Z),
  let r := rfind_scan sub t k hi best in
  (r = best /\
   forall m : nat, (m <= List.length t)%nat -> (k + Z.of_nat m <= hi)%Z ->
     starts_with sub (skipn m t) = false)
  \/
  (exists m : nat, (m <= List.length t)%nat /\ r = (k + Z.of_nat m)%Z /\
     (r <= hi)%Z /\ starts_with sub (skipn m t) = true /\
     forall m' : nat, (m < m')%nat -> (m' <= List.length t)%nat ->
       (k + Z.of_nat m' <= hi)%Z -> starts_with sub (skipn m' t) = false).
Proof.
  induction t as [|c t IH]; intros k hi best; cbn zeta.
  - cbn [rfind_scan].
    destruct ((k <=? hi)%Z && starts_with sub []) eqn:E.
    + right. exists 0%nat. apply andb_true_iff in E as [E1 E2].
      apply Z.leb_le in E1. cbn. split_and!; try lia; auto.
    + left. split; [reflexivity|]. intros m Hm Hk. cbn in Hm.
      assert (m = 0%nat) by lia. subst m. cbn.
      apply andb_false_iff in E as [E|E]; [|exact E].
      apply Z.leb_gt in E. lia.
  - cbn [rfind_scan].
    set (best' := if (k <=? hi)%Z && starts_with sub (c :: t) then k else best).
    specialize (IH (k + 1)%Z hi best').
    cbn zeta in IH. destruct IH as [[Hr Hno]|(m & Hm & Hr & Hle & Hocc & Hlast)].
    + destruct ((k <=? hi)%Z && starts_with sub (c :: t)) eqn:E.
      * right. exists 0%nat. apply andb_true_iff in E as [E1 E2].
        apply Z.leb_le in E1. subst best'. rewrite Hr.
        cbn [List.length skipn]. split_and!; try lia; auto.
        intros [|m'] ? ? ?; [lia|]. cbn [skipn]. apply Hno; cbn in *; lia.
      * left. subst best'. split; [exact Hr|].
        intros [|m] Hm Hk.
        -- cbn [skipn]. apply andb_false_iff in E as [E|E]; [|exact E].
           apply Z.leb_gt in E. lia.
        -- cbn [skipn]. apply Hno; cbn in *; lia.
    + right. exists (S m). cbn [List.length skipn].
      split_and!; try lia; auto.
      intros [|m'] ? ? ?; [lia|]. cbn [skipn]. apply Hlast; cbn in *; lia.
Qed.

(** What [rfind] returns for bounds that need no clipping. *)
Lemma py_rfind_spec (s : pystr) (lo hi : Z) :
  (0 <= lo)%Z -> (lo <= hi + 1)%Z -> (hi + 1 <= py_len s)%Z ->
  (py_rfind s sub lo (hi + 1) = (-1)%Z /\ no_break s sub lo hi)
  \/ last_break s sub lo hi (py_rfind s sub lo (hi + 1)).
Proof.
  intros H0 H1 H2. unfold py_rfind, adjust_index.
  assert (Hlo : (lo <? 0)%Z = false) by (apply Z.ltb_ge; lia).
  assert (Hhi : (hi + 1 <? 0)%Z = false) by (apply Z.ltb_ge; lia).
  rewrite Hlo, Hhi, Z.min_l by lia.
  destruct (hi + 1 - lo <? py_len sub)%Z eqn:E.
  - apply Z.ltb_lt in E. left. split; [reflexivity|].
    intros k ? ?. lia.
  - apply Z.ltb_ge in E.
    pose proof (rfind_scan_spec (skipn (Z.to_nat lo) s) lo
                  (hi + 1 - py_len sub) (-1)) as Hs.
    cbn zeta in Hs.
    assert (Hlen : List.length (skipn (Z.to_nat lo) s)
                   = (List.length s - Z.to_nat lo)%nat) by apply length_skipn.
    unfold py_len in *.
    destruct Hs as [[Hr Hno]|(m & Hm & Hr & Hle & Hocc & Hlast)].
    + left. split; [exact Hr|]. intros k Hk1 Hk2.
      unfold occurs_at, py_len in *.
      destruct (0 <=? k)%Z eqn:A; [|reflexivity].
      destruct (k <=? Z.of_nat (List.length s))%Z eqn:B; [|reflexivity].
      cbn [andb]. apply Z.leb_le in B.
      specialize (Hno (Z.to_nat (k - lo))).
      rewrite skipn_skipn in Hno.
      replace (Z.to_nat (k - lo) + Z.to_nat lo)%nat with (Z.to_nat k) in Hno by lia.
      apply Hno; lia.
    + right. rewrite Hr. unfold last_break, occurs_at, py_len.
      rewrite skipn_skipn in Hocc.
      replace (Z.to_nat (lo + Z.of_nat m)) with (m + Z.to_nat lo)%nat by lia.
      split_and!; try lia.
      * rewrite Hocc.
        replace (0 <=? lo + Z.of_nat m)%Z with true by (symmetry; apply Z.leb_le; lia).
        replace (lo + Z.of_nat m <=? Z.of_nat (List.length s))%Z with true
          by (symmetry; apply Z.leb_le; lia).
        reflexivity.
      * intros k Hk1 Hk2. unfold py_len in *.
        destruct (0 <=? k)%Z eqn:A; [|reflexivity].
        destruct (k <=? Z.of_nat (List.length s))%Z eqn:B; [|reflexivity].
        cbn [andb]. apply Z.leb_le in B.
        specialize (Hlast (Z.to_nat (k - lo))).
        rewrite skipn_skipn in Hlast.
        replace (Z.to_nat (k - lo) + Z.to_nat lo)%nat with (Z.to_nat k) in Hlast by lia.
        apply Hlast; lia.
Qed.

Lemma last_break_unique (s : pystr) (lo hi b b' : Z) :
  last_break s sub lo hi b -> last_break s sub lo hi b' -> b = b'.
Proof.
  intros (A1 & A2 & A3 & A4) (B1 & B2 & B3 & B4).
  destruct (Z.lt_trichotomy b b') as [L|[E|L]]; [|exact E|].
  - rewrite (A4 b' L B2) in B3. discriminate.
  - rewrite (B4 b L A2) in A3. discriminate.
Qed.

Lemma last_break_not_none (s : pystr) (lo hi b : Z) :
  last_break s sub lo hi b -> no_break s sub lo hi -> False.
Proof.
  intros (A1 & A2 & A3 & _) N. rewrite (N b A1 A2) in A3. discriminate.
Qed.

Lemma py_rfind_found (s : pystr) (lo hi b : Z) :
  (0 <= lo)%Z -> (lo <= hi + 1)%Z -> (hi + 1 <= py_len s)%Z ->
  last_break s sub lo hi b -> py_rfind s sub lo (hi + 1) = b.
Proof.
  intros H0 H1 H2 Hb.
  destruct (py_rfind_spec s lo hi H0 H1 H2) as [[_ N]|L].
  - destruct (last_break_not_none _ _ _ _ Hb N).
  - exact (last_break_unique _ _ _ _ _ L Hb).
Qed.

Lemma py_rfind_none (s : pystr) (lo hi : Z) :
  (0 <= lo)%Z -> (lo <= hi + 1)%Z -> (hi + 1 <= py_len s)%Z ->
  no_break s sub lo hi -> py_rfind s sub lo (hi + 1) = (-1)%Z.
Proof.
  intros H0 H1 H2 N.
  destruct (py_rfind_spec s lo hi H0 H1 H2) as [[E _]|L]; [exact E|].
  destruct (last_break_not_none _ _ _ _ L N).
Qed.
End rfind_facts.

Section chunker_facts.
Variables (text : pystr) (chunk_size overlap : Z).

(** A pass of the loop body that hands back the [start] it was given is
    repeated for ever: the loop is never left, whatever the fuel. *)
Lemma chunk_loop_stuck (start : Z) (c : pystr) :
  (start < py_len text)%Z ->
  chunk_step text chunk_size overlap start = Next c start ->
  forall fuel chunks,
    chunk_loop fuel text chunk_size overlap start chunks = None.
Proof.
  intros Hlt Hstep fuel.
  induction fuel as [|fuel IH]; intros chunks; cbn [chunk_loop];
    apply Z.ltb_lt in Hlt; rewrite Hlt; [reflexivity|].
  rewrite Hstep. apply IH.
Qed.

Lemma chunk_end_cases (start : Z) :
  (0 <= start)%Z -> (0 <= chunk_size)%Z ->
  (start + chunk_size < py_len text)%Z ->
  let hi := (start + chunk_size)%Z in
  let cut b := if (start <? b)%Z then (b + 1)%Z else hi in
  (forall b, last_break text [LF; LF] start hi b ->
     chunk_end text chunk_size start = cut b) /\
  (no_break text [LF; LF] start hi ->
   forall b, last_break text [LF] start hi b ->
     chunk_end text chunk_size start = cut b) /\
  (no_break text [LF; LF] start hi -> no_break text [LF] start hi ->
   forall b, last_break text (str ". ") start hi b ->
     chunk_end text chunk_size start = cut b) /\
  (no_break text [LF; LF] start hi -> no_break text [LF] start hi ->
   no_break text (str ". ") start hi ->
     chunk_end text chunk_size start = hi).
Proof.
  intros H0 H1 H2 hi cut.
  assert (B1 : (start <= hi + 1)%Z) by (unfold hi; lia).
  assert (B2 : (hi + 1 <= py_len text)%Z) by (unfold hi; lia).
  assert (Hneg : forall b sub, last_break text sub start hi b ->
                   (b =? -1)%Z = false).
  { intros b sub (A & _). apply Z.eqb_neq. lia. }
  unfold chunk_end. fold hi.
  split_and!.
  - intros b Hb.
    rewrite (py_rfind_found _ _ _ _ _ H0 B1 B2 Hb).
    rewrite !(Hneg _ _ Hb). reflexivity.
  - intros N1 b Hb.
    rewrite (py_rfind_none _ _ _ _ H0 B1 B2 N1).
    cbn [Z.eqb Pos.eqb].
    rewrite (py_rfind_found _ _ _ _ _ H0 B1 B2 Hb).
    rewrite !(Hneg _ _ Hb). reflexivity.
  - intros N1 N2 b Hb.
    rewrite (py_rfind_none _ _ _ _ H0 B1 B2 N1).
    cbn [Z.eqb Pos.eqb].
    rewrite (py_rfind_none _ _ _ _ H0 B1 B2 N2).
    cbn [Z.eqb Pos.eqb].
    rewrite (py_rfind_found _ _ _ _ _ H0 B1 B2 Hb).
    rewrite !(Hneg _ _ Hb). reflexivity.
  - intros N1 N2 N3.
    rewrite (py_rfind_none _ _ _ _ H0 B1 B2 N1).
    cbn [Z.eqb Pos.eqb].
    rewrite (py_rfind_none _ _ _ _ H0 B1 B2 N2).
    cbn [Z.eqb Pos.eqb].
    rewrite (py_rfind_none _ _ _ _ H0 B1 B2 N3).
    reflexivity.
Qed.
End chunker_facts.

(** The scenario of section 8 of the specification: 2000 characters without
    a separator and the default parameters give three chunks of 800
    characters, each sharing 200 characters with the one before. *)
Example chunk_2000_characters :
  option_map (List.map py_len)
             (_chunk_text 3 (List.repeat 97%N 2000) CHUNK_SIZE CHUNK_OVERLAP)
    = Some [800; 800; 800]%Z.
Proof. vm_compute. reflexivity. Qed.

(** Blank input gives no chunk, and line endings are normalized first. *)
Example chunk_blank_and_crlf :
  _chunk_text 0 (str "  " ++ [CR; LF]) CHUNK_SIZE CHUNK_OVERLAP = Some [] /\
  _chunk_text 1 (str "a" ++ [CR; LF] ++ str "b" ++ [CR] ++ str "c")
              CHUNK_SIZE CHUNK_OVERLAP
    = Some [str "a" ++ [LF] ++ str "b" ++ [LF] ++ str "c"].
Proof. split; vm_compute; reflexivity. Qed.

(** C1 (the code loops where the claim promises termination). With the default
    [chunk_size = 800] and [overlap = 200 < 800], on a text of 700 letters, a
    newline and 2000 more letters, the second pass of the loop starts at 501,
    cuts behind the newline at 700 and sets [start] to [701 - 200 = 501] again:
    [start] does not advance, and [_chunk_text] returns for no amount of fuel. *)
Theorem chunk_text_default_parameters_loop :
  (CHUNK_OVERLAP < CHUNK_SIZE)%Z /\
  (exists c, chunk_step looping_text CHUNK_SIZE CHUNK_OVERLAP 0 = Next c 501) /\
  (exists c, chunk_step looping_text CHUNK_SIZE CHUNK_OVERLAP 501 = Next c 501) /\
  forall fuel, _chunk_text fuel looping_text CHUNK_SIZE CHUNK_OVERLAP = None.
Proof.
  assert (S0 : exists c, chunk_step looping_text CHUNK_SIZE CHUNK_OVERLAP 0
                         = Next c 501) by (eexists; vm_compute; reflexivity).
  assert (S1 : exists c, chunk_step looping_text CHUNK_SIZE CHUNK_OVERLAP 501
                         = Next c 501) by (eexists; vm_compute; reflexivity).
  split_and!; [reflexivity|exact S0|exact S1|].
  intros fuel. unfold _chunk_text.
  replace (negb (nonempty looping_text) || negb (nonempty (py_strip looping_text)))
    with false by (vm_compute; reflexivity).
  replace (normalize_newlines looping_text) with looping_text
    by (vm_compute; reflexivity).
  destruct S0 as [c0 S0], S1 as [c1 S1].
  destruct fuel as [|fuel]; [reflexivity|].
  cbn [chunk_loop].
  replace (0 <? py_len looping_text)%Z with true by (vm_compute; reflexivity).
  rewrite S0.
  rewrite (chunk_loop_stuck looping_text CHUNK_SIZE CHUNK_OVERLAP 501 c1);
    [reflexivity| |exact S1].
  vm_compute. reflexivity.
Qed.

(** C6, as worded, fails on the code. On ["a\n\nb"] with the defaults the
    window holds a paragraph break at index 1, yet the chunk runs to the end of
    the text (index 4): a window that reaches the end of the text is never cut.
    On ["\n\nabc\ndefghijklmnop"] with [chunk_size = 10] the window holds a
    paragraph break (at its first index) and a newline at index 5, yet the
    chunk is cut at the raw boundary 10. *)
Lemma chunk_end_not_as_worded :
  (emitted_end short_two_paragraphs CHUNK_SIZE 0 = 4%Z /\
   spec_chunk_end short_two_paragraphs CHUNK_SIZE 0 = 2%Z /\
   _chunk_text 1 short_two_paragraphs CHUNK_SIZE CHUNK_OVERLAP
     = Some [short_two_paragraphs]) /\
  (emitted_end break_at_start_text 10 0 = 10%Z /\
   spec_chunk_end break_at_start_text 10 0 = 1%Z /\
   occurs_at break_at_start_text [LF; LF] 0 = true /\
   occurs_at break_at_start_text [LF] 5 = true /\
   chunk_step break_at_start_text 10 2 0
     = Next (str "abc" ++ [LF] ++ str "defg") 8).
Proof. vm_compute. repeat split; reflexivity. Qed.

(** C6, amended. Let the window start at [start] with
    [start + chunk_size < len(text)]. The code looks at the indices
    [start .. start + chunk_size], both included, for the last paragraph break
    (two newlines); if there is none, for the last newline; if there is none,
    for the last period followed by a space. When the separator it settles on
    begins behind [start], the chunk ends just behind the separator's first
    character; when it begins at [start] itself, or when no separator is
    found, the chunk ends at the raw boundary [start + chunk_size]. A window
    with [start + chunk_size >= len(text)] is emitted whole, uncut. *)
Theorem chunk_window_end (text : pystr) (chunk_size overlap start : Z) :
  (0 <= start)%Z -> (0 <= chunk_size)%Z ->
  let hi := (start + chunk_size)%Z in
  let cut b := if (start <? b)%Z then (b + 1)%Z else hi in
  ((py_len text <= hi)%Z ->
     chunk_step text chunk_size overlap start
       = Last (py_strip (py_slice_from text start))) /\
  ((hi < py_len text)%Z ->
     (exists e,
        chunk_step text chunk_size overlap start
          = Next (py_strip (py_slice text start e))
                 (if (overlap <? e)%Z then e - overlap else e)%Z /\
        e = chunk_end text chunk_size start) /\
     (forall b, last_break text [LF; LF] start hi b ->
        chunk_end text chunk_size start = cut b) /\
     (no_break text [LF; LF] start hi ->
      forall b, last_break text [LF] start hi b ->
        chunk_end text chunk_size start = cut b) /\
     (no_break text [LF; LF] start hi -> no_break text [LF] start hi ->
      forall b, last_break text (str ". ") start hi b ->
        chunk_end text chunk_size start = cut b) /\
     (no_break text [LF; LF] start hi -> no_break text [LF] start hi ->
      no_break text (str ". ") start hi ->
        chunk_end text chunk_size start = hi)).
Proof.
  intros H0 H1 hi cut. split.
  - intros Hfin. unfold chunk_step. fold hi.
    apply Z.leb_le in Hfin. rewrite Hfin. reflexivity.
  - intros Hin. split.
    + exists (chunk_end text chunk_size start). split; [|reflexivity].
      unfold chunk_step. fold hi.
      replace (py_len text <=? hi)%Z with false
        by (symmetry; apply Z.leb_gt; exact Hin).
      reflexivity.
    + exact (chunk_end_cases text chunk_size start H0 H1 Hin).
Qed.

(** On ["alpha beta\n\ngamma delta epsilon"] with [chunk_size = 12] the first
    window holds its last paragraph break at index 10, so the chunk is cut at
    11 and reads ["alpha beta"]. *)
Lemma chunk_window_end_witness :
  last_break two_paragraph_text [LF; LF] 0 12 10 /\
  chunk_end two_paragraph_text 12 0 = 11%Z /\
  chunk_step two_paragraph_text 12 3 0 = Next (str "alpha beta") 8.
Proof.
  assert (L : last_break two_paragraph_text [LF; LF] 0 12 10).
  { split_and!; [lia|change (py_len [LF; LF]) with 2%Z; lia|reflexivity|].
    intros k Hk1 Hk2. change (py_len [LF; LF]) with 2%Z in Hk2.
    assert (k = 11%Z) by lia. subst k. reflexivity. }
  destruct (chunk_window_end two_paragraph_text 12 3 0 ltac:(lia) ltac:(lia))
    as [_ Hwin].
  destruct (Hwin ltac:(vm_compute; reflexivity)) as [_ [Hpar _]].
  split_and!; [exact L|exact (Hpar 10%Z L)|vm_compute; reflexivity].
Defined.

(** * Facts about json.dumps *)

(** Induction on values, through the lists of a list or of a dict. *)
Lemma pyval_nested_ind (P : pyval -> Prop) :
  P PNone -> (forall b, P (PBool b)) -> (forall n, P (PInt n)) ->
  (forall r, P (PFloat r)) -> (forall s, P (PStr s)) ->
  (forall items, List.Forall P items -> P (PList items)) ->
  (forall entries, List.Forall (fun kv => P (snd kv)) entries -> P (PDict entries)) ->
  (forall t, P (PObj t)) ->
  forall v, P v.
Proof.
  intros HN HB HI HF HS HL HD HO. fix IH 1.
  intros [ |b|n|r|s|items|entries|t].
  - exact HN.
  - apply HB.
  - apply HI.
  - apply HF.
  - apply HS.
  - apply HL. induction items as [|x items IHitems]; constructor;
      [apply IH|exact IHitems].
  - apply HD. induction entries as [|[k x] entries IHentries]; constructor;
      [apply IH|exact IHentries].
  - apply HO.
Qed.

(** The only exception json.dumps raises here is the TypeError of a value
    without a JSON form, and [except Exception] catches it. *)
Lemma json_dumps_raises_TypeError (v : pyval) :
  forall e, json_dumps v = Raise e ->
    exn_type e = str "TypeError" /\ exn_is_Exception e = true.
Proof.
  induction v as [ |b|n|r|s|items IH|entries IH|t] using pyval_nested_ind;
    intros e; cbn [json_dumps]; try discriminate.
  - destruct b; discriminate.
  - match goal with |- context [?f items] => set (go := f) end.
    assert (G : forall e', go items = Raise e' ->
                  exn_type e' = str "TypeError" /\ exn_is_Exception e' = true).
    { induction IH as [|x items Hx _ IHl]; intros e'; cbn; [discriminate|].
      destruct (json_dumps x) eqn:Ex; [|intros [= <-]; exact (Hx _ eq_refl)].
      destruct (go items) eqn:El; [discriminate|].
      intros [= <-]. exact (IHl _ eq_refl). }
    destruct (go items) eqn:El; [discriminate|].
    intros [= <-]. exact (G _ eq_refl).
  - match goal with |- context [?f entries] => set (go := f) end.
    assert (G : forall e', go entries = Raise e' ->
                  exn_type e' = str "TypeError" /\ exn_is_Exception e' = true).
    { induction IH as [|[k x] entries Hx _ IHl]; intros e'; cbn; [discriminate|].
      cbn in Hx.
      destruct (json_dumps x) eqn:Ex; [|intros [= <-]; exact (Hx _ eq_refl)].
      destruct (go entries) eqn:El; [discriminate|].
      intros [= <-]. exact (IHl _ eq_refl). }
    destruct (go entries) eqn:El; [discriminate|].
    intros [= <-]. exact (G _ eq_refl).
  - intros [= <-]. split; reflexivity.
Qed.

Lemma json_dumps_error (msg : pystr) :
  json_dumps (PDict [(str "error", PStr msg)]) = Ret (error_payload msg).
Proof. reflexivity. Qed.

(** * Facts about the tool registry *)

Section registry_facts.
Context {W : Type}.
Implicit Types (reg : FunctionRegistry W) (s : state W).

(** Later registrations under a name replace earlier ones. *)
Lemma register_last_wins reg name (h1 h2 : handler W) :
  get_handler (register (register reg name h1) name h2) name = Some h2.
Proof. unfold get_handler, register; cbn. apply lookup_insert_eq. Qed.

Lemma register_other reg name name' (h : handler W) :
  name <> name' ->
  get_handler (register reg name h) name' = get_handler reg name'.
Proof. intros Hne. unfold get_handler, register; cbn. by apply lookup_insert_ne. Qed.

(** The result conversion leaves the [try] block with a value, or with the
    TypeError of json.dumps. *)
Lemma convert_result_cases (v : pyval) s :
  convert_result (W := W) v s =
    (match v with
     | PStr t => Ret t
     | PNone => Ret (str "Done")
     | _ => json_dumps v
     end, s).
Proof. destruct v; reflexivity. Qed.

Lemma execute_unknown reg name args s :
  _handlers reg !! name = None ->
  execute reg name args s
    = (Ret (error_payload (str "Unknown tool: " ++ name)), s).
Proof.
  intros Hnone. unfold execute. unfold handler in *. rewrite Hnone.
  rewrite json_dumps_error. reflexivity.
Qed.

Lemma execute_raised reg name args s h e w' :
  _handlers reg !! name = Some h ->
  h args (world s) = (Raise e, w') ->
  execute reg name args s
    = (if exn_is_Exception e then Ret (error_payload (exn_str e)) else Raise e,
       {| world := w'; trace := trace s ++ [EvTool name args] |}).
Proof.
  intros Hh Hcall. unfold execute. unfold handler in *. rewrite Hh.
  unfold try_except, bind, call. rewrite Hcall.
  destruct (exn_is_Exception e); [|reflexivity].
  rewrite json_dumps_error. reflexivity.
Qed.

Lemma execute_returned reg name args s h v w' :
  _handlers reg !! name = Some h ->
  h args (world s) = (Ret v, w') ->
  execute reg name args s
    = (Ret match v with
           | PStr t => t
           | PNone => str "Done"
           | _ => match json_dumps v with
                  | Ret j => j
                  | Raise e => error_payload (exn_str e)
                  end
           end,
       {| world := w'; trace := trace s ++ [EvTool name args] |}).
Proof.
  intros Hh Hcall. unfold execute. unfold handler in *. rewrite Hh.
  unfold try_except, bind, call. rewrite Hcall, convert_result_cases.
  assert (G : forall r : outcome pystr,
            (forall e, r = Raise e -> exn_is_Exception e = true) ->
            forall s0 : state W,
            match r with
            | Ret a => (Ret a, s0)
            | Raise e =>
                if exn_is_Exception e
                then lift (json_dumps (PDict [(str "error", PStr (exn_str e))])) s0
                else (Raise e, s0)
            end
            = (Ret match r with
                   | Ret j => j
                   | Raise e => error_payload (exn_str e)
                   end, s0)).
  { intros [a|e] He s0; [reflexivity|].
    rewrite (He e eq_refl), json_dumps_error. reflexivity. }
  destruct v; try reflexivity;
    (apply G; intros e He; exact (proj2 (json_dumps_raises_TypeError _ e He))).
Qed.
(** What [execute] does, by the registration of the name and by the way
    the handler's call ends. *)
Lemma execute_cases reg name args s :
  match _handlers reg !! name with
  | None =>
      execute reg name args s
        = (Ret (error_payload (str "Unknown tool: " ++ name)), s)
  | Some h =>
      let s' := {| world := snd (h args (world s));
                   trace := trace s ++ [EvTool name args] |} in
      match fst (h args (world s)) with
      | Ret v => exists text, execute reg name args s = (Ret text, s')
      | Raise e =>
          execute reg name args s
            = (if exn_is_Exception e then Ret (error_payload (exn_str e))
               else Raise e, s')
      end
  end.
Proof.
  destruct (_handlers reg !! name) as [h|] eqn:Hh.
  - cbn zeta. destruct (h args (world s)) as [[v|e] w'] eqn:Hcall; cbn [fst snd].
    + eexists. exact (execute_returned reg name args s h v w' Hh Hcall).
    + exact (execute_raised reg name args s h e w' Hh Hcall).
  - exact (execute_unknown reg name args s Hh).
Qed.
End registry_facts.

(** C3, as worded, fails on the code: [except Exception] lets an exception
    pass whose class does not derive from [Exception]. A handler that leaves
    through [sys.exit()] makes [execute] raise SystemExit. *)
Lemma execute_lets_SystemExit_pass :
  execute example_registry (str "quit") (PDict []) start_state
    = (Raise system_exit,
       {| world := tt; trace := [EvTool (str "quit") (PDict [])] |}) /\
  exn_is_Exception system_exit = false.
Proof. split; reflexivity. Qed.

(** C3, amended. For every tool name and every arguments value, [execute]
    propagates no exception whose class derives from [Exception]: an
    unregistered name yields the payload [{"error": "Unknown tool: <name>"}]
    and calls nothing; a handler that raises such an exception [e] yields the
    payload [{"error": str(e)}]; a handler that returns makes [execute]
    return a text. Only an exception outside the [Exception] hierarchy
    (SystemExit, KeyboardInterrupt, GeneratorExit) raised by the handler
    leaves [execute], unchanged. *)
Theorem execute_captures_errors {W : Type} (reg : FunctionRegistry W)
    (name : pystr) (args : pyval) (s : state W) :
  match _handlers reg !! name with
  | None =>
      execute reg name args s
        = (Ret (error_payload (str "Unknown tool: " ++ name)), s)
  | Some h =>
      let s' := {| world := snd (h args (world s));
                   trace := trace s ++ [EvTool name args] |} in
      match fst (h args (world s)) with
      | Ret v => exists text, execute reg name args s = (Ret text, s')
      | Raise e =>
          execute reg name args s
            = (if exn_is_Exception e then Ret (error_payload (exn_str e))
               else Raise e, s')
      end
  end.
Proof. apply execute_cases. Qed.

(** C9, as worded, fails on the code: a returned value without a JSON form
    is not serialized. For a handler that returns a set, json.dumps raises
    TypeError and [execute] answers with the error payload. *)
Lemma execute_cannot_serialize_a_set :
  json_dumps (PObj (str "set")) = Raise (not_serializable (str "set")) /\
  execute example_registry (str "list_tags") (PDict []) start_state
    = (Ret (error_payload (str "Object of type set is not JSON serializable")),
       {| world := tt; trace := [EvTool (str "list_tags") (PDict [])] |}).
Proof. split; reflexivity. Qed.

(** C9, amended. When the registered handler returns [v], [execute] returns:
    [v] itself when it is a str; the literal ["Done"] when it is None;
    [json.dumps(v)] for any other value that json.dumps can serialize; and
    the payload [{"error": <the TypeError's message>}] for a value that
    json.dumps cannot serialize. *)
Theorem execute_result_conversion {W : Type} (reg : FunctionRegistry W)
    (name : pystr) (args : pyval) (s : state W) (h : handler W) (v : pyval) (w' : W) :
  _handlers reg !! name = Some h ->
  h args (world s) = (Ret v, w') ->
  execute reg name args s
    = (Ret match v with
           | PStr t => t
           | PNone => str "Done"
           | _ => match json_dumps v with
                  | Ret j => j
                  | Raise e => error_payload (exn_str e)
                  end
           end,
       {| world := w'; trace := trace s ++ [EvTool name args] |}).
Proof. apply execute_returned. Qed.

(** The three conversions on the example registry: text is passed through,
    None becomes ["Done"], and a dict is written as JSON. *)
Lemma execute_result_conversion_witness :
  execute example_registry (str "search_documents") (PDict []) start_state
    = (Ret (str "no results"),
       {| world := tt; trace := [EvTool (str "search_documents") (PDict [])] |}) /\
  execute example_registry (str "create_apple_note") (PDict []) start_state
    = (Ret (str "Done"),
       {| world := tt; trace := [EvTool (str "create_apple_note") (PDict [])] |}) /\
  execute mail_registry (str "compose_gmail") (PDict []) start_state
    = (Ret (str "{" ++ [QUOTE] ++ str "success" ++ [QUOTE] ++ str ": true}"),
       {| world := tt; trace := [EvTool (str "compose_gmail") (PDict [])] |}).
Proof.
  split_and!.
  - exact (execute_result_conversion example_registry (str "search_documents")
             (PDict []) start_state _ (PStr (str "no results")) tt
             ltac:(reflexivity) ltac:(reflexivity)).
  - exact (execute_result_conversion example_registry (str "create_apple_note")
             (PDict []) start_state _ PNone tt
             ltac:(reflexivity) ltac:(reflexivity)).
  - exact (execute_result_conversion mail_registry (str "compose_gmail")
             (PDict []) start_state _ (PDict [(str "success", PBool true)]) tt
             ltac:(reflexivity) ltac:(reflexivity)).
Defined.

(** * Facts about the embedding gateway and the retriever *)

Lemma calls_app (kind : event -> bool) (t u : list event) :
  calls kind (t ++ u) = (calls kind t + calls kind u)%nat.
Proof. unfold calls. rewrite List.filter_app, List.length_app. reflexivity. Qed.

Section embedding_facts.
Context {W : Type} (svc : services W).

Lemma LLMService_embed_nonempty (model : pystr) (texts : list pystr) (s : state W) :
  texts <> [] ->
  LLMService_embed svc model texts s
    = (fst (embeddings_create svc model texts (world s)),
       {| world := snd (embeddings_create svc model texts (world s));
          trace := trace s ++ [EvEmbed model texts] |}).
Proof.
  intros Hne. destruct texts as [|t texts]; [congruence|].
  unfold LLMService_embed, try_except, call, raise.
  destruct (embeddings_create svc model (t :: texts) (world s)) as [[vs|e] w'];
    cbn [fst snd]; [reflexivity|].
  destruct (exn_is_Exception e); reflexivity.
Qed.

Lemma embed_raises (texts : list pystr) (s : state W) (e : exn) (w' : W) :
  texts <> [] ->
  embeddings_create svc DEFAULT_EMBEDDING_MODEL texts (world s) = (Raise e, w') ->
  embed svc texts s
    = (Raise e, {| world := w';
                   trace := trace s ++ [EvEmbed DEFAULT_EMBEDDING_MODEL texts] |}).
Proof.
  intros Hne Hup. unfold embed.
  rewrite (LLMService_embed_nonempty _ _ _ Hne), Hup. reflexivity.
Qed.

Lemma embed_returns (texts : list pystr) (s : state W) (vs : list pyval) (w' : W) :
  texts <> [] ->
  embeddings_create svc DEFAULT_EMBEDDING_MODEL texts (world s) = (Ret vs, w') ->
  embed svc texts s
    = (Ret vs, {| world := w';
                  trace := trace s ++ [EvEmbed DEFAULT_EMBEDDING_MODEL texts] |}).
Proof.
  intros Hne Hup. unfold embed.
  rewrite (LLMService_embed_nonempty _ _ _ Hne), Hup. reflexivity.
Qed.
End embedding_facts.

(** C4, as worded, fails on the code: there is no EmbeddingError. When the
    upstream service raises RateLimitError, [embed] raises that very
    exception, unwrapped. *)
Lemma embed_reraises_the_upstream_error :
  embed (fixed_services tool_reply (Raise rate_limited) 0 []) [str "hello"] start_state
    = (Raise rate_limited,
       {| world := tt;
          trace := [EvEmbed DEFAULT_EMBEDDING_MODEL [str "hello"]] |}) /\
  exn_type rate_limited = str "RateLimitError" /\
  pystr_eqb (exn_type rate_limited) (str "EmbeddingError") = false.
Proof. split_and!; reflexivity. Qed.

(** C4, amended. For an empty list [embed] returns the empty list and does
    not call the upstream service. For a non-empty list it calls the upstream
    service once and ends exactly as that call ends: it returns the vectors of
    the upstream reply in the reply's order (one per input text, in the same
    order, when the upstream reply is so), and when the upstream call raises
    it raises the same exception, unwrapped, and returns nothing. *)
Theorem embed_is_the_upstream_call {W : Type} (svc : services W)
    (texts : list pystr) (s : state W) :
  match texts with
  | [] => embed svc texts s = (Ret [], s)
  | _ :: _ =>
      let up := embeddings_create svc DEFAULT_EMBEDDING_MODEL texts (world s) in
      embed svc texts s
        = (fst up,
           {| world := snd up;
              trace := trace s ++ [EvEmbed DEFAULT_EMBEDDING_MODEL texts] |})
  end.
Proof.
  destruct texts as [|t texts]; [reflexivity|].
  cbn zeta. unfold embed. apply LLMService_embed_nonempty. discriminate.
Qed.

(** C7. When [count()] answers 0, [search] returns the empty list after
    that one call: the trace grows by the count call alone, so no embedding
    call is issued. *)
Theorem search_empty_index {W : Type} (svc : services W)
    (query : pystr) (top_k : Z) (s : state W) (w' : W) :
  collection_count svc (world s) = (Ret 0%Z, w') ->
  search svc query top_k s
    = (Ret [], {| world := w'; trace := trace s ++ [EvCount] |}) /\
  calls is_embed (trace (snd (search svc query top_k s)))
    = calls is_embed (trace s).
Proof.
  intros Hcount.
  assert (E : search svc query top_k s
              = (Ret [], {| world := w'; trace := trace s ++ [EvCount] |})).
  { unfold search, bind, call. rewrite Hcount. reflexivity. }
  split; [exact E|].
  rewrite E. cbn [snd trace]. rewrite calls_app. cbn. lia.
Qed.

Lemma search_empty_index_witness :
  search (fixed_services tool_reply (Raise rate_limited) 0 []) (str "tax") 5 start_state
    = (Ret [], {| world := tt; trace := [EvCount] |}) /\
  calls is_embed
    (trace (snd (search (fixed_services tool_reply (Raise rate_limited) 0 [])
                        (str "tax") 5 start_state)))
    = 0%nat.
Proof.
  exact (search_empty_index (fixed_services tool_reply (Raise rate_limited) 0 [])
           (str "tax") 5 start_state tt ltac:(reflexivity)).
Defined.

(** * Facts about the conversation loop *)

Lemma or_str_empty (x : option pystr) :
  or_str x [] = match x with Some t => t | None => [] end.
Proof. destruct x as [[|c t]|]; reflexivity. Qed.


Section loop_facts.
Context {W : Type} (lib : pylib) (svc : services W) (registry : FunctionRegistry W).
Implicit Types (s : state W) (current : list pyval).



Lemma run_tool_calls_step tc rest current s :
  run_tool_calls lib registry (tc :: rest) current s
    = match loads_or_empty lib (or_str (tc_arguments tc) (str "{}")) with
      | Raise e => (Raise e, s)
      | Ret args =>
          match execute registry (tc_name tc) args s with
          | (Ret result, s1) =>
              run_tool_calls lib registry rest
                (current ++ [tool_message tc result]) s1
          | (Raise e, s1) => (Raise e, s1)
          end
      end.
Proof.
  cbn [run_tool_calls]. unfold bind, lift.
  destruct (loads_or_empty lib (or_str (tc_arguments tc) (str "{}")));
    reflexivity.
Qed.







End loop_facts.

Section process_facts.
Context {W : Type} (lib : pylib) (svc : services W) (registry : FunctionRegistry W).

(** [process] is [process_full] with the ghost fields dropped. *)
Lemma process_of_full user_message history image (s : state W) :
  process lib svc registry user_message history image s
    = (match fst (process_full lib svc registry user_message history image s) with
       | Ret r => Ret (answer r)
       | Raise e => Raise e
       end,
       snd (process_full lib svc registry user_message history image s)).
Proof.
  unfold process, bind, ret.
  destruct (process_full lib svc registry user_message history image s)
    as [[r|e] s']; reflexivity.
Qed.

End process_facts.




(** C8. With an empty history and no image, when the model's first reply
    asks for no tool, [process] returns the text of that reply after one
    model call, and the message sequence ends as the three messages system,
    user, assistant. *)
Theorem process_plain_answer {W : Type} (lib : pylib) (svc : services W)
    (registry : FunctionRegistry W) (user_message : pystr)
    (history : option (list pyval)) (image : option pystr)
    (s : state W) (resp : chat_response) (w' : W) :
  let sent := [system_message;
               PDict [(str "role", PStr (str "user"));
                      (str "content", PStr user_message)]] in
  let text := match resp_content resp with Some t => t | None => [] end in
  let s' := {| world := w';
               trace := trace s ++ [EvChat sent (_tools registry)] |} in
  history = None \/ history = Some [] ->
  image = None \/ image = Some [] ->
  llm_chat svc sent (_tools registry) (world s) = (Ret resp, w') ->
  resp_tool_calls resp = None \/ resp_tool_calls resp = Some [] ->
  process lib svc registry user_message history image s = (Ret (PStr text), s') /\
  process_full lib svc registry user_message history image s
    = (Ret {| answer := PStr text;
              messages :=
                sent ++ [PDict [(str "role", PStr (str "assistant"));
                                (str "content", PStr text);
                                (str "tool_calls", PList [])]];
              exhausted := false |}, s') /\
  List.map (fun m => match m with
                     | PDict d => dict_get d (str "role") PNone
                     | _ => PNone
                     end)
           (sent ++ [PDict [(str "role", PStr (str "assistant"));
                            (str "content", PStr text);
                            (str "tool_calls", PList [])]])
    = [PStr (str "system"); PStr (str "user"); PStr (str "assistant")].
Proof.
  intros sent text s' Hhist Himg Hchat Htools.
  assert (Hinit : initial_messages user_message history image = sent).
  { destruct Hhist as [-> | ->], Himg as [-> | ->]; reflexivity. }
  assert (Hfull : process_full lib svc registry user_message history image s
    = (Ret {| answer := PStr text;
              messages :=
                sent ++ [PDict [(str "role", PStr (str "assistant"));
                                (str "content", PStr text);
                                (str "tool_calls", PList [])]];
              exhausted := false |}, s')).
  { unfold process_full. rewrite Hinit. unfold max_rounds. cbn [rounds].
    unfold bind at 1. unfold call. rewrite Hchat.
    rewrite or_str_empty. fold text.
    destruct Htools as [-> | ->]; reflexivity. }
  split_and!; [|exact Hfull|reflexivity].
  rewrite process_of_full, Hfull. reflexivity.
Qed.

(** ["What's 2+2?"] with an empty history and a model that answers ["4"]. *)
Lemma process_plain_answer_witness :
  process posix_lib (fixed_services (plain_reply (str "4")) (Ret []) 0 [])
          example_registry (str "What's 2+2?") (Some []) None start_state
    = (Ret (PStr (str "4")),
       {| world := tt;
          trace := [EvChat [system_message;
                            PDict [(str "role", PStr (str "user"));
                                   (str "content", PStr (str "What's 2+2?"))]]
                           []] |}) /\
  List.length
    (messages
       match fst (process_full posix_lib
                    (fixed_services (plain_reply (str "4")) (Ret []) 0 [])
                    example_registry (str "What's 2+2?") (Some []) None start_state)
       with
       | Ret r => r
       | Raise _ => {| answer := PNone; messages := []; exhausted := false |}
       end) = 3%nat.
Proof.
  destruct (process_plain_answer posix_lib
              (fixed_services (plain_reply (str "4")) (Ret []) 0 [])
              example_registry (str "What's 2+2?") (Some []) None start_state
              (plain_reply (str "4")) tt
              ltac:(right; reflexivity) ltac:(left; reflexivity)
              ltac:(reflexivity) ltac:(left; reflexivity)) as (Hp & Hf & _).
  split; [exact Hp|]. rewrite Hf. reflexivity.
Defined.

(** * Facts about document ids *)

Lemma uint_digits_ascii (d : Decimal.uint) :
  is_ascii_str (str (NilEmpty.string_of_uint d)) = true.
Proof. induction d; cbn; auto. Qed.

Lemma nilzero_digits_ascii (d : Decimal.uint) :
  is_ascii_str (str (NilZero.string_of_uint d)) = true.
Proof. destruct d; first [reflexivity | exact (uint_digits_ascii _)]. Qed.

Lemma py_str_int_ascii (n : Z) : is_ascii_str (py_str_int n) = true.
Proof.
  unfold py_str_int, NilZero.string_of_int.
  destruct (Z.to_int n) as [d|d]; [apply nilzero_digits_ascii|].
  change (is_ascii HYPHEN && is_ascii_str (str (NilZero.string_of_uint d)) = true).
  rewrite nilzero_digits_ascii. reflexivity.
Qed.

Section document_id_facts.
Variable lib : pylib.

Lemma encode_ascii_replace_length (s : pystr) :
  List.length (encode_ascii_replace s) = List.length s.
Proof. apply List.length_map. Qed.

Lemma sub_nonword_length (s : pystr) :
  List.length (sub_nonword lib s) = List.length s.
Proof. apply List.length_map. Qed.

Lemma encode_ascii_replace_ascii (s : pystr) :
  is_ascii_str (encode_ascii_replace s) = true.
Proof.
  induction s as [|c s IH]; [reflexivity|].
  cbn. destruct (is_ascii c) eqn:E; [rewrite E|]; exact IH.
Qed.

(** After the substitution every character is a word character or a
    hyphen; the ASCII ones among them survive the encoding, the others
    become question marks. *)
Lemma sanitized_char_safe (c : codepoint) :
  let c' := if is_word lib c || (c =? HYPHEN)%N then c else UNDERSCORE in
  safe_char (if is_ascii c' then c' else QUESTION_MARK) = true.
Proof.
  cbn zeta. unfold is_word.
  destruct (is_ascii c) eqn:Ea.
  - destruct (ascii_alnum c) eqn:Eal; cbn [orb].
    + rewrite Ea. unfold safe_char. rewrite Eal. reflexivity.
    + destruct (c =? UNDERSCORE)%N eqn:Eu; cbn [orb].
      * rewrite Ea. unfold safe_char. rewrite Eu, !orb_true_r. reflexivity.
      * destruct (c =? HYPHEN)%N eqn:Eh; [|reflexivity].
        rewrite Ea. unfold safe_char. rewrite Eh, !orb_true_r. reflexivity.
  - destruct (unicode_isalnum lib c || (c =? HYPHEN)%N); [|reflexivity].
    rewrite Ea. reflexivity.
Qed.

Lemma sanitized_chars_safe (s : pystr) :
  forallb safe_char (encode_ascii_replace (sub_nonword lib s)) = true.
Proof.
  unfold encode_ascii_replace, sub_nonword.
  induction s as [|c s IH]; [reflexivity|].
  cbn [List.map forallb]. rewrite IH, andb_true_r.
  apply sanitized_char_safe.
Qed.

Lemma firstn_sub_nonword (n : nat) (s : pystr) :
  firstn n (sub_nonword lib s) = sub_nonword lib (firstn n s).
Proof. unfold sub_nonword. apply List.firstn_map. Qed.

Lemma safe_doc_id_cases (name : pystr) :
  (path_stem lib name = [] /\ _safe_doc_id lib name = str "doc") \/
  (path_stem lib name <> [] /\
   _safe_doc_id lib name
     = encode_ascii_replace (sub_nonword lib (firstn 80 (path_stem lib name)))).
Proof.
  unfold _safe_doc_id. destruct (path_stem lib name) as [|c stem].
  - left. split; reflexivity.
  - right. split; [discriminate|].
    rewrite firstn_sub_nonword. reflexivity.
Qed.

Lemma safe_doc_id_properties (name : pystr) :
  _safe_doc_id lib name <> [] /\
  (List.length (_safe_doc_id lib name) <= 80)%nat /\
  is_ascii_str (_safe_doc_id lib name) = true /\
  forallb safe_char (_safe_doc_id lib name) = true.
Proof.
  destruct (safe_doc_id_cases name) as [[_ ->]|[Hne ->]].
  - split_and!; [discriminate|cbn; lia|reflexivity|reflexivity].
  - split_and!.
    + destruct (path_stem lib name); [congruence|discriminate].
    + rewrite encode_ascii_replace_length, sub_nonword_length.
      apply List.firstn_le_length.
    + apply encode_ascii_replace_ascii.
    + apply sanitized_chars_safe.
Qed.

Lemma chunk_id_ascii (base : pystr) (i : nat) :
  is_ascii_str base = true -> is_ascii_str (chunk_id base i) = true.
Proof.
  intros Hb. unfold chunk_id, is_ascii_str in *.
  rewrite !forallb_app, Hb. cbn [forallb andb].
  change (is_ascii UNDERSCORE) with true. cbn [andb].
  apply py_str_int_ascii.
Qed.

Lemma base_id_without_doc_id (path : pystr) (doc_id original_name : option pystr) :
  doc_id = None \/ doc_id = Some [] ->
  base_id_of lib path doc_id original_name
    = _safe_doc_id lib (or_str original_name (path_name lib path)).
Proof. intros [-> | ->]; reflexivity. Qed.
End document_id_facts.

(** * Facts about ingestion *)

Lemma chunk_text_of_empty (fuel : nat) (chunk_size overlap : Z) :
  _chunk_text fuel [] chunk_size overlap = Some [].
Proof. reflexivity. Qed.

Lemma drained_chunks (source : pystr) (chunks : list pystr) :
  List.map fst
    (List.map (fun ic : nat * pystr => (snd ic, chunk_meta source (fst ic)))
              (List.combine (seq 0 (List.length chunks)) chunks))
    = chunks.
Proof.
  rewrite List.map_map. cbn [fst].
  generalize 0%nat. induction chunks as [|c chunks IH]; intros k; [reflexivity|].
  cbn. f_equal. apply IH.
Qed.

Section ingestion_facts.
Context {W : Type} (lib : pylib) (svc : services W).

Lemma bind_call_ret {A B : Type} (ev : event) (f : W -> outcome A * W)
    (k : A -> Py W B) (s : state W) (a : A) (w : W) :
  f (world s) = (Ret a, w) ->
  bind (call ev f) k s = k a {| world := w; trace := trace s ++ [ev] |}.
Proof. intros H. unfold bind, call. rewrite H. reflexivity. Qed.

Lemma bind_call_raise {A B : Type} (ev : event) (f : W -> outcome A * W)
    (k : A -> Py W B) (s : state W) (e : exn) (w : W) :
  f (world s) = (Raise e, w) ->
  bind (call ev f) k s = (Raise e, {| world := w; trace := trace s ++ [ev] |}).
Proof. intros H. unfold bind, call. rewrite H. reflexivity. Qed.

(** [ingest_document] up to the point where the chunks and their metadata
    are collected. *)
Lemma ingest_upto_chunks fuel path doc_id original_name (s : state W)
    (w1 w2 w3 : W) :
  path_exists svc path (world s) = (Ret true, w1) ->
  VectorStore svc w1 = (Ret tt, w2) ->
  EmbeddingService svc w2 = (Ret tt, w3) ->
  ingest_document lib svc fuel path doc_id original_name s
    = bind (process_document lib svc fuel path)
        (fun produced =>
           match produced with
           | None => ret None
           | Some pairs =>
               let chunks := List.map fst pairs in
               let metas := List.map snd pairs in
               match chunks with
               | [] => ret (Some (failure (str "No text extracted from document")))
               | _ =>
                   bind
                     (try_except
                        (bind (embed svc chunks) (fun embeddings => ret (inr embeddings)))
                        (fun e =>
                           ret (inl (failure
                             (str "Embedding failed: " ++ exn_str e
                                ++ str ". Check OPENAI_API_KEY and quota.")))))
                     (fun embedded =>
                        match embedded with
                        | inl failed => ret (Some failed)
                        | inr embeddings =>
                            bind
                              (try_except
                                 (let ids := chunk_ids
                                               (base_id_of lib path doc_id original_name)
                                               (List.length chunks) in
                                  bind (call (EvAdd ids embeddings chunks metas)
                                          (collection_add svc ids embeddings chunks metas))
                                       (fun _ => ret None))
                                 (fun e => ret (Some (failure (exn_str e)))))
                              (fun added =>
                                 match added with
                                 | Some failed => ret (Some failed)
                                 | None =>
                                     ret (Some (PDict
                                       [(str "success", PBool true);
                                        (str "chunks", PInt (Z.of_nat (List.length chunks)));
                                        (str "source",
                                         PStr (or_str original_name (path_name lib path)))]))
                                 end)
                        end)
               end
           end)
        {| world := w3;
           trace := trace s ++ [EvExists path; EvVectorStore; EvEmbeddingService] |}.
Proof.
  intros Hex Hvs Hes. unfold ingest_document.
  rewrite (bind_call_ret (EvExists path) (path_exists svc path) _ s true w1 Hex).
  cbv beta iota delta [negb].
  rewrite (bind_call_ret EvVectorStore (VectorStore svc) _
             {| world := w1; trace := trace s ++ [EvExists path] |} tt w2 Hvs).
  cbv beta.
  rewrite (bind_call_ret EvEmbeddingService (EmbeddingService svc) _
             {| world := w2;
                trace := trace {| world := w1; trace := trace s ++ [EvExists path] |}
                           ++ [EvVectorStore] |} tt w3 Hes).
  cbv beta.
  cbn [trace]. rewrite <- !List.app_assoc. reflexivity.
Qed.

Lemma process_document_chunks fuel path (s : state W) text w' chunks :
  extract_text_from_file svc path (world s) = (Ret text, w') ->
  _chunk_text fuel text CHUNK_SIZE CHUNK_OVERLAP = Some chunks ->
  exists pairs,
    process_document lib svc fuel path s
      = (Ret (Some pairs),
         {| world := w'; trace := trace s ++ [EvExtract path] |}) /\
    List.map fst pairs = chunks.
Proof.
  intros Hext Hchunks. unfold process_document, bind, call. rewrite Hext.
  destruct text as [|c text].
  - rewrite chunk_text_of_empty in Hchunks. injection Hchunks as <-.
    exists []. split; reflexivity.
  - cbn [nonempty negb]. rewrite Hchunks. eexists. split; [reflexivity|].
    apply drained_chunks.
Qed.
End ingestion_facts.




Section ingestion_trace.
Context {W : Type} (lib : pylib) (svc : services W).

(** The only ids that [ingest_document] hands to the vector collection are
    the chunk ids derived from the base id. *)
Lemma ingest_adds_derived_ids (fuel : nat) (path : pystr)
    (doc_id original_name : option pystr) (s : state W) :
  exists new,
    trace (snd (ingest_document lib svc fuel path doc_id original_name s))
      = trace s ++ new /\
    forall ids embeddings documents metadatas,
      In (EvAdd ids embeddings documents metadatas) new ->
      ids = chunk_ids (base_id_of lib path doc_id original_name)
                      (List.length documents).
Proof.
  unfold ingest_document, process_document, embed, LLMService_embed,
    try_except, bind, call, ret, raise.
  repeat (case_match; simplify_eq/=);
    (eexists; split; [rewrite <- ?List.app_assoc; reflexivity|]);
    cbn [List.app In]; intros ids em docs metas Hin;
    repeat (destruct Hin as [Hin|Hin]; [try discriminate Hin|]);
    try contradiction.
  all: injection Hin as <- <- <- <-; reflexivity.
Qed.
End ingestion_trace.

(** C10, as worded, fails on the code. For the file name ["é.txt"] the
    letter is a word character, so the substitution keeps it, and the ASCII
    encoding then replaces it by a question mark: the derived id is ["?"],
    which is no word character, hyphen or underscore. And a [doc_id] given by
    the caller is used as it is: with [doc_id = "é"] the first chunk id is
    ["é_0"], which is not ASCII. *)
Lemma safe_doc_id_has_question_marks :
  is_word posix_lib 233%N = true /\
  _safe_doc_id posix_lib accented_name = [QUESTION_MARK] /\
  forallb (word_or_hyphen posix_lib) (_safe_doc_id posix_lib accented_name) = false /\
  chunk_id (base_id_of posix_lib (str "/docs/a.txt") (Some [233%N]) None) 0
    = [233%N; UNDERSCORE; 48%N] /\
  is_ascii_str
    (chunk_id (base_id_of posix_lib (str "/docs/a.txt") (Some [233%N]) None) 0)
    = false.
Proof. vm_compute. repeat split; reflexivity. Qed.

(** C10, amended. For every file name the derived document id is a non-empty
    ASCII string of at most 80 characters made of ASCII letters, digits,
    underscores, hyphens and question marks (one question mark for each
    non-ASCII word character of the stem); it is the literal ["doc"] when the
    stem is empty. Hence, when the caller passes no [doc_id], every chunk id
    [f"{base_id}_{i}"] that [ingest_document] hands to the vector collection
    is ASCII, whatever the file name. *)
Theorem safe_doc_id_is_ascii_safe (lib : pylib) :
  (forall name : pystr,
     _safe_doc_id lib name <> [] /\
     (List.length (_safe_doc_id lib name) <= 80)%nat /\
     is_ascii_str (_safe_doc_id lib name) = true /\
     forallb safe_char (_safe_doc_id lib name) = true /\
     (path_stem lib name = [] -> _safe_doc_id lib name = str "doc")) /\
  (forall (W : Type) (svc : services W) (fuel : nat) (path : pystr)
          (doc_id original_name : option pystr) (s : state W),
     doc_id = None \/ doc_id = Some [] ->
     exists new,
       trace (snd (ingest_document lib svc fuel path doc_id original_name s))
         = trace s ++ new /\
       forall ids embeddings documents metadatas,
         In (EvAdd ids embeddings documents metadatas) new ->
         ids = chunk_ids
                 (_safe_doc_id lib (or_str original_name (path_name lib path)))
                 (List.length documents) /\
         List.Forall (fun id => is_ascii_str id = true) ids).
Proof.
  split.
  - intros name.
    destruct (safe_doc_id_properties lib name) as (H1 & H2 & H3 & H4).
    split_and!; try assumption.
    intros Hs. destruct (safe_doc_id_cases lib name) as [[_ E]|[Hne _]];
      [exact E|congruence].
  - intros W svc fuel path doc_id original_name s Hd.
    destruct (ingest_adds_derived_ids lib svc fuel path doc_id original_name s)
      as (new & Htrace & Hids).
    exists new. split; [exact Htrace|].
    intros ids em docs metas Hin.
    rewrite (Hids _ _ _ _ Hin), (base_id_without_doc_id lib _ _ _ Hd).
    split; [reflexivity|].
    apply List.Forall_forall. intros id Hid.
    unfold chunk_ids in Hid. apply List.in_map_iff in Hid as (i & <- & _).
    apply chunk_id_ascii. apply safe_doc_id_properties.
Qed.

(** * More facts about the chunker *)

Section strip_facts.

Lemma py_lstrip_split (s : pystr) :
  exists ws, s = ws ++ py_lstrip s /\ forallb py_isspace ws = true.
Proof.
  induction s as [|c s (ws & E & H)]; [exists []; split; reflexivity|].
  cbn [py_lstrip]. destruct (py_isspace c) eqn:Ec.
  - exists (c :: ws). split; [cbn; f_equal; exact E|cbn; rewrite Ec, H; reflexivity].
  - exists []. split; reflexivity.
Qed.

Lemma py_lstrip_head (s : pystr) (c : codepoint) (r : pystr) :
  py_lstrip s = c :: r -> py_isspace c = false.
Proof.
  induction s as [|d s IH]; [discriminate|].
  cbn [py_lstrip]. destruct (py_isspace d) eqn:Ed; [exact IH|].
  intros [= <- <-]. exact Ed.
Qed.

Lemma py_lstrip_blank (s : pystr) :
  forallb py_isspace s = true -> py_lstrip s = [].
Proof.
  induction s as [|c s IH]; [reflexivity|].
  cbn. destruct (py_isspace c); [exact IH|discriminate].
Qed.

Lemma py_lstrip_stable (s : pystr) (c : codepoint) :
  py_isspace c = false -> py_lstrip (c :: s) = c :: s.
Proof. intros H. cbn. rewrite H. reflexivity. Qed.

Lemma py_rstrip_split (s : pystr) :
  exists ws, s = py_rstrip s ++ ws /\ forallb py_isspace ws = true.
Proof.
  unfold py_rstrip. destruct (py_lstrip_split (rev s)) as (ws & E & H).
  exists (rev ws). split.
  - rewrite <- List.rev_app_distr, <- E, List.rev_involutive. reflexivity.
  - rewrite List.forallb_forall in *. intros x Hx. apply H.
    apply List.in_rev. exact Hx.
Qed.

Lemma py_rstrip_last (s : pystr) (d : codepoint) :
  py_rstrip s <> [] -> py_isspace (List.last (py_rstrip s) d) = false.
Proof.
  unfold py_rstrip. destruct (py_lstrip (rev s)) as [|c r] eqn:E;
    [intros H; destruct (H eq_refl)|].
  intros _. cbn [rev]. rewrite List.last_last.
  exact (py_lstrip_head _ _ _ E).
Qed.

Lemma py_rstrip_drops_space (s : pystr) (c : codepoint) :
  py_isspace c = true -> py_rstrip (s ++ [c]) = py_rstrip s.
Proof.
  intros H. unfold py_rstrip. rewrite List.rev_app_distr. cbn. rewrite H.
  reflexivity.
Qed.

Lemma py_rstrip_length (s : pystr) :
  (List.length (py_rstrip s) <= List.length s)%nat.
Proof.
  destruct (py_rstrip_split s) as (ws & E & _).
  rewrite E at 2. rewrite List.length_app. lia.
Qed.

Lemma py_lstrip_length (s : pystr) :
  (List.length (py_lstrip s) <= List.length s)%nat.
Proof.
  destruct (py_lstrip_split s) as (ws & E & _).
  rewrite E at 2. rewrite List.length_app. lia.
Qed.

Lemma py_strip_length (s : pystr) :
  (List.length (py_strip s) <= List.length s)%nat.
Proof.
  unfold py_strip. pose proof (py_rstrip_length (py_lstrip s)).
  pose proof (py_lstrip_length s). lia.
Qed.

Lemma py_strip_blank (s : pystr) :
  forallb py_isspace s = true -> py_strip s = [].
Proof. intros H. unfold py_strip. rewrite (py_lstrip_blank s H). reflexivity. Qed.

(** What [strip] returns has no whitespace at either end. *)
Lemma py_strip_is_stripped (s : pystr) : is_stripped (py_strip s) = true.
Proof.
  unfold py_strip, is_stripped.
  destruct (py_rstrip (py_lstrip s)) as [|c r] eqn:E; [reflexivity|].
  pose proof (py_rstrip_last (py_lstrip s) c) as Hlast. rewrite E in Hlast.
  rewrite (Hlast ltac:(discriminate)).
  destruct (py_rstrip_split (py_lstrip s)) as (ws & Es & _).
  rewrite E in Es. cbn in Es.
  rewrite (py_lstrip_head s c _ Es). reflexivity.
Qed.

(** A whitespace character at the end of a slice costs the chunk nothing. *)
Lemma py_strip_trailing_space (s : pystr) (c : codepoint) :
  py_isspace c = true ->
  (List.length (py_strip (s ++ [c])) <= List.length s)%nat.
Proof.
  intros H. unfold py_strip.
  destruct (py_lstrip_split s) as (ws & E & Hws).
  destruct (py_lstrip s) as [|d r] eqn:El.
  - assert (B : forallb py_isspace (s ++ [c]) = true).
    { rewrite List.forallb_app. rewrite E, List.app_nil_r, Hws. cbn.
      rewrite H. reflexivity. }
    rewrite (py_lstrip_blank _ B). cbn. lia.
  - assert (L : py_lstrip (s ++ [c]) = (d :: r) ++ [c]).
    { rewrite E at 1. rewrite <- List.app_assoc.
      clear E. induction ws as [|w ws IH]; cbn in *.
      - rewrite (py_lstrip_head s d r El). reflexivity.
      - apply andb_true_iff in Hws as [Hw Hws]. rewrite Hw. apply IH, Hws. }
    rewrite L, (py_rstrip_drops_space _ _ H).
    pose proof (py_rstrip_length (d :: r)).
    rewrite E, List.length_app. lia.
Qed.
End strip_facts.

Section chunk_loop_facts.
Variables (text : pystr) (chunk_size overlap : Z).

(** A property of every chunk a pass appends, under an invariant of [start],
    is a property of every chunk the loop returns. *)
Lemma chunk_loop_forall (P : pystr -> Prop) (I : Z -> Prop) :
  (forall start, I start -> (start < py_len text)%Z ->
     match chunk_step text chunk_size overlap start with
     | Last c => P c
     | Next c start' => P c /\ I start'
     end) ->
  forall fuel start acc out,
    I start -> List.Forall P acc ->
    chunk_loop fuel text chunk_size overlap start acc = Some out ->
    List.Forall P out.
Proof.
  intros Hstep. induction fuel as [|fuel IH]; intros start acc out HI Hacc;
    cbn [chunk_loop]; destruct (start <? py_len text)%Z eqn:E;
    try discriminate; try (intros [= <-]; exact Hacc).
  apply Z.ltb_lt in E. specialize (Hstep start HI E).
  destruct (chunk_step text chunk_size overlap start) as [c|c start'].
  - intros [= <-]. apply List.Forall_app. split; [exact Hacc|].
    constructor; [exact Hstep|constructor].
  - destruct Hstep as [Hc HI']. apply IH; [exact HI'|].
    apply List.Forall_app. split; [exact Hacc|]. constructor; [exact Hc|constructor].
Qed.

(** When every pass moves [start] forward, the loop is left after at most
    [len(text) - start] passes. *)
Lemma chunk_loop_terminates (I : Z -> Prop) :
  (forall start, I start -> (start < py_len text)%Z ->
     match chunk_step text chunk_size overlap start with
     | Last _ => True
     | Next _ start' => (start < start')%Z /\ I start'
     end) ->
  forall fuel start acc,
    I start -> (py_len text - start <= Z.of_nat fuel)%Z ->
    exists out, chunk_loop fuel text chunk_size overlap start acc = Some out.
Proof.
  intros Hstep. induction fuel as [|fuel IH]; intros start acc HI Hfuel;
    cbn [chunk_loop]; destruct (start <? py_len text)%Z eqn:E;
    try (eexists; reflexivity).
  - apply Z.ltb_lt in E. lia.
  - apply Z.ltb_lt in E. specialize (Hstep start HI E).
    destruct (chunk_step text chunk_size overlap start) as [c|c start'];
      [eexists; reflexivity|].
    destruct Hstep as [Hlt HI']. apply IH; [exact HI'|lia].
Qed.

(** Where the code may cut a window that does not reach the end of the
    text: not before [start], at most one character behind the raw boundary,
    and that only behind a newline that sits on the boundary. *)
Lemma chunk_end_range (start : Z) :
  (0 <= start)%Z -> (0 <= chunk_size)%Z ->
  (start + chunk_size < py_len text)%Z ->
  let e := chunk_end text chunk_size start in
  (start <= e <= start + chunk_size + 1)%Z /\
  (e = start + chunk_size + 1 ->
   occurs_at text [LF] (start + chunk_size) = true)%Z.
Proof.
  intros H0 H1 H2.
  cbn zeta. unfold chunk_end.
  remember (start + chunk_size)%Z as hi eqn:Ehi.
  assert (B1 : (start <= hi + 1)%Z) by lia.
  assert (B2 : (hi + 1 <= py_len text)%Z) by lia.
  destruct (py_rfind_spec [LF; LF] text start hi H0 B1 B2) as [[-> _]|L2].
  - cbn [Z.eqb Pos.eqb].
    destruct (py_rfind_spec [LF] text start hi H0 B1 B2) as [[-> _]|L1].
    + cbn [Z.eqb Pos.eqb].
      destruct (py_rfind_spec (str ". ") text start hi H0 B1 B2) as [[-> _]|Ld].
      * cbn. lia.
      * destruct Ld as (A1 & A2 & _). change (py_len (str ". ")) with 2%Z in A2.
        set (b := py_rfind text (str ". ") start (hi + 1)) in *.
        assert (Hb : (b =? -1)%Z = false) by (apply Z.eqb_neq; lia).
        rewrite !Hb.
        destruct (negb false && (start <? b)%Z); lia.
    + destruct L1 as (A1 & A2 & A3 & _). change (py_len [LF]) with 1%Z in A2.
      set (b := py_rfind text [LF] start (hi + 1)) in *.
      assert (Hb : (b =? -1)%Z = false) by (apply Z.eqb_neq; lia).
      rewrite !Hb.
      destruct (negb false && (start <? b)%Z); [|lia].
      split; [lia|]. intros Eb. replace hi with b by lia. exact A3.
  - destruct L2 as (A1 & A2 & _). change (py_len [LF; LF]) with 2%Z in A2.
    set (b := py_rfind text [LF; LF] start (hi + 1)) in *.
    assert (Hb : (b =? -1)%Z = false) by (apply Z.eqb_neq; lia).
    rewrite !Hb.
    destruct (negb false && (start <? b)%Z); lia.
Qed.
End chunk_loop_facts.

Section slice_facts.
Variable s : pystr.

Lemma adjust_index_inside (i : Z) :
  (0 <= i <= py_len s)%Z -> adjust_index (py_len s) i = i.
Proof.
  intros H. unfold adjust_index.
  replace (i <? 0)%Z with false by (symmetry; apply Z.ltb_ge; lia).
  lia.
Qed.

Lemma py_slice_inside (i j : Z) :
  (0 <= i <= j)%Z -> (j <= py_len s)%Z ->
  py_slice s i j = firstn (Z.to_nat (j - i)) (skipn (Z.to_nat i) s).
Proof.
  intros H1 H2. unfold py_slice. rewrite !adjust_index_inside by lia. reflexivity.
Qed.

Lemma py_slice_length (i j : Z) :
  (0 <= i <= j)%Z -> (j <= py_len s)%Z -> py_len (py_slice s i j) = (j - i)%Z.
Proof.
  intros H1 H2. rewrite py_slice_inside by assumption.
  unfold py_len in *. rewrite List.length_firstn, List.length_skipn. lia.
Qed.

Lemma py_slice_from_length (i : Z) :
  (0 <= i <= py_len s)%Z -> py_len (py_slice_from s i) = (py_len s - i)%Z.
Proof.
  intros H. unfold py_slice_from. rewrite adjust_index_inside by lia.
  unfold py_len in *. rewrite List.length_skipn. lia.
Qed.

Lemma occurs_at_char (c : codepoint) (k : Z) :
  occurs_at s [c] k = true -> s !! Z.to_nat k = Some c.
Proof.
  unfold occurs_at. intros H.
  apply andb_true_iff in H as [_ H].
  assert (E : skipn (Z.to_nat k) s !! 0%nat = s !! Z.to_nat k)
    by (rewrite lookup_drop; f_equal; lia).
  rewrite <- E.
  destruct (skipn (Z.to_nat k) s) as [|d r]; [discriminate|].
  cbn in H. apply andb_true_iff in H as [H _].
  apply N.eqb_eq in H. subst d. reflexivity.
Qed.

(** A slice that ends just behind index [j] is the slice that ends at [j]
    followed by the character at [j]. *)
Lemma py_slice_snoc (i j : Z) (c : codepoint) :
  (0 <= i <= j)%Z -> (j < py_len s)%Z -> s !! Z.to_nat j = Some c ->
  py_slice s i (j + 1) = py_slice s i j ++ [c].
Proof.
  intros H1 H2 Hc. rewrite !py_slice_inside by lia.
  replace (Z.to_nat (j + 1 - i)) with (S (Z.to_nat (j - i))) by lia.
  apply take_S_r. rewrite lookup_drop.
  replace (Z.to_nat i + Z.to_nat (j - i))%nat with (Z.to_nat j) by lia.
  exact Hc.
Qed.
End slice_facts.

Section chunk_step_facts.
Variables (text : pystr) (chunk_size overlap : Z).

Lemma chunk_step_is_stripped (start : Z) :
  match chunk_step text chunk_size overlap start with
  | Last c => is_stripped c = true
  | Next c _ => is_stripped c = true
  end.
Proof.
  unfold chunk_step. destruct (py_len text <=? start + chunk_size)%Z;
    apply py_strip_is_stripped.
Qed.

(** A pass keeps [start] from going negative, and appends a chunk of at most
    [chunk_size] characters. *)
Lemma chunk_step_bounded (start : Z) :
  (0 <= chunk_size)%Z -> (0 <= start)%Z -> (start < py_len text)%Z ->
  match chunk_step text chunk_size overlap start with
  | Last c => (py_len c <= chunk_size)%Z
  | Next c start' => (py_len c <= chunk_size)%Z /\ (0 <= start')%Z
  end.
Proof.
  intros Hc H0 Hlt. unfold chunk_step.
  destruct (py_len text <=? start + chunk_size)%Z eqn:E.
  - apply Z.leb_le in E.
    pose proof (py_strip_length (py_slice_from text start)) as Hs.
    pose proof (py_slice_from_length text start ltac:(lia)) as Hl.
    unfold py_len in *. lia.
  - apply Z.leb_gt in E.
    destruct (chunk_end_range text chunk_size start H0 Hc E) as [Hr Hnl].
    set (e := chunk_end text chunk_size start) in *.
    split.
    + destruct (Z.eq_dec e (start + chunk_size + 1)%Z) as [Ee|Ne].
      * pose proof (occurs_at_char text LF _ (Hnl Ee)) as Hchar.
        rewrite Ee.
        rewrite (py_slice_snoc text start (start + chunk_size) LF
                   ltac:(lia) E Hchar).
        pose proof (py_strip_trailing_space
                      (py_slice text start (start + chunk_size)) LF eq_refl) as Hs.
        pose proof (py_slice_length text start (start + chunk_size)
                      ltac:(lia) ltac:(lia)) as Hl.
        unfold py_len in *. lia.
      * pose proof (py_strip_length (py_slice text start e)) as Hs.
        pose proof (py_slice_length text start e ltac:(lia) ltac:(lia)) as Hl.
        unfold py_len in *. lia.
    + destruct (overlap <? e)%Z eqn:Eo; [apply Z.ltb_lt in Eo|]; lia.
Qed.
End chunk_step_facts.

(** X1. Whatever the parameters, a chunk that [_chunk_text] returns is not empty
    and has no whitespace at either end. *)
Theorem chunks_are_stripped_and_nonempty (fuel : nat) (text : pystr)
    (chunk_size overlap : Z) (chunks : list pystr) :
  _chunk_text fuel text chunk_size overlap = Some chunks ->
  List.Forall (fun c => c <> [] /\ is_stripped c = true) chunks.
Proof.
  unfold _chunk_text.
  destruct (negb (nonempty text) || negb (nonempty (py_strip text)));
    [intros [= <-]; constructor|].
  destruct (chunk_loop fuel (normalize_newlines text) chunk_size overlap 0 [])
    as [out|] eqn:E; [|discriminate].
  intros [= <-].
  assert (H : List.Forall (fun c => is_stripped c = true) out).
  { apply (chunk_loop_forall (normalize_newlines text) chunk_size overlap
             (fun c => is_stripped c = true) (fun _ => True)
             ltac:(intros start _ _;
                   pose proof (chunk_step_is_stripped (normalize_newlines text)
                                 chunk_size overlap start) as Hs;
                   destruct (chunk_step _ _ _ _); auto)
             fuel 0%Z [] out I ltac:(constructor) E). }
  apply List.Forall_forall. intros c Hin.
  apply List.filter_In in Hin as [Hin Hne].
  rewrite List.Forall_forall in H. split; [|exact (H c Hin)].
  destruct c; [discriminate|discriminate].
Qed.

Lemma chunks_are_stripped_and_nonempty_witness :
  List.Forall (fun c => c <> [] /\ is_stripped c = true)
    [str "a" ++ [LF] ++ str "b" ++ [LF] ++ str "c"].
Proof.
  exact (chunks_are_stripped_and_nonempty 1
           (str " a" ++ [CR; LF] ++ str "b" ++ [CR] ++ str "c" ++ [LF]) CHUNK_SIZE
           CHUNK_OVERLAP _ ltac:(vm_compute; reflexivity)).
Defined.

(** X2. For a [chunk_size] that is not negative, every chunk that [_chunk_text]
    returns has at most [chunk_size] characters, whatever the overlap. *)
Theorem chunks_fit_chunk_size (fuel : nat) (text : pystr)
    (chunk_size overlap : Z) (chunks : list pystr) :
  (0 <= chunk_size)%Z ->
  _chunk_text fuel text chunk_size overlap = Some chunks ->
  List.Forall (fun c => (py_len c <= chunk_size)%Z) chunks.
Proof.
  intros Hc. unfold _chunk_text.
  destruct (negb (nonempty text) || negb (nonempty (py_strip text)));
    [intros [= <-]; constructor|].
  destruct (chunk_loop fuel (normalize_newlines text) chunk_size overlap 0 [])
    as [out|] eqn:E; [|discriminate].
  intros [= <-].
  assert (H : List.Forall (fun c => (py_len c <= chunk_size)%Z) out).
  { apply (chunk_loop_forall (normalize_newlines text) chunk_size overlap
             (fun c => (py_len c <= chunk_size)%Z) (fun start => (0 <= start)%Z)
             (fun start H0 Hlt =>
                chunk_step_bounded (normalize_newlines text) chunk_size overlap
                  start Hc H0 Hlt)
             fuel 0%Z [] out (Z.le_refl 0) ltac:(constructor) E). }
  apply List.Forall_forall. intros c Hin.
  apply List.filter_In in Hin as [Hin _].
  rewrite List.Forall_forall in H. exact (H c Hin).
Qed.

(** A newline on the raw boundary: the slice has 11 characters, the chunk
    10. *)
Lemma chunks_fit_chunk_size_witness :
  List.Forall (fun c => (py_len c <= 10)%Z)
    [str "aaaaaaaaaa"; str "bbbbb"].
Proof.
  exact (chunks_fit_chunk_size 2 (str "aaaaaaaaaa" ++ [LF] ++ str "bbbbb") 10 0 _
           ltac:(lia) ltac:(vm_compute; reflexivity)).
Defined.

Section replace_facts.
Variables (old new : pystr).

Lemma starts_with_length (sub s : pystr) :
  starts_with sub s = true -> (List.length sub <= List.length s)%nat.
Proof.
  revert s. induction sub as [|c sub IH]; intros [|d s]; cbn; try lia;
    try discriminate.
  intros H. apply andb_true_iff in H as [_ H]. specialize (IH s H). lia.
Qed.

(** Replacing by something that is not longer does not lengthen. *)
Lemma py_replace_aux_length (s : pystr) :
  (List.length new <= List.length old)%nat ->
  forall skip,
    (List.length (py_replace_aux old new skip s) + Nat.min skip (List.length s)
       <= List.length s)%nat.
Proof.
  intros Hnew. induction s as [|c s IH]; intros skip; [cbn; lia|].
  cbn [py_replace_aux]. destruct skip as [|k].
  - destruct (starts_with old (c :: s)) eqn:E.
    + pose proof (starts_with_length _ _ E) as Hl. cbn [List.length] in Hl.
      specialize (IH (List.length old - 1)%nat).
      rewrite List.length_app. cbn [List.length]. lia.
    + specialize (IH 0%nat). cbn [List.length]. lia.
  - specialize (IH k). cbn [List.length]. lia.
Qed.

(** Nothing is replaced in a text in which the first character of [old]
    does not occur. *)
Lemma py_replace_absent (c : codepoint) (rest s : pystr) :
  old = c :: rest -> ~ In c s -> py_replace s old new = s.
Proof.
  intros -> Hc. unfold py_replace.
  induction s as [|d s IH]; [reflexivity|].
  cbn [py_replace_aux starts_with].
  destruct (N.eqb_spec c d) as [->|Hne]; [destruct Hc; left; reflexivity|].
  cbn [andb]. f_equal. apply IH. intros Hin. apply Hc. right. exact Hin.
Qed.
End replace_facts.

Lemma normalize_newlines_length (text : pystr) :
  (List.length (normalize_newlines text) <= List.length text)%nat.
Proof.
  unfold normalize_newlines, py_replace.
  pose proof (py_replace_aux_length [CR; LF] [LF] text ltac:(cbn; lia) 0%nat).
  pose proof (py_replace_aux_length [CR] [LF]
                (py_replace_aux [CR; LF] [LF] 0 text) ltac:(cbn; lia) 0%nat).
  lia.
Qed.

Lemma normalize_newlines_without_CR (text : pystr) :
  ~ In CR text -> normalize_newlines text = text.
Proof.
  intros H. unfold normalize_newlines.
  rewrite (py_replace_absent [CR; LF] [LF] CR [LF] text eq_refl H).
  exact (py_replace_absent [CR] [LF] CR [] text eq_refl H).
Qed.

Section termination_facts.
Variables (text : pystr) (chunk_size overlap : Z).

Lemma chunk_end_after_start (start : Z) :
  (1 <= chunk_size)%Z -> (start < chunk_end text chunk_size start)%Z.
Proof.
  intros Hc. unfold chunk_end. cbv zeta.
  match goal with
  | |- (start < if ?c && (start <? ?b)%Z then _ else _)%Z =>
      destruct (start <? b)%Z eqn:E; destruct c; cbn [andb];
        try (apply Z.ltb_lt in E); lia
  end.
Qed.

(** Without overlap every pass begins where the chunk before ended. *)
Lemma chunk_step_advances_without_overlap (start : Z) :
  (1 <= chunk_size)%Z -> (overlap <= 0)%Z ->
  match chunk_step text chunk_size overlap start with
  | Last _ => True
  | Next _ start' => (start < start')%Z /\ True
  end.
Proof.
  intros Hc Ho. unfold chunk_step.
  destruct (py_len text <=? start + chunk_size)%Z; [exact I|].
  pose proof (chunk_end_after_start start Hc).
  split; [|exact I]. destruct (overlap <? chunk_end text chunk_size start)%Z; lia.
Qed.

Lemma occurs_at_head (c : codepoint) (sub : pystr) (k : Z) :
  occurs_at text (c :: sub) k = true -> In c text.
Proof.
  unfold occurs_at. intros H. apply andb_true_iff in H as [_ H].
  assert (Hin : forall x, In x (skipn (Z.to_nat k) text) -> In x text).
  { intros x Hx. rewrite <- (List.firstn_skipn (Z.to_nat k) text).
    apply List.in_or_app. right. exact Hx. }
  apply Hin. destruct (skipn (Z.to_nat k) text) as [|d r]; [discriminate|].
  cbn in H. apply andb_true_iff in H as [H _]. apply N.eqb_eq in H.
  subst d. left. reflexivity.
Qed.

(** On a text without newline and without period-space a window is cut at
    its raw boundary, so that [start] moves by [chunk_size - overlap]. *)
Lemma chunk_step_advances_without_separator (start : Z) :
  ~ In LF text -> ~ contains text (str ". ") ->
  (0 <= overlap < chunk_size)%Z ->
  (0 <= start)%Z -> (start < py_len text)%Z ->
  match chunk_step text chunk_size overlap start with
  | Last _ => True
  | Next _ start' => (start < start')%Z /\ (0 <= start')%Z
  end.
Proof.
  intros Hlf Hdot Ho H0 Hlt. unfold chunk_step.
  destruct (py_len text <=? start + chunk_size)%Z eqn:E; [exact I|].
  apply Z.leb_gt in E.
  destruct (chunk_end_cases text chunk_size start H0 ltac:(lia) E)
    as (_ & _ & _ & Hraw).
  rewrite Hraw.
  - destruct (overlap <? start + chunk_size)%Z; lia.
  - intros k _ _. destruct (occurs_at text [LF; LF] k) eqn:Ek; [|reflexivity].
    destruct (Hlf (occurs_at_head LF [LF] k Ek)).
  - intros k _ _. destruct (occurs_at text [LF] k) eqn:Ek; [|reflexivity].
    destruct (Hlf (occurs_at_head LF [] k Ek)).
  - intros k _ _. destruct (occurs_at text (str ". ") k) eqn:Ek; [|reflexivity].
    destruct Hdot. exists k. exact Ek.
Qed.
End termination_facts.

(** X3. Without overlap ([overlap <= 0]) and with [chunk_size >= 1] the loop of
    [_chunk_text] is left after at most [len(text)] passes: fuel for that
    many passes gives the chunks. *)
Theorem chunk_text_terminates_without_overlap (text : pystr)
    (chunk_size overlap : Z) (fuel : nat) :
  (1 <= chunk_size)%Z -> (overlap <= 0)%Z -> (List.length text <= fuel)%nat ->
  exists chunks, _chunk_text fuel text chunk_size overlap = Some chunks.
Proof.
  intros Hc Ho Hfuel. unfold _chunk_text.
  destruct (negb (nonempty text) || negb (nonempty (py_strip text)));
    [eexists; reflexivity|].
  pose proof (normalize_newlines_length text) as Hn.
  destruct (chunk_loop_terminates (normalize_newlines text) chunk_size overlap
              (fun _ => True)
              (fun start _ _ =>
                 chunk_step_advances_without_overlap (normalize_newlines text)
                   chunk_size overlap start Hc Ho)
              fuel 0%Z [] I ltac:(unfold py_len; lia)) as [out ->].
  eexists. reflexivity.
Qed.

(** The text of C1 on which the default overlap loops is chunked when the
    overlap is 0. *)
Lemma chunk_text_terminates_without_overlap_witness :
  exists chunks, _chunk_text 2701 looping_text CHUNK_SIZE 0 = Some chunks.
Proof.
  exact (chunk_text_terminates_without_overlap looping_text CHUNK_SIZE 0 2701
           ltac:(unfold CHUNK_SIZE; lia) ltac:(lia)
           ltac:(vm_compute; lia)).
Defined.

(** X4. On a text without carriage return, newline and period-space, and with
    [0 <= overlap < chunk_size], the loop of [_chunk_text] is left after at
    most [len(text)] passes. *)
Theorem chunk_text_terminates_without_separator (text : pystr)
    (chunk_size overlap : Z) (fuel : nat) :
  ~ In CR text -> ~ In LF text -> ~ contains text (str ". ") ->
  (0 <= overlap < chunk_size)%Z -> (List.length text <= fuel)%nat ->
  exists chunks, _chunk_text fuel text chunk_size overlap = Some chunks.
Proof.
  intros Hcr Hlf Hdot Ho Hfuel. unfold _chunk_text.
  destruct (negb (nonempty text) || negb (nonempty (py_strip text)));
    [eexists; reflexivity|].
  rewrite (normalize_newlines_without_CR text Hcr).
  destruct (chunk_loop_terminates text chunk_size overlap
              (fun start => (0 <= start)%Z)
              (fun start H0 Hlt =>
                 chunk_step_advances_without_separator text chunk_size overlap
                   start Hlf Hdot Ho H0 Hlt)
              fuel 0%Z [] (Z.le_refl 0) ltac:(unfold py_len; lia)) as [out ->].
  eexists. reflexivity.
Qed.

(** The scenario of 2000 letters with the default parameters. *)
Lemma chunk_text_terminates_without_separator_witness :
  exists chunks,
    _chunk_text 2000 (List.repeat 97%N 2000) CHUNK_SIZE CHUNK_OVERLAP = Some chunks.
Proof.
  assert (Hno : forall c : codepoint, c <> 97%N -> ~ In c (List.repeat 97%N 2000)).
  { intros c Hc Hin. apply List.repeat_spec in Hin. congruence. }
  apply (chunk_text_terminates_without_separator (List.repeat 97%N 2000)
           CHUNK_SIZE CHUNK_OVERLAP 2000).
  - apply Hno. discriminate.
  - apply Hno. discriminate.
  - intros [k Hk].
    exact (Hno 46%N ltac:(discriminate)
             (occurs_at_head (List.repeat 97%N 2000) 46%N [32%N] k Hk)).
  - unfold CHUNK_SIZE, CHUNK_OVERLAP. lia.
  - rewrite List.repeat_length. lia.
Defined.

(** X5. Empty or whitespace-only input gives no chunk, before the loop is
    entered. *)
Theorem chunk_text_of_blank (fuel : nat) (text : pystr) (chunk_size overlap : Z) :
  forallb py_isspace text = true ->
  _chunk_text fuel text chunk_size overlap = Some [].
Proof.
  intros H. unfold _chunk_text. rewrite (py_strip_blank text H).
  rewrite orb_true_r. reflexivity.
Qed.

Lemma chunk_text_of_blank_witness :
  _chunk_text 0 (str "  " ++ [CR; LF; 9%N; 160%N; 12288%N]) CHUNK_SIZE CHUNK_OVERLAP
    = Some [].
Proof.
  exact (chunk_text_of_blank 0 (str "  " ++ [CR; LF; 9%N; 160%N; 12288%N])
           CHUNK_SIZE CHUNK_OVERLAP ltac:(reflexivity)).
Defined.

(** * More facts about the registry *)

Lemma hex_digit_printable (n : N) : (n < 16)%N -> is_printable (hex_digit n) = true.
Proof.
  intros H. unfold hex_digit, is_printable.
  destruct (n <? 10)%N eqn:E; [apply N.ltb_lt in E|apply N.ltb_ge in E];
    apply andb_true_iff; split; apply N.leb_le; lia.
Qed.

Lemma u_escape_printable (n : N) : forallb is_printable (u_escape n) = true.
Proof.
  unfold u_escape. cbn [forallb].
  rewrite !hex_digit_printable by (apply N.mod_lt; discriminate).
  reflexivity.
Qed.

Lemma escape_char_printable (c : codepoint) :
  forallb is_printable (escape_char c) = true.
Proof.
  unfold escape_char.
  repeat match goal with
         | |- context [if ?b then _ else _] => destruct b eqn:?; try reflexivity
         end;
    rewrite ?List.forallb_app, ?u_escape_printable; try reflexivity.
  cbn [forallb]. unfold is_printable.
  match goal with H : (_ && _)%bool = true |- _ => rewrite H end. reflexivity.
Qed.

Lemma json_string_printable (s : pystr) :
  forallb is_printable (json_string s) = true.
Proof.
  unfold json_string. rewrite !List.forallb_app. cbn [forallb].
  change (is_printable QUOTE) with true. cbn [andb]. rewrite andb_true_r.
  induction s as [|c s IH]; [reflexivity|].
  cbn [flat_map]. rewrite List.forallb_app, escape_char_printable, IH. reflexivity.
Qed.

(** X6. The error payload of [execute] is printable ASCII, whatever characters
    the tool name or the exception message holds. *)
Theorem error_payload_printable (msg : pystr) :
  json_dumps (PDict [(str "error", PStr msg)]) = Ret (error_payload msg) /\
  forallb is_printable (error_payload msg) = true.
Proof.
  split; [apply json_dumps_error|].
  unfold error_payload. rewrite !List.forallb_app, !json_string_printable.
  reflexivity.
Qed.

Section register_facts.
Context {W : Type}.

(** X7. A later registration under a name replaces the earlier one, leaves the
    other names and the tool list as they were, and [execute] dispatches
    accordingly. *)
Theorem register_last_write_wins (reg : FunctionRegistry W) (name : pystr)
    (h1 h2 : handler W) :
  get_handler (register (register reg name h1) name h2) name = Some h2 /\
  get_tools (register reg name h2) = get_tools reg /\
  (forall args s,
     execute (register (register reg name h1) name h2) name args s
       = execute (register reg name h2) name args s) /\
  (forall name' args s,
     name <> name' ->
     get_handler (register reg name h2) name' = get_handler reg name' /\
     execute (register reg name h2) name' args s = execute reg name' args s).
Proof.
  split_and!.
  - apply register_last_wins.
  - reflexivity.
  - intros args s. unfold execute, register; cbn [_handlers].
    unfold handler. rewrite !lookup_insert_eq. reflexivity.
  - intros name' args s Hne. split; [apply register_other, Hne|].
    unfold execute, register; cbn [_handlers].
    unfold handler. rewrite (lookup_insert_ne _ _ _ _ Hne). reflexivity.
Qed.
End register_facts.

(** * More facts about the conversation loop *)

Section tool_call_facts.
Context {W : Type} (lib : pylib) (registry : FunctionRegistry W).

Lemma run_tool_calls_shape (tcs : list tool_call) :
  forall (current current' : list pyval) (s s' : state W),
    run_tool_calls lib registry tcs current s = (Ret current', s') ->
    exists results,
      List.length results = List.length tcs /\
      current' = current ++ List.map (fun p => tool_message (fst p) (snd p))
                                     (List.combine tcs results).
Proof.
  induction tcs as [|tc tcs IH]; intros current current' s s'.
  - cbn. unfold ret. intros [= <- <-]. exists []. split; [reflexivity|].
    cbn. rewrite List.app_nil_r. reflexivity.
  - rewrite run_tool_calls_step.
    destruct (loads_or_empty lib (or_str (tc_arguments tc) (str "{}")))
      as [args|e0]; [|discriminate].
    match goal with |- context [execute registry ?n ?a s] =>
      destruct (execute registry n a s) as [[result|e] s1] end; [|discriminate].
    intros Hrun. destruct (IH _ _ _ _ Hrun) as (results & Hlen & ->).
    exists (result :: results). split; [cbn; lia|].
    cbn [List.combine List.map fst snd]. rewrite <- List.app_assoc. reflexivity.
Qed.

Lemma run_tool_calls_messages (tcs : list tool_call) :
  forall (current current' : list pyval) (s s' : state W),
    run_tool_calls lib registry tcs current s = (Ret current', s') ->
    exists appended,
      current' = current ++ appended /\
      List.length appended = List.length tcs /\
      forall i tc,
        tcs !! i = Some tc ->
        exists m text args s1 s2,
          appended !! i = Some m /\
          message_field m "role" = PStr (str "tool") /\
          message_field m "tool_call_id" = PStr (tc_id tc) /\
          message_field m "content" = PStr text /\
          loads_or_empty lib (or_str (tc_arguments tc) (str "{}")) = Ret args /\
          execute registry (tc_name tc) args s1 = (Ret text, s2).
Proof.
  induction tcs as [|tc tcs IH]; intros current current' s s'.
  - cbn. unfold ret. intros [= <- <-]. exists []. split_and!.
    + rewrite List.app_nil_r. reflexivity.
    + reflexivity.
    + intros i tc Hi. discriminate.
  - rewrite run_tool_calls_step.
    destruct (loads_or_empty lib (or_str (tc_arguments tc) (str "{}")))
      as [args|e0] eqn:Hargs; [|discriminate].
    destruct (execute registry (tc_name tc) args s) as [[result|e] s1] eqn:Hexec;
      [|discriminate].
    intros Hrun. destruct (IH _ _ _ _ Hrun) as (appended & -> & Hlen & Hall).
    exists (tool_message tc result :: appended). split_and!.
    + rewrite <- List.app_assoc. reflexivity.
    + cbn. rewrite Hlen. reflexivity.
    + intros [|i] tc' Hi.
      * injection Hi as <-.
        exists (tool_message tc result), result, args, s, s1.
        split_and!; try reflexivity; assumption.
      * exact (Hall i tc' Hi).
Qed.


(** X8. The inner loop appends one message for each tool call, in the order
    of the calls: message [i] has the role ["tool"], its ["tool_call_id"] is
    the id of call [i], and its content is the text that [execute] returned
    for the name and the parsed arguments of call [i]. *)
Theorem run_tool_calls_pairs (tcs : list tool_call) :
  forall (current current' : list pyval) (s s' : state W),
    run_tool_calls lib registry tcs current s = (Ret current', s') ->
    exists appended,
      current' = current ++ appended /\
      List.length appended = List.length tcs /\
      forall i tc,
        tcs !! i = Some tc ->
        exists m text args s1 s2,
          appended !! i = Some m /\
          message_field m "role" = PStr (str "tool") /\
          message_field m "tool_call_id" = PStr (tc_id tc) /\
          message_field m "content" = PStr text /\
          loads_or_empty lib (or_str (tc_arguments tc) (str "{}")) = Ret args /\
          execute registry (tc_name tc) args s1 = (Ret text, s2).
Proof. exact (run_tool_calls_messages tcs). Qed.

End tool_call_facts.

(** Two calls with the ids ["call_1"] and ["call_2"], the second to a tool
    that is not registered: two tool messages, in order, with the ids of the
    calls and the results of the tools. *)
Lemma run_tool_calls_pairs_witness :
  exists appended,
    [PDict [(str "role", PStr (str "tool"));
            (str "tool_call_id", PStr (str "call_1"));
            (str "content", PStr (str "no results"))];
     PDict [(str "role", PStr (str "tool"));
            (str "tool_call_id", PStr (str "call_2"));
            (str "content",
             PStr (str "{" ++ [QUOTE] ++ str "error" ++ [QUOTE] ++ str ": "
                     ++ [QUOTE] ++ str "Unknown tool: nope" ++ [QUOTE] ++ str "}"))]]
      = [] ++ appended /\
    List.length appended = 2%nat /\
    forall i tc,
      [search_call; unknown_call] !! i = Some tc ->
      exists m text args s1 s2,
        appended !! i = Some m /\
        message_field m "role" = PStr (str "tool") /\
        message_field m "tool_call_id" = PStr (tc_id tc) /\
        message_field m "content" = PStr text /\
        loads_or_empty posix_lib (or_str (tc_arguments tc) (str "{}")) = Ret args /\
        execute example_registry (tc_name tc) args s1 = (Ret text, s2).
Proof.
  exact (run_tool_calls_pairs posix_lib example_registry
           [search_call; unknown_call] [] _ start_state _
           ltac:(vm_compute; reflexivity)).
Defined.

Section more_loop_facts.
Context {W : Type} (lib : pylib) (svc : services W) (registry : FunctionRegistry W).

Lemma run_tool_calls_appended (tcs : list tool_call) current current' (s s' : state W) :
  run_tool_calls lib registry tcs current s = (Ret current', s') ->
  exists suffix, current' = current ++ suffix /\
                 List.Forall appended_by_loop suffix.
Proof.
  intros Hrun. destruct (run_tool_calls_shape lib registry tcs _ _ _ _ Hrun) as (results & _ & ->).
  eexists. split; [reflexivity|].
  apply List.Forall_forall. intros m Hin.
  apply List.in_map_iff in Hin as (p & <- & _). right. reflexivity.
Qed.

Lemma rounds_appends (n : nat) : forall current (s s' : state W) r,
  rounds lib svc registry n current s = (Ret r, s') ->
  exists suffix, messages r = current ++ suffix /\
                 List.Forall appended_by_loop suffix.
Proof.
  induction n as [|n IH]; intros current s s' r.
  - cbn [rounds]. unfold bind, lift, ret.
    destruct (last_content current); [|discriminate].
    intros [= <- <-]. exists []. cbn. rewrite List.app_nil_r.
    split; [reflexivity|constructor].
  - cbn [rounds]. unfold bind at 1. unfold call.
    destruct (llm_chat svc current (_tools registry) (world s)) as [[resp|e] w1];
      [|discriminate].
    assert (Ha : forall c t, appended_by_loop (assistant_message c t))
      by (intros c t; left; reflexivity).
    destruct (resp_tool_calls resp) as [[|tc tcs]|] eqn:Et.
    + unfold ret. intros [= <- <-]. eexists. split; [reflexivity|].
      constructor; [apply Ha|constructor].
    + unfold bind.
      match goal with |- context [run_tool_calls lib registry ?l ?c ?s1] =>
        destruct (run_tool_calls lib registry l c s1) as [[current2|e] s2] eqn:Er end;
        [|discriminate].
      intros Hrounds.
      destruct (run_tool_calls_appended _ _ _ _ _ Er) as (suffix1 & -> & H1).
      destruct (IH _ _ _ _ Hrounds) as (suffix2 & -> & H2).
      exists ([assistant_message (or_str (resp_content resp) []) (Some (tc :: tcs))]
              ++ suffix1 ++ suffix2).
      split; [rewrite <- !List.app_assoc; reflexivity|].
      apply List.Forall_app. split; [constructor; [apply Ha|constructor]|].
      apply List.Forall_app. split; assumption.
    + unfold ret. intros [= <- <-]. eexists. split; [reflexivity|].
      constructor; [apply Ha|constructor].
Qed.
Lemma rounds_first_appends (n : nat) current (s s' : state W) r :
  rounds lib svc registry (S n) current s = (Ret r, s') ->
  exists content tool_calls suffix,
    messages r = current ++ [assistant_message content tool_calls] ++ suffix.
Proof.
  cbn [rounds]. unfold bind at 1. unfold call.
  destruct (llm_chat svc current (_tools registry) (world s)) as [[resp|e] w1];
    [|discriminate].
  destruct (resp_tool_calls resp) as [[|tc tcs]|] eqn:Et.
  - unfold ret. intros [= <- <-]. eexists _, _, []. reflexivity.
  - unfold bind.
    match goal with |- context [run_tool_calls lib registry ?l ?c ?s1] =>
      destruct (run_tool_calls lib registry l c s1) as [[current2|e] s2] eqn:Er end;
      [|discriminate].
    intros Hrounds.
    destruct (run_tool_calls_appended _ _ _ _ _ Er) as (suffix1 & -> & _).
    destruct (rounds_appends _ _ _ _ _ Hrounds) as (suffix2 & -> & _).
    eexists _, _, (suffix1 ++ suffix2). rewrite <- !List.app_assoc. reflexivity.
  - unfold ret. intros [= <- <-]. eexists _, _, []. reflexivity.
Qed.
End more_loop_facts.

(** X9. The message sequence of [process] is append-only: when [process]
    returns, the sequence is the system message, the history as it was
    given, the user message, and behind them only assistant and tool
    messages. *)
Theorem process_appends_only {W : Type} (lib : pylib) (svc : services W)
    (registry : FunctionRegistry W) (user_message : pystr)
    (history : option (list pyval)) (image : option pystr)
    (s s' : state W) (r : process_result) :
  process_full lib svc registry user_message history image s = (Ret r, s') ->
  exists suffix,
    messages r
      = [system_message]
          ++ match history with Some h => h | None => [] end
          ++ [user_message_dict user_message image] ++ suffix /\
    suffix <> [] /\
    List.Forall appended_by_loop suffix.
Proof.
  intros Hrun. unfold process_full in Hrun.
  remember (initial_messages user_message history image) as init eqn:Einit.
  destruct (rounds_appends lib svc registry _ _ _ _ _ Hrun) as (suffix & E & Hs).
  exists suffix. split_and!; [|intros ->|exact Hs].
  - rewrite E, Einit. unfold initial_messages.
    rewrite <- !List.app_assoc. reflexivity.
  - unfold max_rounds in Hrun.
    destruct (rounds_first_appends lib svc registry _ _ _ _ _ Hrun)
      as (c & t & suffix' & E').
    rewrite E' in E. apply List.app_inv_head in E. discriminate E.
Qed.

(** With a two-message history and a model that answers at once, the
    sequence is system, the two history messages, user, assistant. *)
Lemma process_appends_only_witness :
  exists suffix,
    messages
      {| answer := PStr (str "4");
         messages :=
           [system_message; user_message_dict (str "h1") None; assistant_message (str "h2") None;
            user_message_dict (str "2+2?") None;
            assistant_message (str "4") None];
         exhausted := false |}
      = [system_message] ++ [user_message_dict (str "h1") None; assistant_message (str "h2") None]
          ++ [user_message_dict (str "2+2?") None] ++ suffix /\
    suffix <> [] /\ List.Forall appended_by_loop suffix.
Proof.
  exact (process_appends_only posix_lib
           (fixed_services (plain_reply (str "4")) (Ret []) 0 [])
           example_registry (str "2+2?")
           (Some [user_message_dict (str "h1") None; assistant_message (str "h2") None]) None start_state
           _ _ ltac:(vm_compute; reflexivity)).
Defined.

(** * Facts about chat_with_tools *)

Section chat_with_tools_facts.
Context {W : Type} (lib : pylib) (svc : services W).

Lemma append_placeholders_shape (tcs : list tool_call) : forall current current',
  append_placeholders lib tcs current = Ret current' ->
  current' = current ++ List.map placeholder_message tcs.
Proof.
  induction tcs as [|tc tcs IH]; intros current current'; cbn [append_placeholders].
  - intros [= <-]. cbn. rewrite List.app_nil_r. reflexivity.
  - destruct (loads_or_empty lib (or_str (tc_arguments tc) (str "{}")));
      [|discriminate].
    intros H. rewrite (IH _ _ H). cbn [List.map].
    rewrite <- List.app_assoc. reflexivity.
Qed.


(** One round of [chat_with_tools]. *)
Lemma chat_with_tools_rounds_step (n : nat) tools current (s : state W) :
  chat_with_tools_rounds lib svc (S n) tools current s
    = let s1 w := {| world := w; trace := trace s ++ [EvChat current tools] |} in
      match llm_chat svc current tools (world s) with
      | (Raise e, w1) => (Raise e, s1 w1)
      | (Ret resp, w1) =>
          let content := or_str (resp_content resp) [] in
          let current1 :=
            current ++ [raw_assistant_message content (resp_tool_calls resp)] in
          match resp_tool_calls resp with
          | None | Some [] => (Ret (PStr content, current1), s1 w1)
          | Some tcs =>
              match append_placeholders lib tcs current1 with
              | Raise e => (Raise e, s1 w1)
              | Ret current2 =>
                  chat_with_tools_rounds lib svc n tools current2 (s1 w1)
              end
          end
      end.
Proof.
  cbn [chat_with_tools_rounds]. unfold bind at 1. unfold call. cbn zeta.
  destruct (llm_chat svc current tools (world s)) as [[resp|e] w1]; [|reflexivity].
  destruct (resp_tool_calls resp) as [[|tc tcs]|]; reflexivity.
Qed.

Lemma chat_with_tools_rounds_shape (n : nat) : forall tools current (s : state W),
  exists new,
    trace (snd (chat_with_tools_rounds lib svc n tools current s)) = trace s ++ new /\
    (List.length new <= n)%nat /\
    List.Forall (fun ev => is_chat ev = true) new /\
    forall a msgs,
      fst (chat_with_tools_rounds lib svc n tools current s) = Ret (a, msgs) ->
      exists suffix, msgs = current ++ suffix /\
                     List.Forall appended_by_loop suffix.
Proof.
  induction n as [|n IH]; intros tools current s.
  - exists []. cbn [chat_with_tools_rounds]. unfold bind, lift, ret.
    destruct (last_content_unguarded current) as [a|e]; cbn [fst snd];
      rewrite List.app_nil_r; (split_and!; [reflexivity|cbn; lia|constructor|]).
    + intros a' msgs [= _ <-]. exists []. rewrite List.app_nil_r.
      split; [reflexivity|constructor].
    + discriminate.
  - rewrite chat_with_tools_rounds_step. cbn zeta.
    destruct (llm_chat svc current tools (world s)) as [[resp|e] w1].
    2:{ exists [EvChat current tools]. cbn [fst snd trace].
        split_and!; [reflexivity|cbn; lia|repeat constructor|discriminate]. }
    set (s1 := {| world := w1; trace := trace s ++ [EvChat current tools] |}).
    assert (Ha : forall c t, appended_by_loop (raw_assistant_message c t))
      by (intros c t; left; reflexivity).
    destruct (resp_tool_calls resp) as [[|tc tcs]|] eqn:Et.
    + exists [EvChat current tools]. cbn [fst snd trace].
      split_and!; [reflexivity|cbn; lia|repeat constructor|].
      intros a msgs [= _ <-]. eexists. split; [reflexivity|].
      constructor; [apply Ha|constructor].
    + destruct (append_placeholders lib (tc :: tcs) _) as [current2|e] eqn:Eap.
      2:{ exists [EvChat current tools]. cbn [fst snd trace].
          split_and!; [reflexivity|cbn; lia|repeat constructor|discriminate]. }
      apply append_placeholders_shape in Eap. subst current2.
      match goal with |- context [chat_with_tools_rounds lib svc n tools ?c s1] =>
        destruct (IH tools c s1) as (new & Ht & Hlen & Hchat & Hmsgs) end.
      exists (EvChat current tools :: new).
      split_and!.
      * rewrite Ht. subst s1. cbn [trace]. rewrite <- List.app_assoc. reflexivity.
      * cbn. lia.
      * constructor; [reflexivity|exact Hchat].
      * intros a msgs Hret. destruct (Hmsgs a msgs Hret) as (suffix & -> & Hs).
        eexists. split; [rewrite <- !List.app_assoc; reflexivity|].
        apply List.Forall_app. split; [constructor; [apply Ha|constructor]|].
        apply List.Forall_app. split; [|exact Hs].
        apply List.Forall_forall. intros m Hin.
        apply List.in_map_iff in Hin as (x & <- & _). right. reflexivity.
    + exists [EvChat current tools]. cbn [fst snd trace].
      split_and!; [reflexivity|cbn; lia|repeat constructor|].
      intros a msgs [= _ <-]. eexists. split; [reflexivity|].
      constructor; [apply Ha|constructor].
Qed.

End chat_with_tools_facts.

(** X10. [chat_with_tools] runs no tool and touches no other collaborator: it
    calls the language model at most [max_rounds] times and nothing else,
    and it hands back the messages it was given followed by assistant and
    tool messages only. *)
Theorem chat_with_tools_only_chats {W : Type} (lib : pylib) (svc : services W)
    (messages tools : list pyval) (max_rounds : nat) (s : state W) :
  exists new,
    trace (snd (chat_with_tools lib svc messages tools max_rounds s)) = trace s ++ new /\
    (List.length new <= max_rounds)%nat /\
    List.Forall (fun ev => is_chat ev = true) new /\
    forall a msgs,
      fst (chat_with_tools lib svc messages tools max_rounds s) = Ret (a, msgs) ->
      exists suffix, msgs = messages ++ suffix /\
                     List.Forall appended_by_loop suffix.
Proof. apply chat_with_tools_rounds_shape. Qed.



(** * More facts about retrieval *)

Lemma hits_rows (docs : list pyval) : forall metas ids,
  List.length metas = List.length docs -> List.length ids = List.length docs ->
  List.length (hits docs metas ids) = List.length docs /\
  List.map (fun h => match h with
                     | PDict d => dict_get d (str "content") PNone
                     | _ => PNone
                     end) (hits docs metas ids) = docs /\
  List.map (fun h => match h with
                     | PDict d => dict_get d (str "id") PNone
                     | _ => PNone
                     end) (hits docs metas ids) = ids.
Proof.
  induction docs as [|doc docs IH]; intros [|meta metas] [|id_ ids] Hm Hi;
    try discriminate; [split_and!; reflexivity|].
  injection Hm as Hm. injection Hi as Hi.
  destruct (IH metas ids Hm Hi) as (IH1 & IH2 & IH3).
  cbn [hits List.length List.map]. rewrite IH1.
  split_and!; [reflexivity|f_equal; exact IH2|f_equal; exact IH3].
Qed.

Lemma or_filled_length (xs : list pyval) (filler : pyval) (n : nat) :
  xs = [] \/ List.length xs = n -> List.length (or_filled xs filler n) = n.
Proof.
  intros [-> | H]; [apply List.repeat_length|].
  destruct xs; [cbn in H; subst n; reflexivity|exact H].
Qed.

Section more_retrieval_facts.
Context {W : Type} (svc : services W).

Lemma search_nonempty_index query top_k (s : state W) n w1 :
  collection_count svc (world s) = (Ret n, w1) -> n <> 0%Z ->
  search svc query top_k s
    = bind (embed svc [query])
        (fun embeddings =>
           bind (call (EvQuery embeddings top_k)
                      (collection_query svc embeddings top_k))
             (fun results =>
                bind (lift (first_row (qr_documents results)))
                  (fun docs =>
                     bind (lift (first_row (qr_metadatas results)))
                       (fun metadatas =>
                          bind (lift (first_row (qr_ids results)))
                            (fun ids =>
                               ret (hits docs
                                      (or_filled metadatas (PDict []) (List.length docs))
                                      (or_filled ids (PStr []) (List.length docs))))))))
        {| world := w1; trace := trace s ++ [EvCount] |}.
Proof.
  intros Hcount Hn. unfold search. unfold bind at 1. unfold call at 1.
  rewrite Hcount. apply Z.eqb_neq in Hn. rewrite Hn. reflexivity.
Qed.
End more_retrieval_facts.

(** X12. When the index is not empty and the embedding of the query fails,
    [search] fails with the same exception after the count and the embedding
    call, and does not query the collection. *)
Theorem search_embedding_failure {W : Type} (svc : services W)
    (query : pystr) (top_k : Z) (s : state W) (n : Z) (w1 w2 : W) (e : exn) :
  collection_count svc (world s) = (Ret n, w1) -> n <> 0%Z ->
  embeddings_create svc DEFAULT_EMBEDDING_MODEL [query] w1 = (Raise e, w2) ->
  search svc query top_k s
    = (Raise e,
       {| world := w2;
          trace := trace s ++ [EvCount; EvEmbed DEFAULT_EMBEDDING_MODEL [query]] |}).
Proof.
  intros Hcount Hn Hemb.
  rewrite (search_nonempty_index svc query top_k s n w1 Hcount Hn).
  unfold bind at 1.
  rewrite (embed_raises svc [query] {| world := w1; trace := trace s ++ [EvCount] |}
             e w2 ltac:(discriminate) Hemb).
  cbn [trace]. rewrite <- List.app_assoc. reflexivity.
Qed.

Lemma search_embedding_failure_witness :
  search (fixed_services tool_reply (Raise rate_limited) 3 []) (str "tax") 5 start_state
    = (Raise rate_limited,
       {| world := tt;
          trace := [] ++ [EvCount; EvEmbed DEFAULT_EMBEDDING_MODEL [str "tax"]] |}).
Proof.
  exact (search_embedding_failure
           (fixed_services tool_reply (Raise rate_limited) 3 []) (str "tax") 5
           start_state 3 tt tt rate_limited
           ltac:(reflexivity) ltac:(discriminate) ltac:(reflexivity)).
Defined.

(** X13. When the collection answers with a row of documents, and rows of
    metadatas and ids that are as long or empty, [search] returns one hit per
    document, in the order of the collection, whatever [top_k] asked for: the
    contents of the hits are the documents, and the ids are the ids of the
    row (empty strings for an empty row). *)
Theorem search_returns_the_row {W : Type} (svc : services W)
    (query : pystr) (top_k : Z) (s : state W) (n : Z) (w1 w2 w3 : W)
    (vectors docs metas ids : list pyval) (more_docs more_metas more_ids : list (list pyval)) :
  collection_count svc (world s) = (Ret n, w1) -> n <> 0%Z ->
  embeddings_create svc DEFAULT_EMBEDDING_MODEL [query] w1 = (Ret vectors, w2) ->
  collection_query svc vectors top_k w2
    = (Ret {| qr_ids := Some (ids :: more_ids);
              qr_documents := Some (docs :: more_docs);
              qr_metadatas := Some (metas :: more_metas) |}, w3) ->
  metas = [] \/ List.length metas = List.length docs ->
  ids = [] \/ List.length ids = List.length docs ->
  exists found,
    search svc query top_k s
      = (Ret found,
         {| world := w3;
            trace := trace s ++ [EvCount; EvEmbed DEFAULT_EMBEDDING_MODEL [query];
                                 EvQuery vectors top_k] |}) /\
    List.length found = List.length docs /\
    List.map (fun h => match h with
                       | PDict d => dict_get d (str "content") PNone
                       | _ => PNone
                       end) found = docs /\
    List.map (fun h => match h with
                       | PDict d => dict_get d (str "id") PNone
                       | _ => PNone
                       end) found
      = or_filled ids (PStr []) (List.length docs).
Proof.
  intros Hcount Hn Hemb Hquery Hm Hi.
  rewrite (search_nonempty_index svc query top_k s n w1 Hcount Hn).
  unfold bind at 1.
  rewrite (embed_returns svc [query] {| world := w1; trace := trace s ++ [EvCount] |}
             vectors w2 ltac:(discriminate) Hemb).
  unfold bind at 1. unfold call. cbn [world trace]. rewrite Hquery.
  unfold bind, lift, ret. cbn [qr_documents qr_metadatas qr_ids first_row].
  eexists. split; [rewrite <- !List.app_assoc; reflexivity|].
  apply hits_rows; apply or_filled_length; assumption.
Qed.

(** One stored chunk and [top_k = 5]: the single chunk is returned. *)
Lemma search_returns_the_row_witness :
  exists found,
    search (one_chunk_services (PStr (str "the chunk"))) (str "tax") 5 start_state
      = (Ret found,
         {| world := tt;
            trace := [] ++ [EvCount; EvEmbed DEFAULT_EMBEDDING_MODEL [str "tax"];
                            EvQuery [PList []] 5] |}) /\
    List.length found = 1%nat /\
    List.map (fun h => match h with
                       | PDict d => dict_get d (str "content") PNone
                       | _ => PNone
                       end) found = [PStr (str "the chunk")] /\
    List.map (fun h => match h with
                       | PDict d => dict_get d (str "id") PNone
                       | _ => PNone
                       end) found
      = or_filled [PStr (str "a_0")] (PStr []) 1.
Proof.
  exact (search_returns_the_row (one_chunk_services (PStr (str "the chunk")))
           (str "tax") 5 start_state 1 tt tt tt [PList []]
           [PStr (str "the chunk")] [] [PStr (str "a_0")] [] [] []
           ltac:(reflexivity) ltac:(discriminate) ltac:(reflexivity)
           ltac:(reflexivity) ltac:(left; reflexivity) ltac:(right; reflexivity)).
Defined.

(** X14. On an empty index [search_json] returns the text [{"results": []}]
    after the count call alone. *)
Theorem search_json_empty_index {W : Type} (svc : services W)
    (query : pystr) (top_k : Z) (s : state W) (w' : W) :
  collection_count svc (world s) = (Ret 0%Z, w') ->
  search_json svc query top_k s
    = (Ret (str "{" ++ [QUOTE] ++ str "results" ++ [QUOTE] ++ str ": []}"),
       {| world := w'; trace := trace s ++ [EvCount] |}).
Proof.
  intros Hcount. unfold search_json, search, bind, call.
  rewrite Hcount. reflexivity.
Qed.

Lemma search_json_empty_index_witness :
  search_json (fixed_services tool_reply (Raise rate_limited) 0 []) (str "tax") 5
              start_state
    = (Ret (str "{" ++ [QUOTE] ++ str "results" ++ [QUOTE] ++ str ": []}"),
       {| world := tt; trace := [] ++ [EvCount] |}).
Proof.
  exact (search_json_empty_index (fixed_services tool_reply (Raise rate_limited) 0 [])
           (str "tax") 5 start_state tt ltac:(reflexivity)).
Defined.

(** * More facts about ingestion *)

Lemma drained_metas (source : pystr) (chunks : list pystr) :
  List.map snd
    (List.map (fun ic : nat * pystr => (snd ic, chunk_meta source (fst ic)))
              (List.combine (seq 0 (List.length chunks)) chunks))
    = List.map (chunk_meta source) (seq 0 (List.length chunks)).
Proof.
  rewrite List.map_map. cbn [snd].
  generalize 0%nat. induction chunks as [|c chunks IH]; intros k; [reflexivity|].
  cbn. f_equal. apply IH.
Qed.

Lemma str_injective (a b : string) : str a = str b -> a = b.
Proof.
  unfold str. intros H.
  rewrite <- (string_of_list_ascii_of_string a), <- (string_of_list_ascii_of_string b).
  f_equal. revert H.
  generalize (list_ascii_of_string a) (list_ascii_of_string b).
  induction l as [|x l IH]; intros [|y l']; cbn; try discriminate; [reflexivity|].
  intros [= Hxy Hl]. f_equal; [|exact (IH _ Hl)].
  rewrite <- (ascii_N_embedding x), <- (ascii_N_embedding y), Hxy. reflexivity.
Qed.

Lemma py_str_int_injective (i j : nat) :
  py_str_int (Z.of_nat i) = py_str_int (Z.of_nat j) -> i = j.
Proof.
  unfold py_str_int. intros H. apply str_injective in H.
  assert (Hd : forall n : nat,
             Z.to_int (Z.of_nat n) <> Decimal.Pos Decimal.Nil /\
             Z.to_int (Z.of_nat n) <> Decimal.Neg Decimal.Nil).
  { intros n. destruct (Z.of_nat n) as [|p|p]; cbn; split; try discriminate;
      intros [= Hp]; exact (Stdlib.Numbers.DecimalPos.Unsigned.to_uint_nonnil p Hp). }
  assert (E : Some (Z.to_int (Z.of_nat i)) = Some (Z.to_int (Z.of_nat j))).
  { rewrite <- (NilZero.isi _ (proj1 (Hd i)) (proj2 (Hd i))),
            <- (NilZero.isi _ (proj1 (Hd j)) (proj2 (Hd j))), H. reflexivity. }
  injection E as E. apply Stdlib.Numbers.DecimalZ.to_int_inj in E. lia.
Qed.

Lemma NoDup_map_injective {A B : Type} (f : A -> B) (l : list A) :
  (forall x y, f x = f y -> x = y) -> List.NoDup l -> List.NoDup (List.map f l).
Proof.
  intros Hf. induction 1 as [|x l Hx Hl IH]; cbn; constructor; [|exact IH].
  intros Hin. apply List.in_map_iff in Hin as (y & E & Hy).
  apply Hf in E. subst y. exact (Hx Hy).
Qed.

Lemma chunk_ids_lengths (base_id : pystr) (n : nat) :
  True /\ List.length (chunk_ids base_id n) = n.
Proof.
  split; [exact I|]. unfold chunk_ids.
  rewrite List.length_map, List.length_seq. reflexivity.
Qed.

(** X15. The chunk ids of one document are pairwise distinct, one per chunk. *)
Theorem chunk_ids_distinct (base_id : pystr) (n : nat) :
  List.NoDup (chunk_ids base_id n) /\ List.length (chunk_ids base_id n) = n.
Proof.
  unfold chunk_ids. split.
  - apply NoDup_map_injective; [|apply List.seq_NoDup].
    intros i j H. unfold chunk_id in H.
    apply List.app_inv_head in H. injection H as H.
    exact (py_str_int_injective i j H).
  - rewrite List.length_map, List.length_seq. reflexivity.
Qed.

(** X16. A file that does not exist is reported with the dict
    [{"success": False, "error": "File not found: <path>"}] after the one
    call that looks for it: nothing is built, extracted, embedded or
    added. *)
Theorem ingest_missing_file {W : Type} (lib : pylib) (svc : services W)
    (fuel : nat) (path : pystr) (doc_id original_name : option pystr)
    (s : state W) (w1 : W) :
  path_exists svc path (world s) = (Ret false, w1) ->
  ingest_document lib svc fuel path doc_id original_name s
    = (Ret (Some (PDict [(str "success", PBool false);
                         (str "error", PStr (str "File not found: " ++ path))])),
       {| world := w1; trace := trace s ++ [EvExists path] |}).
Proof.
  intros Hex. unfold ingest_document.
  rewrite (bind_call_ret (EvExists path) (path_exists svc path) _ s false w1 Hex).
  reflexivity.
Qed.

Lemma ingest_missing_file_witness :
  ingest_document posix_lib absent_file_services 0 (str "/docs/a.txt") None None
                  start_state
    = (Ret (Some (PDict [(str "success", PBool false);
                         (str "error", PStr (str "File not found: /docs/a.txt"))])),
       {| world := tt; trace := [] ++ [EvExists (str "/docs/a.txt")] |}).
Proof.
  exact (ingest_missing_file posix_lib absent_file_services 0 (str "/docs/a.txt")
           None None start_state tt ltac:(reflexivity)).
Defined.

(** X17. When the store and the embedding service are built and the text
    extracted from the file is empty or whitespace only, [ingest_document]
    returns the dict [{"success": False, "error": "No text extracted from
    document"}]: no embedding is requested, nothing is added to the
    collection, and the chunker's loop is not entered. *)
Theorem ingest_blank_document {W : Type} (lib : pylib) (svc : services W)
    (fuel : nat) (path : pystr) (doc_id original_name : option pystr)
    (s : state W) (w1 w2 w3 w4 : W) (text : pystr) :
  path_exists svc path (world s) = (Ret true, w1) ->
  VectorStore svc w1 = (Ret tt, w2) ->
  EmbeddingService svc w2 = (Ret tt, w3) ->
  extract_text_from_file svc path w3 = (Ret text, w4) ->
  forallb py_isspace text = true ->
  ingest_document lib svc fuel path doc_id original_name s
    = (Ret (Some (PDict [(str "success", PBool false);
                         (str "error", PStr (str "No text extracted from document"))])),
       {| world := w4;
          trace := trace s ++ [EvExists path; EvVectorStore; EvEmbeddingService;
                               EvExtract path] |}).
Proof.
  intros Hex Hvs Hes Hext Hblank.
  rewrite (ingest_upto_chunks lib svc fuel path doc_id original_name s w1 w2 w3
             Hex Hvs Hes).
  assert (Hc : _chunk_text fuel text CHUNK_SIZE CHUNK_OVERLAP = Some []).
  { unfold _chunk_text. rewrite (py_strip_blank text Hblank), orb_true_r.
    reflexivity. }
  unfold bind at 1.
  destruct (process_document_chunks lib svc fuel path
              {| world := w3;
                 trace := trace s ++ [EvExists path; EvVectorStore;
                                      EvEmbeddingService] |}
              text w4 [] Hext Hc) as (pairs & -> & Hpairs).
  cbn zeta. rewrite Hpairs. unfold ret. cbn [trace].
  rewrite <- List.app_assoc. reflexivity.
Qed.

Lemma ingest_blank_document_witness :
  ingest_document posix_lib
      (fixed_services tool_reply (Ret []) 0 (str "   " ++ [LF; LF]))
      0 (str "/docs/a.txt") None None start_state
    = (Ret (Some (PDict [(str "success", PBool false);
                         (str "error", PStr (str "No text extracted from document"))])),
       {| world := tt;
          trace := [] ++ [EvExists (str "/docs/a.txt"); EvVectorStore;
                          EvEmbeddingService; EvExtract (str "/docs/a.txt")] |}).
Proof.
  exact (ingest_blank_document posix_lib
           (fixed_services tool_reply (Ret []) 0 (str "   " ++ [LF; LF]))
           0 (str "/docs/a.txt") None None start_state tt tt tt tt
           (str "   " ++ [LF; LF])
           ltac:(reflexivity) ltac:(reflexivity) ltac:(reflexivity)
           ltac:(reflexivity) ltac:(reflexivity)).
Defined.

Lemma map_seq_lookup {A : Type} (f : nat -> A) (n : nat) : forall start i,
  (i < n)%nat -> List.map f (seq start n) !! i = Some (f (start + i)%nat).
Proof.
  induction n as [|n IH]; intros start i Hi; [lia|].
  destruct i as [|i]; cbn [seq List.map].
  - rewrite Nat.add_0_r. reflexivity.
  - change (List.map f (seq (S start) n) !! i = Some (f (start + S i)%nat)).
    rewrite (IH (S start) i ltac:(lia)).
    replace (S start + i)%nat with (start + S i)%nat by lia. reflexivity.
Qed.

(** X18. When the store and the embedding service are built and the chunks
    are embedded, [ingest_document] calls the collection's [add] once, with
    one id, one document and one metadata per chunk: id [i] is
    ["<base_id>_<i>"], the documents are the chunks, and metadata [i] holds
    the file name under ["source"] and [i] under ["chunk_index"]. It returns
    [{"success": True, "chunks": n, "source": <name>}] when [add] returns,
    and [{"success": False, "error": str(e)}] when [add] raises an error
    [e] that derives from [Exception]. *)
Theorem ingest_adds_once {W : Type} (lib : pylib) (svc : services W)
    (fuel : nat) (path : pystr) (doc_id original_name : option pystr)
    (s : state W) (w1 w2 w3 w4 w5 w6 : W) (text : pystr) (chunks : list pystr)
    (vectors : list pyval) (added : outcome unit) :
  let base_id := base_id_of lib path doc_id original_name in
  let ids := chunk_ids base_id (List.length chunks) in
  let metas := List.map (chunk_meta (path_name lib path))
                        (seq 0 (List.length chunks)) in
  path_exists svc path (world s) = (Ret true, w1) ->
  VectorStore svc w1 = (Ret tt, w2) ->
  EmbeddingService svc w2 = (Ret tt, w3) ->
  extract_text_from_file svc path w3 = (Ret text, w4) ->
  _chunk_text fuel text CHUNK_SIZE CHUNK_OVERLAP = Some chunks ->
  chunks <> [] ->
  embeddings_create svc DEFAULT_EMBEDDING_MODEL chunks w4 = (Ret vectors, w5) ->
  collection_add svc ids vectors chunks metas w5 = (added, w6) ->
  ingest_document lib svc fuel path doc_id original_name s
    = (match added with
       | Ret _ =>
           Ret (Some (PDict
             [(str "success", PBool true);
              (str "chunks", PInt (Z.of_nat (List.length chunks)));
              (str "source", PStr (or_str original_name (path_name lib path)))]))
       | Raise e =>
           if exn_is_Exception e
           then Ret (Some (PDict [(str "success", PBool false);
                                  (str "error", PStr (exn_str e))]))
           else Raise e
       end,
       {| world := w6;
          trace := trace s ++ [EvExists path; EvVectorStore; EvEmbeddingService;
                               EvExtract path;
                               EvEmbed DEFAULT_EMBEDDING_MODEL chunks;
                               EvAdd ids vectors chunks metas] |}) /\
  List.length ids = List.length chunks /\
  List.length metas = List.length chunks /\
  forall i,
    (i < List.length chunks)%nat ->
    ids !! i = Some (base_id ++ str "_" ++ py_str_int (Z.of_nat i)) /\
    exists m,
      metas !! i = Some m /\
      message_field m "source" = PStr (path_name lib path) /\
      message_field m "chunk_index" = PInt (Z.of_nat i).
Proof.
  intros base_id ids metas Hex Hvs Hes Hext Hchunks Hne Hemb Hadd. split_and!.
  - rewrite (ingest_upto_chunks lib svc fuel path doc_id original_name s w1 w2 w3
               Hex Hvs Hes).
    set (s1 := {| world := w3;
                  trace := trace s ++ [EvExists path; EvVectorStore;
                                       EvEmbeddingService] |}).
    assert (Hp : process_document lib svc fuel path s1
                 = (Ret (Some (List.map
                       (fun ic : nat * pystr =>
                          (snd ic, chunk_meta (path_name lib path) (fst ic)))
                       (List.combine (seq 0 (List.length chunks)) chunks))),
                    {| world := w4; trace := trace s1 ++ [EvExtract path] |})).
    { unfold process_document, bind, call. cbn [world]. subst s1. cbn [world].
      rewrite Hext. destruct text as [|c text].
      - rewrite chunk_text_of_empty in Hchunks. injection Hchunks as <-.
        congruence.
      - cbn [nonempty negb]. rewrite Hchunks. reflexivity. }
    unfold bind at 1. rewrite Hp. cbn zeta. rewrite drained_chunks, drained_metas.
    destruct chunks as [|c chunks]; [congruence|].
    set (s2 := {| world := w4; trace := trace s1 ++ [EvExtract path] |}).
    unfold bind at 1. unfold try_except at 1. unfold bind at 1.
    rewrite (embed_returns svc (c :: chunks) s2 vectors w5 ltac:(discriminate) Hemb).
    unfold ret at 1. unfold bind at 1. unfold try_except at 1. unfold bind at 1.
    unfold call. cbn [world trace]. fold base_id. fold ids. fold metas. rewrite Hadd.
    subst s2 s1. cbn [trace]. rewrite <- !List.app_assoc. cbn [List.app].
    destruct added as [u|e]; [reflexivity|].
    destruct (exn_is_Exception e); reflexivity.
  - subst ids. exact (proj2 (chunk_ids_lengths _ _)).
  - subst metas. rewrite List.length_map, List.length_seq. reflexivity.
  - intros i Hi. subst ids metas. unfold chunk_ids. split.
    + rewrite (map_seq_lookup _ _ 0 i Hi). reflexivity.
    + rewrite (map_seq_lookup _ _ 0 i Hi). eexists. split; [reflexivity|].
      split; reflexivity.
Qed.

(** A text of 1200 letters gives two chunks, of 800 and of 600 letters:
    one [add] with the ids ["notes_0"] and ["notes_1"]. *)
Lemma ingest_adds_once_witness :
  ingest_document posix_lib
      (fixed_services tool_reply (Ret [PList []; PList []]) 0 (List.repeat 97%N 1200))
      5 (str "/docs/a.txt") None (Some (str "notes.txt")) start_state
    = (Ret (Some (PDict [(str "success", PBool true);
                         (str "chunks", PInt 2);
                         (str "source", PStr (str "notes.txt"))])),
       {| world := tt;
          trace := [] ++ [EvExists (str "/docs/a.txt"); EvVectorStore;
                    EvEmbeddingService; EvExtract (str "/docs/a.txt");
                    EvEmbed DEFAULT_EMBEDDING_MODEL
                      [List.repeat 97%N 800; List.repeat 97%N 600];
                    EvAdd [str "notes_0"; str "notes_1"] [PList []; PList []]
                          [List.repeat 97%N 800; List.repeat 97%N 600]
                          [PDict [(str "source", PStr (str "a.txt"));
                                  (str "chunk_index", PInt 0)];
                           PDict [(str "source", PStr (str "a.txt"));
                                  (str "chunk_index", PInt 1)]]] |}).
Proof.
  exact (proj1 (ingest_adds_once posix_lib
           (fixed_services tool_reply (Ret [PList []; PList []]) 0
              (List.repeat 97%N 1200))
           5 (str "/docs/a.txt") None (Some (str "notes.txt")) start_state
           tt tt tt tt tt tt (List.repeat 97%N 1200)
           [List.repeat 97%N 800; List.repeat 97%N 600]
           [PList []; PList []] (Ret tt)
           ltac:(reflexivity) ltac:(reflexivity) ltac:(reflexivity)
           ltac:(reflexivity) ltac:(vm_compute; reflexivity)
           ltac:(discriminate) ltac:(reflexivity) ltac:(reflexivity))).
Defined.

(** * Facts about the wiring of services.py *)

(** X19. Every tool that OPENAI_TOOLS declares to the model has a handler in the
    registry that [get_registry] builds, and no other name has one; the
    registry hands out OPENAI_TOOLS as its tool list; and every parameter a
    tool requires is one of its declared properties. *)
Theorem get_registry_covers_declared_tools {W : Type}
    (add_calendar_event create_apple_note compose_gmail _search_documents : handler W) :
  let reg := get_registry add_calendar_event create_apple_note compose_gmail
                          _search_documents in
  get_tools reg = OPENAI_TOOLS /\
  List.map tool_name OPENAI_TOOLS = List.map PStr declared_names /\
  (forall name, In name declared_names <-> is_Some (get_handler reg name)) /\
  (forall name args (s : state W),
     ~ In name declared_names ->
     execute reg name args s
       = (Ret (error_payload (str "Unknown tool: " ++ name)), s)) /\
  List.Forall
    (fun tool =>
       List.Forall
         (fun r => match r with
                   | PStr key => exists v, In (key, v) (fst (tool_parameters tool))
                   | _ => False
                   end)
         (snd (tool_parameters tool)))
    OPENAI_TOOLS.
Proof.
  cbn zeta.
  assert (Hlookup : forall name,
            In name declared_names <->
            is_Some (get_handler
                       (get_registry add_calendar_event create_apple_note
                          compose_gmail _search_documents) name)).
  { intros name. unfold get_handler, get_registry, register, new_registry.
    cbn [_handlers]. unfold handler.
    rewrite !lookup_insert_is_Some, lookup_empty.
    unfold declared_names. cbn [In].
    assert (Hnone : ~ is_Some (@None (pyval -> Py W pyval)))
      by (intros [x Hx]; discriminate).
    split.
    - intros [<- | [<- | [<- | [<- | []]]]].
      + right. split; [discriminate|]. right. split; [discriminate|].
        right. split; [discriminate|]. left. reflexivity.
      + right. split; [discriminate|]. right. split; [discriminate|].
        left. reflexivity.
      + right. split; [discriminate|]. left. reflexivity.
      + left. reflexivity.
    - intros [H | [_ [H | [_ [H | [_ [H | [_ H]]]]]]]]; auto 10.
      destruct H as [x Hx]. discriminate. }
  split_and!.
  - reflexivity.
  - reflexivity.
  - exact Hlookup.
  - intros name args s Hname. apply execute_unknown.
    apply eq_None_not_Some. intros Hsome. apply Hname, Hlookup.
    exact Hsome.
  - unfold OPENAI_TOOLS.
    repeat apply List.Forall_cons; try apply List.Forall_nil;
      cbv beta;
      match goal with
      | |- context [tool_parameters ?t] =>
          let p := eval vm_compute in (tool_parameters t) in
          change (tool_parameters t) with p
      end;
      cbv beta iota delta [fst snd];
      repeat apply List.Forall_cons; try apply List.Forall_nil;
      eexists; cbv beta iota delta [In]; eauto 10.
Qed.

(** * Facts about the answer of process and about the chat endpoint *)

Section answer_facts.
Context {W : Type} (lib : pylib) (svc : services W) (registry : FunctionRegistry W).

Lemma last_content_snoc (before : list pyval) (d : list (pystr * pyval)) :
  last_content (before ++ [PDict d]) = Ret (dict_get d (str "content") (PStr [])).
Proof.
  unfold last_content. rewrite List.map_app. cbn [List.map].
  rewrite List.last_last. reflexivity.
Qed.

Lemma run_tool_calls_last tc tcs current current' (s s' : state W) :
  run_tool_calls lib registry (tc :: tcs) current s = (Ret current', s') ->
  exists text, last_content current' = Ret (PStr text).
Proof.
  intros Hrun.
  destruct (run_tool_calls_shape lib registry _ _ _ _ _ Hrun) as (results & Hlen & ->).
  destruct results as [|r rs]; [discriminate|].
  cbn [List.combine List.map fst snd].
  assert (Hne : tool_message tc r
                  :: List.map (fun p => tool_message (fst p) (snd p))
                       (List.combine tcs rs) <> []) by discriminate.
  destruct (List.exists_last Hne) as (before & m & Hm).
  assert (Hin : In m (tool_message tc r
                        :: List.map (fun p => tool_message (fst p) (snd p))
                             (List.combine tcs rs))).
  { rewrite Hm. apply List.in_or_app. right. left. reflexivity. }
  rewrite Hm, List.app_assoc.
  destruct Hin as [<- | Hin].
  - unfold tool_message. rewrite last_content_snoc. eexists. reflexivity.
  - apply List.in_map_iff in Hin as (p & <- & _).
    unfold tool_message. rewrite last_content_snoc. eexists. reflexivity.
Qed.

Lemma rounds_answer (n : nat) : forall current (s s' : state W) r,
  match n with
  | O => exists text, last_content current = Ret (PStr text)
  | S _ => True
  end ->
  rounds lib svc registry n current s = (Ret r, s') ->
  exists text, answer r = PStr text /\ last_content (messages r) = Ret (PStr text).
Proof.
  induction n as [|n IH]; intros current s s' r.
  - intros [text Htext]. cbn [rounds]. unfold bind, lift, ret. rewrite Htext.
    intros [= <- <-]. exists text. split; [reflexivity|exact Htext].
  - intros _. cbn [rounds]. unfold bind at 1. unfold call.
    destruct (llm_chat svc current (_tools registry) (world s)) as [[resp|e] w1];
      [|discriminate].
    destruct (resp_tool_calls resp) as [[|tc tcs]|] eqn:Et.
    + unfold ret. intros [= <- <-]. eexists. split; [reflexivity|].
      cbn [messages]. unfold assistant_message. rewrite last_content_snoc.
      reflexivity.
    + unfold bind.
      match goal with |- context [run_tool_calls lib registry ?l ?c ?s1] =>
        destruct (run_tool_calls lib registry l c s1) as [[current2|e] s2] eqn:Er end;
        [|discriminate].
      intros Hrounds. apply (IH _ _ _ _) in Hrounds; [exact Hrounds|].
      destruct n; [|exact I].
      exact (run_tool_calls_last _ _ _ _ _ _ Er).
    + unfold ret. intros [= <- <-]. eexists. split; [reflexivity|].
      cbn [messages]. unfold assistant_message. rewrite last_content_snoc.
      reflexivity.
Qed.

Lemma process_returns_str user_message history image (s s' : state W) v :
  process lib svc registry user_message history image s = (Ret v, s') ->
  exists text, v = PStr text.
Proof.
  unfold process, bind, ret.
  destruct (process_full lib svc registry user_message history image s)
    as [[r|e] s1] eqn:Hfull; [|discriminate].
  intros [= <- <-].
  destruct (rounds_answer max_rounds _ _ _ _ I Hfull) as (text & Ha & _).
  exists text. exact Ha.
Qed.

End answer_facts.


Section chat_endpoint_facts.
Context {W : Type} (lib : pylib) (svc : services W) (registry : FunctionRegistry W).
Variable validation_text : pyval -> pystr.
Variable get_task_router : Py W unit.

Lemma nonempty_or_strip (s : pystr) :
  nonempty s || nonempty (py_strip s) = nonempty s.
Proof.
  destruct s as [|c s]; [|reflexivity].
  cbn [nonempty orb]. rewrite (py_strip_blank [] eq_refl). reflexivity.
Qed.

Lemma nonempty_false (s : pystr) : nonempty s = false <-> s = [].
Proof. destruct s; cbn; split; congruence. Qed.

(** What the guarded part of the endpoint does, from what the router does. *)
Lemma chat_guarded settings message history image (s : state W) :
  message <> [] -> openai_api_key settings <> [] ->
  match (_ <- get_task_router ;;
         process lib svc registry message history image)%py s with
  | (Ret v, s2) =>
      exists text,
        v = PStr text /\
        chat lib svc registry validation_text get_task_router
             settings message history image s = (Ret (Http200 text), s2)
  | (Raise e, s2) =>
      chat lib svc registry validation_text get_task_router
           settings message history image s
        = (if exn_is_Exception e
           then Ret (HttpError 500
                       (if is_development settings then exn_str e
                        else GENERIC_DETAIL))
           else Raise e, s2)
  end.
Proof.
  intros Hm Hk. unfold chat. rewrite !nonempty_or_strip.
  destruct (nonempty message) eqn:Em;
    [|apply nonempty_false in Em; contradiction].
  destruct (nonempty (openai_api_key settings)) eqn:Ek;
    [|apply nonempty_false in Ek; contradiction].
  cbn [negb]. unfold try_except, bind.
  destruct (get_task_router s) as [[[]|e] s1]; [|destruct (exn_is_Exception e); reflexivity].
  destruct (process lib svc registry message history image s1) as [[v|e] s2] eqn:Hp.
  - destruct (process_returns_str _ _ _ _ _ _ _ _ _ Hp) as [text ->].
    exists text. split; reflexivity.
  - unfold ret. destruct (exn_is_Exception e); reflexivity.
Qed.

(** X21. The endpoint answers 400 exactly for the empty string (a message of
    whitespace only is let through), and 503 exactly for a non-empty message
    when the configured API key is the empty string; in both cases nothing
    has been called. *)
Theorem chat_rejections settings message history image (s : state W) :
  let result := chat lib svc registry validation_text get_task_router
                     settings message history image s in
  ((exists detail, fst result = Ret (HttpError 400 detail)) <-> message = []) /\
  ((exists detail, fst result = Ret (HttpError 503 detail))
     <-> message <> [] /\ openai_api_key settings = []) /\
  (message = [] \/ openai_api_key settings = [] -> snd result = s).
Proof.
  cbn zeta.
  destruct message as [|c message].
  - unfold chat. rewrite nonempty_or_strip. cbn [nonempty negb]. unfold ret.
    cbn [fst snd]. split_and!.
    + split; [reflexivity|]. intros _. eexists. reflexivity.
    + split; [intros [detail [=]]|intros [[] _]; reflexivity].
    + reflexivity.
  - destruct (openai_api_key settings) as [|k key] eqn:Ek.
    + unfold chat. rewrite !nonempty_or_strip, Ek. cbn [nonempty negb].
      unfold ret. cbn [fst snd]. split_and!.
      * split; [intros [detail [=]]|discriminate].
      * split; [intros _; split; [discriminate|reflexivity]|].
        intros _. eexists. reflexivity.
      * reflexivity.
    + pose proof (chat_guarded settings (c :: message) history image s) as Hg.
      rewrite Ek in Hg. specialize (Hg ltac:(discriminate) ltac:(discriminate)).
      destruct ((_ <- get_task_router ;;
                 process lib svc registry (c :: message) history image)%py s)
        as [[v|e] s2].
      * destruct Hg as (text & _ & ->). cbn [fst snd]. split_and!.
        -- split; [intros [detail [=]]|discriminate].
        -- split; [intros [detail [=]]|intros [_ [=]]].
        -- intros [[=]|[=]].
      * rewrite Hg. cbn [fst snd]. split_and!.
        -- split; [|discriminate].
           intros [detail Hd]. destruct (exn_is_Exception e); discriminate.
        -- split; [|intros [_ [=]]].
           intros [detail Hd]. destruct (exn_is_Exception e); discriminate.
        -- intros [[=]|[=]].
Qed.

(** X22. Past its two guards the endpoint returns the text that [process]
    returned; an error derived from Exception, raised while the router is
    built or by [process], becomes status 500, whose detail is the text of
    the error in development and a fixed sentence otherwise; any other error
    leaves the endpoint. *)
Theorem chat_answers_or_500 settings message history image (s : state W) :
  message <> [] -> openai_api_key settings <> [] ->
  match (_ <- get_task_router ;;
         process lib svc registry message history image)%py s with
  | (Ret v, s2) =>
      exists text,
        v = PStr text /\
        chat lib svc registry validation_text get_task_router
             settings message history image s = (Ret (Http200 text), s2)
  | (Raise e, s2) =>
      chat lib svc registry validation_text get_task_router
           settings message history image s
        = (if exn_is_Exception e
           then Ret (HttpError 500
                       (if is_development settings then exn_str e
                        else GENERIC_DETAIL))
           else Raise e, s2)
  end.
Proof. exact (chat_guarded settings message history image s). Qed.
End chat_endpoint_facts.

(** In production, a rate-limit error of the model is answered with status
    500 and the fixed sentence. *)
Lemma chat_answers_or_500_witness :
  fst (chat posix_lib (failing_chat_services rate_limited) example_registry
            (fun _ => []) (ret tt)
            {| openai_api_key := str "sk-test"; is_development := false |}
            (str "hello") None None start_state)
    = Ret (HttpError 500 GENERIC_DETAIL).
Proof.
  pose proof (chat_answers_or_500 posix_lib (failing_chat_services rate_limited)
                example_registry (fun _ => []) (ret tt)
                {| openai_api_key := str "sk-test"; is_development := false |}
                (str "hello") None None start_state
                ltac:(discriminate) ltac:(discriminate)) as H.
  cbv beta iota zeta delta
    [bind ret process process_full rounds max_rounds call failing_chat_services
     llm_chat world start_state rate_limited exn_is_Exception is_development] in H.
  exact (f_equal fst H).
Defined.

(** * Facts about the image handler *)

Lemma starts_with_app (p s : pystr) : starts_with p (p ++ s) = true.
Proof.
  induction p as [|c p IH]; [reflexivity|].
  cbn. rewrite N.eqb_refl. exact IH.
Qed.

(** X23. [analyze_image] sends one request, without tools, whose image URL always
    begins with ["data:"]; once the service object is built it returns a
    text for every error derived from Exception (the text of the failure,
    after ["Image analysis failed: "]), while a failure to build the service
    object is not captured. *)
Theorem analyze_image_outcomes {W : Type} (svc : services W) (LLMService : Py W unit)
    (image_base64 prompt : pystr) (s : state W) :
  let messages := image_messages image_base64 prompt in
  (exists url,
     messages
       = [PDict [(str "role", PStr (str "user"));
                 (str "content",
                  PList [PDict [(str "type", PStr (str "text"));
                                (str "text", PStr prompt)];
                         PDict [(str "type", PStr (str "image_url"));
                                (str "image_url", PDict [(str "url", PStr url)])]])]]
     /\ starts_with (str "data:") url = true
     /\ (url = image_base64 \/ url = str "data:image/jpeg;base64," ++ image_base64)) /\
  match LLMService s with
  | (Raise e, s1) => analyze_image svc LLMService image_base64 prompt s = (Raise e, s1)
  | (Ret _, s1) =>
      let s2 w := {| world := w; trace := trace s1 ++ [EvChat messages []] |} in
      match llm_chat svc messages [] (world s1) with
      | (Ret out, w) =>
          analyze_image svc LLMService image_base64 prompt s
            = (Ret (or_str (resp_content out) []), s2 w)
      | (Raise e, w) =>
          analyze_image svc LLMService image_base64 prompt s
            = (if exn_is_Exception e
               then Ret (str "Image analysis failed: " ++ exn_str e)
               else Raise e, s2 w)
      end
  end.
Proof.
  cbn zeta. split.
  - unfold image_messages.
    destruct (starts_with (str "data:") image_base64) eqn:Ed; cbn [negb];
      eexists; (split; [reflexivity|split]).
    + exact Ed.
    + left. reflexivity.
    + reflexivity.
    + right. reflexivity.
  - unfold analyze_image, bind.
    destruct (LLMService s) as [[[]|e] s1]; [|reflexivity].
    unfold try_except, call, ret.
    destruct (llm_chat svc (image_messages image_base64 prompt) [] (world s1))
      as [[out|e] w]; [reflexivity|].
    destruct (exn_is_Exception e); reflexivity.
Qed.

(** * Facts about the news digest *)

Section news_facts.
Variable other_str : pyval -> pystr.

Lemma numbered_lines_length (items : list news_item) : forall first,
  List.length (numbered_lines other_str first items) = List.length items.
Proof. induction items as [|x items IH]; intros first; cbn; [|rewrite IH]; reflexivity. Qed.

Lemma numbered_lines_lookup (items : list news_item) : forall first i item,
  items !! i = Some item ->
  numbered_lines other_str first items !! i
    = Some (digest_line other_str (first + i) item).
Proof.
  induction items as [|x items IH]; intros first i item; [discriminate|].
  destruct i as [|i]; cbn [numbered_lines].
  - intros [= ->]. rewrite Nat.add_0_r. reflexivity.
  - intros Hi.
    change (numbered_lines other_str (S first) items !! i
              = Some (digest_line other_str (first + S i) item)).
    rewrite (IH (S first) i item Hi).
    replace (S first + i)%nat with (first + S i)%nat by lia. reflexivity.
Qed.

Lemma pad_lines_length (missing : nat) : forall lines,
  List.length (pad_lines missing lines) = (List.length lines + missing)%nat.
Proof.
  induction missing as [|n IH]; intros lines; cbn [pad_lines]; [lia|].
  rewrite IH, List.length_app. cbn. lia.
Qed.

Lemma pad_lines_keeps (missing : nat) : forall lines i (x : pystr),
  lines !! i = Some x -> pad_lines missing lines !! i = Some x.
Proof.
  induction missing as [|n IH]; intros lines i x Hx; cbn [pad_lines]; [exact Hx|].
  apply IH. apply lookup_app_l_Some. exact Hx.
Qed.

Lemma pad_lines_adds (missing : nat) : forall lines i,
  (List.length lines <= i < List.length lines + missing)%nat ->
  pad_lines missing lines !! i = Some (digest_placeholder (S i)).
Proof.
  induction missing as [|n IH]; intros lines i Hi; [lia|].
  cbn [pad_lines].
  destruct (decide (i = List.length lines)) as [->|Hne].
  - apply pad_lines_keeps. rewrite lookup_app_r by reflexivity.
    rewrite Nat.sub_diag, Nat.add_1_r. reflexivity.
  - apply IH. rewrite List.length_app. cbn. lia.
Qed.

Lemma list_upto_length {A : Type} (l : list A) (stop : Z) :
  (0 <= stop)%Z ->
  List.length (list_upto l stop) = Nat.min (Z.to_nat stop) (List.length l).
Proof.
  intros H. unfold list_upto, adjust_index.
  destruct (stop <? 0)%Z eqn:E; [lia|].
  rewrite List.length_firstn. lia.
Qed.

Lemma list_upto_lookup {A : Type} (l : list A) (stop : Z) (i : nat) :
  (0 <= stop)%Z -> (i < Z.to_nat stop)%nat -> list_upto l stop !! i = l !! i.
Proof.
  intros H Hi. unfold list_upto, adjust_index.
  destruct (stop <? 0)%Z eqn:E; [lia|].
  destruct (l !! i) as [x|] eqn:Hx.
  - apply lookup_take_Some. split; [exact Hx|].
    apply lookup_lt_Some in Hx. unfold lt in *. lia.
  - apply lookup_ge_None. apply lookup_ge_None in Hx.
    rewrite List.length_firstn. unfold ge in *. lia.
Qed.

Lemma digest_lines_entries (items : list news_item) (min_count : Z) :
  (0 <= min_count)%Z ->
  let lines := digest_lines other_str items min_count in
  List.length lines = Z.to_nat min_count /\
  (forall i item,
     (i < Z.to_nat min_count)%nat -> items !! i = Some item ->
     lines !! i = Some (digest_line other_str (S i) item)) /\
  (forall i,
     (List.length items <= i < Z.to_nat min_count)%nat ->
     lines !! i = Some (digest_placeholder (S i))).
Proof.
  intros Hmin. cbn zeta. unfold digest_lines.
  set (kept := list_upto items min_count).
  assert (Hkept : List.length kept = Nat.min (Z.to_nat min_count) (List.length items))
    by (apply list_upto_length; exact Hmin).
  rewrite numbered_lines_length. split_and!.
  - rewrite pad_lines_length, numbered_lines_length. lia.
  - intros i item Hi Hitem. apply pad_lines_keeps.
    rewrite (numbered_lines_lookup kept 1 i item); [reflexivity|].
    unfold kept. rewrite list_upto_lookup by assumption. exact Hitem.
  - intros i Hi. apply pad_lines_adds. rewrite numbered_lines_length. lia.
Qed.

Lemma digest_line_numbered (i : nat) (item : news_item) :
  exists rest,
    digest_line other_str i item = py_str_int (Z.of_nat i) ++ str ". " ++ rest.
Proof.
  unfold digest_line. cbn zeta.
  destruct (py_truthy (dict_get item (str "url") (PStr [])));
    destruct (py_truthy (dict_get item (str "source") (PStr [])));
    rewrite <- ?List.app_assoc; eexists; reflexivity.
Qed.

Lemma digest_line_of_strings (i : nat) (item : news_item) (title url source : pystr) :
  dict_get item (str "title") (PStr []) = PStr title ->
  dict_get item (str "url") (PStr []) = PStr url ->
  dict_get item (str "source") (PStr []) = PStr source ->
  digest_line other_str i item
    = py_str_int (Z.of_nat i) ++ str ". " ++ title
        ++ (if nonempty url then [LF] ++ str "   " ++ url else [])
        ++ (if nonempty source then str " (Source: " ++ source ++ str ")" else []).
Proof.
  intros Ht Hu Hs. unfold digest_line. cbn zeta. rewrite Ht, Hu, Hs.
  cbn [py_truthy format_value].
  destruct (nonempty url); destruct (nonempty source);
    rewrite <- ?List.app_assoc, ?List.app_nil_r; reflexivity.
Qed.

(** X24. For a count that is not negative [_format_digest] returns the
    heading, a blank line, and exactly [min_count] entries separated by
    blank lines. Entry [i] begins with the number [i + 1], a period and a
    space. For the items there are it is the line of item [i]: for str
    fields the title, then the URL on a line of its own behind three blanks
    when there is one, then [" (Source: <source>)"] when there is one.
    Beyond the items it is the placeholder text; items past the count are
    left out. *)
Theorem digest_has_min_count_entries (items : list news_item) (min_count : Z) :
  (0 <= min_count)%Z ->
  exists lines,
    _format_digest other_str items min_count
      = str "Tech News: AI Agents, AI Transformation, AI Trends & Startups"
          ++ [LF; LF] ++ join [LF; LF] lines /\
    List.length lines = Z.to_nat min_count /\
    (forall i line,
       lines !! i = Some line ->
       exists rest, line = py_str_int (Z.of_nat (i + 1)) ++ str ". " ++ rest) /\
    (forall i item title url source,
       (i < Z.to_nat min_count)%nat -> items !! i = Some item ->
       dict_get item (str "title") (PStr []) = PStr title ->
       dict_get item (str "url") (PStr []) = PStr url ->
       dict_get item (str "source") (PStr []) = PStr source ->
       lines !! i
         = Some (py_str_int (Z.of_nat (i + 1)) ++ str ". " ++ title
                   ++ (if nonempty url then [LF] ++ str "   " ++ url else [])
                   ++ (if nonempty source
                       then str " (Source: " ++ source ++ str ")" else []))) /\
    (forall i,
       (List.length items <= i < Z.to_nat min_count)%nat ->
       lines !! i
         = Some (py_str_int (Z.of_nat (i + 1))
                   ++ str ". [Placeholder: Add more sources or APIs for additional updates.]")).
Proof.
  intros Hmin.
  destruct (digest_lines_entries items min_count Hmin) as (Hlen & Hitems & Hpad).
  cbn zeta in *.
  exists (digest_lines other_str items min_count). split_and!.
  - unfold _format_digest, DIGEST_HEADER. rewrite <- List.app_assoc. reflexivity.
  - exact Hlen.
  - intros i line Hline.
    assert (Hi : (i < Z.to_nat min_count)%nat)
      by (rewrite <- Hlen; apply lookup_lt_Some in Hline; exact Hline).
    replace (i + 1)%nat with (S i) by lia.
    destruct (items !! i) as [item|] eqn:Hitem.
    + assert (Hl : Some line = Some (digest_line other_str (S i) item))
        by (etransitivity; [symmetry; exact Hline|exact (Hitems i item Hi Hitem)]).
      injection Hl as ->. apply digest_line_numbered.
    + apply lookup_ge_None in Hitem.
      assert (Hl : Some line = Some (digest_placeholder (S i)))
        by (etransitivity;
            [symmetry; exact Hline|exact (Hpad i ltac:(unfold ge in *; lia))]).
      injection Hl as ->. unfold digest_placeholder. eexists. reflexivity.
  - intros i item title url source Hi Hitem Ht Hu Hs.
    replace (i + 1)%nat with (S i) by lia.
    rewrite <- (digest_line_of_strings (S i) item title url source Ht Hu Hs).
    exact (Hitems i item Hi Hitem).
  - intros i Hi. replace (i + 1)%nat with (S i) by lia.
    exact (Hpad i Hi).
Qed.

Lemma dedupe_spec (items : list news_item) : forall (seen : gset pystr) unique,
  dedupe items seen = Ret unique ->
  exists titles,
    sublist unique items /\
    Forall2 (fun x t => stripped_title x = Ret t /\ t <> []) unique titles /\
    NoDup titles /\
    (forall t, t ∈ titles -> t ∉ seen) /\
    (forall x t, x ∈ items -> stripped_title x = Ret t -> t <> [] ->
                 t ∈ seen \/ t ∈ titles).
Proof.
  induction items as [|x items IH]; intros seen unique.
  - cbn. intros [= <-]. exists []. split_and!.
    + constructor.
    + constructor.
    + constructor.
    + intros t Ht. inversion Ht.
    + intros x t Hx. inversion Hx.
  - cbn [dedupe]. destruct (stripped_title x) as [t|e] eqn:Ht; [|discriminate].
    destruct (nonempty t && negb (bool_decide (t ∈ seen))) eqn:Ec.
    + apply andb_true_iff in Ec as [Hne Hnew].
      apply negb_true_iff, bool_decide_eq_false in Hnew.
      assert (Ht0 : t <> []) by (intros ->; discriminate).
      destruct (dedupe items ({[t]} ∪ seen)) as [u|e] eqn:Er; [|discriminate].
      intros [= <-].
      destruct (IH _ _ Er) as (titles & Hsub & Hall & Hnd & Hfresh & Hcomplete).
      exists (t :: titles). split_and!.
      * apply sublist_skip. exact Hsub.
      * constructor; [split; assumption|exact Hall].
      * constructor; [|exact Hnd]. intros Hin. apply Hfresh in Hin. set_solver.
      * intros t' Hin. apply elem_of_cons in Hin as [->|Hin]; [exact Hnew|].
        apply Hfresh in Hin. set_solver.
      * intros x' t' Hin Ht' Hne'. apply elem_of_cons in Hin as [->|Hin].
        -- right. rewrite Ht in Ht'. injection Ht' as <-. left.
        -- destruct (Hcomplete x' t' Hin Ht' Hne') as [Hs|Hs].
           ++ apply elem_of_union in Hs as [Hs|Hs].
              ** apply elem_of_singleton in Hs as ->. right. left.
              ** left. exact Hs.
           ++ right. right. exact Hs.
    + intros Hd.
      destruct (IH _ _ Hd) as (titles & Hsub & Hall & Hnd & Hfresh & Hcomplete).
      exists titles. split_and!; try assumption.
      * apply sublist_cons. exact Hsub.
      * intros x' t' Hin Ht' Hne'. apply elem_of_cons in Hin as [->|Hin].
        -- rewrite Ht in Ht'. injection Ht' as <-.
           apply andb_false_iff in Ec as [Ec|Ec].
           ++ destruct t; [contradiction|discriminate].
           ++ apply negb_false_iff, bool_decide_eq_true in Ec. left. exact Ec.
        -- exact (Hcomplete x' t' Hin Ht' Hne').
Qed.

(** X25. The digest is formatted from a selection of the fetched items that keeps
    their order, in which every item has a non-blank title, no two items
    have the same title once surrounding whitespace is removed, and every
    non-blank title that was fetched occurs. *)
Theorem digest_items_are_deduplicated (reddit twitter : list news_item)
    (min_items : Z) (digest : pystr) :
  fetch_tech_news_digest other_str reddit twitter min_items = Ret digest ->
  exists unique titles,
    digest = _format_digest other_str unique min_items /\
    sublist unique (reddit ++ twitter) /\
    Forall2 (fun x t => stripped_title x = Ret t /\ t <> []) unique titles /\
    NoDup titles /\
    (forall x t, x ∈ reddit ++ twitter -> stripped_title x = Ret t -> t <> [] ->
                 t ∈ titles).
Proof.
  unfold fetch_tech_news_digest.
  destruct (dedupe (reddit ++ twitter) ∅) as [unique|e] eqn:Hd; [|discriminate].
  intros [= <-].
  destruct (dedupe_spec _ _ _ Hd) as (titles & Hsub & Hall & Hnd & _ & Hcomplete).
  exists unique, titles. split_and!; try assumption; [reflexivity|].
  intros x t Hin Ht Hne. destruct (Hcomplete x t Hin Ht Hne) as [Hs|Hs]; [|exact Hs].
  set_solver.
Qed.
End news_facts.

(** Three posts and a count of four: three item entries, the third without
    a URL, and one placeholder. *)
Lemma digest_has_min_count_entries_witness :
  (exists lines,
     _format_digest (fun _ => []) example_posts 4
       = str "Tech News: AI Agents, AI Transformation, AI Trends & Startups"
           ++ [LF; LF] ++ join [LF; LF] lines /\
     List.length lines = 4%nat /\
     lines !! 2%nat = Some (str "3. Startups (Source: Twitter)") /\
     lines !! 3%nat
       = Some (str "4. [Placeholder: Add more sources or APIs for additional updates.]")) /\
  _format_digest (fun _ => []) example_posts 4
    = str "Tech News: AI Agents, AI Transformation, AI Trends & Startups"
        ++ [LF; LF]
        ++ str "1. Agents" ++ [LF] ++ str "   https://r/1 (Source: r/artificial)"
        ++ [LF; LF]
        ++ str "2.  Agents " ++ [LF]
        ++ str "   https://r/2 (Source: r/MachineLearning)"
        ++ [LF; LF]
        ++ str "3. Startups (Source: Twitter)"
        ++ [LF; LF]
        ++ str "4. [Placeholder: Add more sources or APIs for additional updates.]".
Proof.
  split; [|vm_compute; reflexivity].
  destruct (digest_has_min_count_entries (fun _ => []) example_posts 4 ltac:(lia))
    as (lines & Hdigest & Hlen & _ & Hitems & Hpad).
  exists lines. split_and!.
  - exact Hdigest.
  - exact Hlen.
  - exact (Hitems 2%nat _ (str "Startups") [] (str "Twitter")
             ltac:(cbn; lia) eq_refl eq_refl eq_refl eq_refl).
  - exact (Hpad 3%nat ltac:(cbn; lia)).
Defined.

(** Of two posts titled ["Agents"] and [" Agents "] the first is kept. *)
Lemma digest_items_are_deduplicated_witness :
  exists unique titles,
    _format_digest (fun _ => [])
        (List.firstn 1 example_posts ++ List.skipn 2 example_posts) 5
      = _format_digest (fun _ => []) unique 5 /\
    sublist unique (List.firstn 2 example_posts ++ List.skipn 2 example_posts) /\
    Forall2 (fun x t => stripped_title x = Ret t /\ t <> []) unique titles /\
    NoDup titles /\
    (forall x t,
       x ∈ List.firstn 2 example_posts ++ List.skipn 2 example_posts ->
       stripped_title x = Ret t -> t <> [] -> t ∈ titles).
Proof.
  exact (digest_items_are_deduplicated (fun _ => [])
           (List.firstn 2 example_posts) (List.skipn 2 example_posts) 5 _
           ltac:(vm_compute; reflexivity)).
Defined.

(** * One more fact about document ids *)

Lemma plain_id_char_kept (lib : pylib) (c : codepoint) :
  plain_id_char c = true ->
  is_ascii c = true /\ (is_word lib c || (c =? HYPHEN)%N) = true.
Proof.
  unfold plain_id_char, is_word, is_ascii, ascii_alnum, UNDERSCORE, HYPHEN.
  intros H.
  assert (Ha : (c <? 128)%N = true).
  { apply N.ltb_lt.
    repeat (apply orb_true_iff in H as [H|H]);
      repeat (apply andb_true_iff in H as [? H]);
      repeat match goal with
             | H : (_ <=? _)%N = true |- _ => apply N.leb_le in H
             | H : (_ =? _)%N = true |- _ => apply N.eqb_eq in H
             end; lia. }
  split; [exact Ha|]. rewrite Ha.
  repeat (apply orb_true_iff in H as [H|H]); rewrite ?H, ?orb_true_r; reflexivity.
Qed.

Lemma plain_stem_unchanged (lib : pylib) (s : pystr) :
  forallb plain_id_char s = true ->
  encode_ascii_replace (sub_nonword lib s) = s.
Proof.
  induction s as [|c s IH]; [reflexivity|].
  cbn [forallb]. intros H. apply andb_true_iff in H as [Hc Hs].
  destruct (plain_id_char_kept lib c Hc) as [Ha Hw].
  unfold encode_ascii_replace, sub_nonword in *. cbn [List.map].
  rewrite Hw, Ha. f_equal. exact (IH Hs).
Qed.

Lemma forallb_firstn {A : Type} (P : A -> bool) (n : nat) (l : list A) :
  forallb P l = true -> forallb P (firstn n l) = true.
Proof.
  revert n. induction l as [|x l IH]; intros [|n]; try reflexivity.
  cbn. intros H. apply andb_true_iff in H as [Hx Hl].
  rewrite Hx. exact (IH n Hl).
Qed.

(** X26. A file whose stem is made of ASCII letters, digits, underscores and
    hyphens only gets its stem as document id, cut after 80 characters. *)
Theorem safe_doc_id_keeps_plain_stems (lib : pylib) (name : pystr) :
  path_stem lib name <> [] ->
  forallb plain_id_char (path_stem lib name) = true ->
  _safe_doc_id lib name = firstn 80 (path_stem lib name).
Proof.
  intros Hne Hplain.
  destruct (safe_doc_id_cases lib name) as [[He _]|[_ ->]]; [contradiction|].
  apply plain_stem_unchanged, forallb_firstn. exact Hplain.
Qed.

Lemma safe_doc_id_keeps_plain_stems_witness :
  _safe_doc_id posix_lib (str "docs/report-2024_v2.pdf") = str "report-2024_v2".
Proof.
  exact (safe_doc_id_keeps_plain_stems posix_lib (str "docs/report-2024_v2.pdf")
           ltac:(vm_compute; discriminate) ltac:(vm_compute; reflexivity)).
Defined.
